(** * TabView: a tabbed container and its tab buttons

    A shallow embedding of the [TabView] and [TabButton] widgets of the
    [gi] package, and proofs about the way the container keeps its row of
    tab buttons and its stacked frame of content widgets in step.

    The widget tree, the update bracket ([UpdateStart] / [UpdateEnd],
    [SetFullReRender]) and the styling calls belong to the surrounding
    toolkit.  Of the tree only the two child lists the container manages are
    kept; the update bracket and styling touch neither of them and are left
    out.  A Go [int] is modelled by [Z]: the only arithmetic is [idx - 1],
    [sz - 1] and [ntb - 1] on slice lengths and validated indices, which
    cannot wrap.

    The generated [String] and [FromString] of [TextViewSignals] (package
    [giv]) are embedded as well, further down. *)

From Stdlib Require Import ZArith String Bool Lia.
From Stdlib Require Import DecimalString DecimalZ DecimalPos.
From stdpp Require Import base option list.

Open Scope string_scope.
Open Scope list_scope.

(** ** Data model *)

(** The registered node types the source names. *)
Inductive KiType : Type :=
  | KiT_TabView
  | KiT_TabButton
  | KiT_Action
  | KiT_Frame
  | KiT_Stretch.

Definition KiType_eqb (a b : KiType) : bool :=
  match a, b with
  | KiT_TabView, KiT_TabView
  | KiT_TabButton, KiT_TabButton
  | KiT_Action, KiT_Action
  | KiT_Frame, KiT_Frame
  | KiT_Stretch, KiT_Stretch => true
  | _, _ => false
  end.

(** A content widget held by the stacked frame (a [Node2D]).  [NodeId] stands
    for the identity of the Go pointer. *)
Record Node2D : Type := mkNode2D {
  NodeId : nat;
  NodeType : KiType;
  NodeName : string;
  Invisible : bool
}.

(** A child of the tab strip: a [TabButton] or the plain [Action] behind the
    new-tab button ([TabButton] embeds [Action], so both carry the same
    fields).  [Data] is an [interface{}] in the source: [Some i] when it holds
    the int [i], [None] when it is nil or holds anything else, which is all
    the type assertion [Data.(int)] can tell apart. *)
Record Button : Type := mkButton {
  BType : KiType;
  BName : string;
  Data : option Z;
  Tooltip : string;
  Text : string;
  Icon : string;
  Selected : bool
}.

(** [TabViewSignals]: the iota block of the source. *)
Inductive TabViewSignals : Type :=
  | TabSelected
  | TabAdded
  | TabDeleted
  | TabViewSignalsN.

(** The one diagnostic the source prints: index and number of tabs. *)
Inductive LogEntry : Type :=
  | LogOutOfRange (idx sz : Z).

(** The container.  [Inited] is [len(tv.Kids) != 0]; [TabsKids] are the
    children of child 0 (the "tabs" frame), [FrameKids] and [StackTop] the
    children and the stack index of child 1 (the stacked "frame").  [Log] and
    [Emitted] record, oldest first, what went to the logger and to
    [TabViewSig]. *)
Record TabView : Type := mkTabView {
  Inited : bool;
  TabsKids : list Button;
  FrameKids : list Node2D;
  StackTop : Z;
  NewTabButton : bool;
  NewTabType : option KiType;
  Log : list LogEntry;
  Emitted : list (TabViewSignals * Z)
}.

Definition set_TabsKids (l : list Button) (tv : TabView) : TabView :=
  mkTabView (Inited tv) l (FrameKids tv) (StackTop tv) (NewTabButton tv)
            (NewTabType tv) (Log tv) (Emitted tv).

Definition set_FrameKids (l : list Node2D) (tv : TabView) : TabView :=
  mkTabView (Inited tv) (TabsKids tv) l (StackTop tv) (NewTabButton tv)
            (NewTabType tv) (Log tv) (Emitted tv).

Definition set_StackTop (z : Z) (tv : TabView) : TabView :=
  mkTabView (Inited tv) (TabsKids tv) (FrameKids tv) z (NewTabButton tv)
            (NewTabType tv) (Log tv) (Emitted tv).

Definition set_NewTabButton (b : bool) (tv : TabView) : TabView :=
  mkTabView (Inited tv) (TabsKids tv) (FrameKids tv) (StackTop tv) b
            (NewTabType tv) (Log tv) (Emitted tv).

Definition set_NewTabType (t : option KiType) (tv : TabView) : TabView :=
  mkTabView (Inited tv) (TabsKids tv) (FrameKids tv) (StackTop tv)
            (NewTabButton tv) t (Log tv) (Emitted tv).

Definition add_Log (e : LogEntry) (tv : TabView) : TabView :=
  mkTabView (Inited tv) (TabsKids tv) (FrameKids tv) (StackTop tv)
            (NewTabButton tv) (NewTabType tv) (Log tv ++ [e]) (Emitted tv).

Definition add_Emitted (s : TabViewSignals) (d : Z) (tv : TabView) : TabView :=
  mkTabView (Inited tv) (TabsKids tv) (FrameKids tv) (StackTop tv)
            (NewTabButton tv) (NewTabType tv) (Log tv) (Emitted tv ++ [(s, d)]).

(** Field writes on a button. *)
Definition set_Data (d : option Z) (b : Button) : Button :=
  mkButton (BType b) (BName b) d (Tooltip b) (Text b) (Icon b) (Selected b).

Definition set_Tooltip (s : string) (b : Button) : Button :=
  mkButton (BType b) (BName b) (Data b) s (Text b) (Icon b) (Selected b).

Definition SetText (s : string) (b : Button) : Button :=
  mkButton (BType b) (BName b) (Data b) (Tooltip b) s (Icon b) (Selected b).

Definition SetIcon (s : string) (b : Button) : Button :=
  mkButton (BType b) (BName b) (Data b) (Tooltip b) (Text b) s (Selected b).

Definition SetSelectedState (sel : bool) (b : Button) : Button :=
  mkButton (BType b) (BName b) (Data b) (Tooltip b) (Text b) (Icon b) sel.

Definition IsSelected (b : Button) : bool := Selected b.

Definition SetInvisibleTree (w : Node2D) : Node2D :=
  mkNode2D (NodeId w) (NodeType w) (NodeName w) true.

(** ** The tree node interface the container relies on

    These belong to the [ki] package.  On indices inside the slice they are
    the ordered insert, delete and lookup; outside it the model gives no
    result, so that nothing proved below depends on what [ki] does there. *)

Definition len {A : Type} (l : list A) : Z := Z.of_nat (length l).

(** [KnownChild(idx)]. *)
Definition KnownChild {A : Type} (kids : list A) (idx : Z) : option A :=
  if (idx <? 0)%Z then None else kids !! Z.to_nat idx.

(** [InsertChild(kid, idx)], for [0 <= idx <= len]. *)
Definition InsertChild {A : Type} (kids : list A) (kid : A) (idx : Z)
  : option (list A) :=
  if ((0 <=? idx) && (idx <=? len kids))%Z
  then Some (take (Z.to_nat idx) kids ++ kid :: drop (Z.to_nat idx) kids)
  else None.

(** [DeleteChildAtIndex(idx, destroy)], for [0 <= idx < len]. *)
Definition DeleteChildAtIndex {A : Type} (kids : list A) (idx : Z)
  : option (list A) :=
  if ((0 <=? idx) && (idx <? len kids))%Z
  then Some (take (Z.to_nat idx) kids ++ drop (S (Z.to_nat idx)) kids)
  else None.

(** [Children().IndexByName(label, 0)]: position of the first child of that
    name, searching from the front. *)
Fixpoint IndexByName_from (kids : list Button) (label : string) (i : Z)
  : option Z :=
  match kids with
  | [] => None
  | b :: rest =>
      if String.eqb (BName b) label then Some i
      else IndexByName_from rest label (i + 1)%Z
  end.

Definition IndexByName (kids : list Button) (label : string) : option Z :=
  IndexByName_from kids label 0%Z.

(** A child made by [InsertNewChild(typ, idx, name)] before any field is
    written: Go's zero values. *)
Definition NewButton (typ : KiType) (name : string) : Button :=
  mkButton typ name None EmptyString EmptyString EmptyString false.

Definition NewNode2D (id : nat) (typ : KiType) (name : string) : Node2D :=
  mkNode2D id typ name false.

(** [Embed(KiT_TabButton)] followed by the assertion to a tab button
    pointer: nil, and so a failed assertion, unless the node is a tab
    button. *)
Definition asTabButton (b : Button) : option Button :=
  if KiType_eqb (BType b) KiT_TabButton then Some b else None.

(** ** Effects

    Methods read and write the container through a pointer and may panic
    (an index outside a slice, a failed type assertion).  [M A] threads the
    container and gives [None] for a panic. *)

Definition M (A : Type) : Type := TabView -> option (A * TabView).

Definition ret {A : Type} (a : A) : M A := fun tv => Some (a, tv).

Definition bind {A B : Type} (m : M A) (k : A -> M B) : M B :=
  fun tv => match m tv with
            | Some (a, tv') => k a tv'
            | None => None
            end.

Definition lift {A : Type} (o : option A) : M A :=
  fun tv => match o with
            | Some a => Some (a, tv)
            | None => None
            end.

Definition gets {A : Type} (f : TabView -> A) : M A :=
  fun tv => Some (f tv, tv).

Definition modify (f : TabView -> TabView) : M unit :=
  fun tv => Some (tt, f tv).

Notation "x <- c1 ;; c2" := (bind c1 (fun x => c2))
  (at level 100, c1 at next level, right associativity).
Notation "c1 ;; c2" := (bind c1 (fun _ => c2))
  (at level 100, right associativity).

(** [for i := start; i < start + n; i++ { body i }]. *)
Fixpoint for_range (start n : nat) (body : nat -> M unit) : M unit :=
  match n with
  | O => ret tt
  | S n' => body start ;; for_range (S start) n' body
  end.

(** Write through a pointer to the strip child, or frame child, at [i]. *)
Definition write_tab (i : Z) (f : Button -> Button) : M unit :=
  tbs <- gets TabsKids ;;
  tab <- lift (KnownChild tbs i) ;;
  modify (set_TabsKids (<[Z.to_nat i := f tab]> tbs)).

Definition write_widg (i : Z) (f : Node2D -> Node2D) : M unit :=
  kids <- gets FrameKids ;;
  widg <- lift (KnownChild kids i) ;;
  modify (set_FrameKids (<[Z.to_nat i := f widg]> kids)).

(** ** The container's methods *)

(** [ConfigNewTabButton], over the two accessors it calls first:
    [ntabs] is [tv.NTabs()] and [tabs] is [tv.Tabs()]. *)
Definition ConfigNewTabButton_with (ntabs : M Z) (tabs : M (list Button))
  : M bool :=
  sz <- ntabs ;;
  tb <- tabs ;;
  let ntb := len tb in
  flag <- gets NewTabButton ;;
  if flag then
    if (ntb =? sz + 1)%Z then ret false
    else
      typ <- gets NewTabType ;;
      (match typ with
       | None => modify (set_NewTabType (Some KiT_Frame))
       | Some _ => ret tt
       end) ;;
      tb' <- lift (InsertChild tb (NewButton KiT_Action "new-tab") ntb) ;;
      modify (set_TabsKids tb') ;;
      write_tab ntb (set_Data (Some (-1)%Z)) ;;
      write_tab ntb (SetIcon "plus") ;;
      ret true
  else
    if (ntb =? sz)%Z then ret false
    else
      tb' <- lift (DeleteChildAtIndex tb (ntb - 1)%Z) ;;
      modify (set_TabsKids tb') ;;
      ret true.

(** [InitTabView]: builds the two frames on first use.  A frame made by
    [AddNewChild] has Go's zero [StackTop], 0.  The call of
    [ConfigNewTabButton] at its end re-enters [InitTabView] through [NTabs]
    and [Tabs], where [len(tv.Kids) != 0] now returns at once, so there the
    two accessors only read the frames. *)
Definition InitTabView : M unit :=
  inited <- gets Inited ;;
  if inited then ret tt
  else
    modify (fun tv => mkTabView true [] [] 0%Z (NewTabButton tv)
                                (NewTabType tv) (Log tv) (Emitted tv)) ;;
    ConfigNewTabButton_with (gets (fun tv => len (FrameKids tv)))
                            (gets TabsKids) ;;
    ret tt.

(** [Tabs] and [Frame] return pointers to the two frames; the model hands
    back the children as they are at the call, and reads them again where
    the source reads through the pointer after a write. *)
Definition Tabs : M (list Button) :=
  InitTabView ;; gets TabsKids.

Definition Frame : M (list Node2D) :=
  InitTabView ;; gets FrameKids.

(** [NTabs]: [Frame] asserts the type of child 1 and so never hands back
    nil; the nil branch of the source is dead. *)
Definition NTabs : M Z :=
  fr <- Frame ;;
  ret (len fr).

Definition ConfigNewTabButton : M bool :=
  ConfigNewTabButton_with NTabs Tabs.

(** [CurTab]: the child access at [StackTop] is unchecked. *)
Definition CurTab : M (option Node2D * Z * bool) :=
  n <- NTabs ;;
  if (n =? 0)%Z then ret (None, (-1)%Z, false)
  else
    fr <- Frame ;;
    top <- gets StackTop ;;
    if (top <? 0)%Z then ret (None, (-1)%Z, false)
    else
      widg <- lift (KnownChild fr top) ;;
      ret (Some widg, top, true).

(** [InsertTabOnlyAt]: [widg] is the frame child the caller has just put at
    [idx]; the writes to [tab] and [widg] go through their pointers, that
    is to the children at [idx].  The click handler connected here is
    [TabClicked] below. *)
Definition InsertTabOnlyAt (label : string) (idx : Z) : M unit :=
  tb <- Tabs ;;
  tb' <- lift (InsertChild tb (NewButton KiT_TabButton label) idx) ;;
  modify (set_TabsKids tb') ;;
  write_tab idx (set_Data (Some idx)) ;;
  write_tab idx (set_Tooltip label) ;;
  write_tab idx (SetText label) ;;
  fr <- Frame ;;
  if (len fr =? 1)%Z then
    modify (set_StackTop 0%Z) ;;
    write_tab idx (SetSelectedState true)
  else
    write_widg idx SetInvisibleTree.

Definition InsertTab (widg : Node2D) (label : string) (idx : Z) : M unit :=
  fr <- Frame ;;
  fr' <- lift (InsertChild fr widg idx) ;;
  modify (set_FrameKids fr') ;;
  InsertTabOnlyAt label idx.

Definition AddTab (widg : Node2D) (label : string) : M Z :=
  fr <- Frame ;;
  let idx := len fr in
  InsertTab widg label idx ;;
  ret idx.

(** [InsertNewTab]: [id] names the widget that [InsertNewChild] allocates. *)
Definition InsertNewTab (id : nat) (typ : KiType) (label : string) (idx : Z)
  : M Node2D :=
  fr <- Frame ;;
  fr' <- lift (InsertChild fr (NewNode2D id typ label) idx) ;;
  modify (set_FrameKids fr') ;;
  InsertTabOnlyAt label idx ;;
  fr2 <- gets FrameKids ;;
  lift (KnownChild fr2 idx).

Definition AddNewTab (id : nat) (typ : KiType) (label : string)
  : M (Node2D * Z) :=
  fr <- Frame ;;
  let idx := len fr in
  widg <- InsertNewTab id typ label idx ;;
  ret (widg, idx).

Definition AddNewTabAction (id : nat) (typ : KiType) (label : string)
  : M (Node2D * Z) :=
  r <- AddNewTab id typ label ;;
  modify (add_Emitted TabAdded (snd r)) ;;
  ret r.

(** [TabAtIndex]: the tab button comes back as a pointer, here its value at
    the call. *)
Definition TabAtIndex (idx : Z) : M (option Node2D * option Button * bool) :=
  fr <- Frame ;;
  tb <- Tabs ;;
  let sz := len fr in
  if ((idx <? 0) || (idx >=? sz))%Z then
    modify (add_Log (LogOutOfRange idx sz)) ;;
    ret (None, None, false)
  else
    k <- lift (KnownChild tb idx) ;;
    tab <- lift (asTabButton k) ;;
    widg <- lift (KnownChild fr idx) ;;
    ret (Some widg, Some tab, true).

Definition UnselectOtherTabs (idx : Z) : M unit :=
  sz <- NTabs ;;
  _ <- Tabs ;;
  for_range 0 (Z.to_nat sz) (fun i =>
    if (Z.of_nat i =? idx)%Z then ret tt
    else
      tbs <- gets TabsKids ;;
      k <- lift (KnownChild tbs (Z.of_nat i)) ;;
      tb <- lift (asTabButton k) ;;
      if IsSelected tb
      then write_tab (Z.of_nat i) (SetSelectedState false)
      else ret tt).

Definition RenumberTabs : M unit :=
  sz <- NTabs ;;
  _ <- Tabs ;;
  for_range 0 (Z.to_nat sz) (fun i =>
    tbs <- gets TabsKids ;;
    k <- lift (KnownChild tbs (Z.of_nat i)) ;;
    _ <- lift (asTabButton k) ;;
    write_tab (Z.of_nat i) (set_Data (Some (Z.of_nat i)))).

Definition SelectTabIndex (idx : Z) : M (option Node2D * bool) :=
  r <- TabAtIndex idx ;;
  let '(widg, _, ok) := r in
  if negb ok then ret (None, false)
  else
    _ <- Frame ;;
    top <- gets StackTop ;;
    if (top =? idx)%Z then ret (widg, true)
    else
      UnselectOtherTabs idx ;;
      write_tab idx (SetSelectedState true) ;;
      modify (set_StackTop idx) ;;
      ret (widg, true).

Definition SelectTabIndexAction (idx : Z) : M unit :=
  r <- SelectTabIndex idx ;;
  if snd r then modify (add_Emitted TabSelected idx) else ret tt.

Definition TabByName (label : string) : M (option Node2D * Z * bool) :=
  tb <- Tabs ;;
  match IndexByName tb label with
  | None => ret (None, (-1)%Z, false)
  | Some idx =>
      fr <- Frame ;;
      widg <- lift (KnownChild fr idx) ;;
      ret (Some widg, idx, true)
  end.

Definition SelectTabByName (label : string) : M (option Node2D * Z * bool) :=
  r <- TabByName label ;;
  let '(widg, idx, ok) := r in
  (if ok then (_ <- SelectTabIndex idx ;; ret tt) else ret tt) ;;
  ret (widg, idx, ok).

Definition DeleteTabIndex (idx : Z) (destroy : bool)
  : M (option Node2D * bool) :=
  r <- TabAtIndex idx ;;
  let '(widg, _, ok) := r in
  if negb ok then ret (None, false)
  else
    fr <- Frame ;;
    let sz := len fr in
    tb <- Tabs ;;
    top <- gets StackTop ;;
    let nxtidx :=
      if (top =? idx)%Z then
        if (idx >? 0)%Z then (idx - 1)%Z
        else if (idx <? sz - 1)%Z then idx
        else (-1)%Z
      else (-1)%Z in
    fr' <- lift (DeleteChildAtIndex fr idx) ;;
    modify (set_FrameKids fr') ;;
    tb' <- lift (DeleteChildAtIndex tb idx) ;;
    modify (set_TabsKids tb') ;;
    RenumberTabs ;;
    (if (nxtidx >=? 0)%Z then (_ <- SelectTabIndex nxtidx ;; ret tt)
     else ret tt) ;;
    if destroy then ret (None, true) else ret (widg, true).

Definition DeleteTabIndexAction (idx : Z) : M unit :=
  r <- DeleteTabIndex idx true ;;
  if snd r then modify (add_Emitted TabDeleted idx) else ret tt.

(** *** Signal handlers *)

(** The handler [InsertTabOnlyAt] connects to a tab button's action signal;
    [pos] is where the sending button sits in the strip. *)
Definition TabClicked (pos : nat) : M unit :=
  tbs <- gets TabsKids ;;
  send <- lift (tbs !! pos) ;;
  act <- lift (asTabButton send) ;;
  tabIdx <- lift (Data act) ;;
  _ <- SelectTabIndex tabIdx ;;
  ret tt.


(** *** TabButton *)

(** The nodes above a tab button, nearest first: a [TabView] with its state,
    or a node of another type. *)
Inductive Ancestor : Type :=
  | AncTabView (tv : TabView)
  | AncOther (typ : KiType).

(** [ParentByType(KiT_TabView, true)]: the nearest ancestor that is a
    [TabView], with its distance. *)
Fixpoint ParentByType_TabView (path : list Ancestor) : option (nat * TabView) :=
  match path with
  | [] => None
  | AncTabView tv :: _ => Some (O, tv)
  | AncOther _ :: up =>
      match ParentByType_TabView up with
      | Some (k, tv) => Some (S k, tv)
      | None => None
      end
  end.

(** [tb.TabView()]. *)
Definition TabButton_TabView (path : list Ancestor) : option (nat * TabView) :=
  ParentByType_TabView path.

(** The handler [ConfigParts] connects to the close control of [tbb], whose
    ancestors are [path].  It gives the tree above the button afterwards, or
    [None] for a panic. *)
Definition CloseClicked (tbb : Button) (path : list Ancestor)
  : option (list Ancestor) :=
  match asTabButton tbb with
  | None => None
  | Some tbb =>
      match Data tbb with
      | None => None
      | Some tabIdx =>
          match TabButton_TabView path with
          | None => Some path
          | Some (k, tvv) =>
              match DeleteTabIndexAction tabIdx tvv with
              | Some (_, tvv') => Some (<[k := AncTabView tvv']> path)
              | None => None
              end
          end
      end
  end.

(** ** Running the documented operations *)

Inductive Op : Type :=
  | OpInsertTab (widg : Node2D) (label : string) (idx : Z)
  | OpAddTab (widg : Node2D) (label : string)
  | OpInsertNewTab (id : nat) (typ : KiType) (label : string) (idx : Z)
  | OpAddNewTab (id : nat) (typ : KiType) (label : string)
  | OpAddNewTabAction (id : nat) (typ : KiType) (label : string)
  | OpSelectTabIndex (idx : Z)
  | OpSelectTabIndexAction (idx : Z)
  | OpSelectTabByName (label : string)
  | OpDeleteTabIndex (idx : Z) (destroy : bool)
  | OpDeleteTabIndexAction (idx : Z)
  | OpSetNewTabButton (flag : bool)
  | OpConfigNewTabButton.

Definition exec {A : Type} (m : M A) (tv : TabView) : option TabView :=
  match m tv with
  | Some (_, tv') => Some tv'
  | None => None
  end.

Definition run_op (op : Op) (tv : TabView) : option TabView :=
  match op with
  | OpInsertTab widg label idx => exec (InsertTab widg label idx) tv
  | OpAddTab widg label => exec (AddTab widg label) tv
  | OpInsertNewTab id typ label idx => exec (InsertNewTab id typ label idx) tv
  | OpAddNewTab id typ label => exec (AddNewTab id typ label) tv
  | OpAddNewTabAction id typ label => exec (AddNewTabAction id typ label) tv
  | OpSelectTabIndex idx => exec (SelectTabIndex idx) tv
  | OpSelectTabIndexAction idx => exec (SelectTabIndexAction idx) tv
  | OpSelectTabByName label => exec (SelectTabByName label) tv
  | OpDeleteTabIndex idx destroy => exec (DeleteTabIndex idx destroy) tv
  | OpDeleteTabIndexAction idx => exec (DeleteTabIndexAction idx) tv
  | OpSetNewTabButton flag => Some (set_NewTabButton flag tv)
  | OpConfigNewTabButton => exec ConfigNewTabButton tv
  end.

Fixpoint run_ops (ops : list Op) (tv : TabView) : option TabView :=
  match ops with
  | [] => Some tv
  | op :: rest =>
      match run_op op tv with
      | Some tv' => run_ops rest tv'
      | None => None
      end
  end.

(** A container as allocated, before first use. *)
Definition NewTabView (flag : bool) : TabView :=
  mkTabView false [] [] 0%Z flag None [] [].

(** ** Well-formed containers

    The shape every operation keeps: the frames exist, the strip holds one
    tab button per content widget, in front, and at most one further child
    (the new-tab button). *)
Record wf (tv : TabView) : Prop := mk_wf {
  wf_inited : Inited tv = true;
  wf_le : (length (FrameKids tv) <= length (TabsKids tv))%nat;
  wf_ge : (length (TabsKids tv) <= S (length (FrameKids tv)))%nat;
  wf_tabs : forall (i : nat) (b : Button),
      (i < length (FrameKids tv))%nat ->
      TabsKids tv !! i = Some b -> BType b = KiT_TabButton
}.

(** ** Closed forms, reachability and the properties studied

    What the operations leave behind on a well-formed container, written
    out as plain functions; the containers a program can reach; and the
    predicates the theorems are about. *)

(** What a loop over positions [start .. start + n - 1] leaves in the strip
    when its body rewrites the button at [j] to [g j]. *)
Definition map_range (start n : nat) (g : nat -> Button -> Button)
  (tbs : list Button) : list Button :=
  imap (fun j b => if ((start <=? j) && (j <? start + n))%nat
                   then g j b else b) tbs.

(** The strip after [UnselectOtherTabs(idx)] and after [RenumberTabs] on a
    container of [sz] tabs. *)
Definition unselect_others (sz : nat) (idx : Z) : list Button -> list Button :=
  map_range 0 sz (fun j b => if (Z.of_nat j =? idx)%Z then b
                             else SetSelectedState false b).

Definition renumber (sz : nat) : list Button -> list Button :=
  map_range 0 sz (fun j b => set_Data (Some (Z.of_nat j)) b).

(** The strip after a selection that changes the visible tab: the button at
    [idx] is selected, every other tab button is not, and nothing else about
    any child of the strip changes. *)
Definition select_only (sz : nat) (idx : Z) (tbs : list Button) : list Button :=
  imap (fun j b => if (Z.of_nat j =? idx)%Z then SetSelectedState true b
                   else if (j <? sz)%nat then SetSelectedState false b
                   else b) tbs.

(** The tab button [InsertTabOnlyAt] leaves at [idx]. *)
Definition new_tab (label : string) (idx : Z) (sel : bool) : Button :=
  mkButton KiT_TabButton label (Some idx) label label EmptyString sel.

(** [InsertTab] on a well-formed container, for an index inside the
    documented range. *)
Definition InsertTab_result (widg : Node2D) (label : string) (idx : Z)
  (tv : TabView) : TabView :=
  let i := Z.to_nat idx in
  let first := (length (FrameKids tv) =? 0)%nat in
  mkTabView (Inited tv)
    (take i (TabsKids tv) ++ new_tab label idx first :: drop i (TabsKids tv))
    (take i (FrameKids tv)
       ++ (if first then widg else SetInvisibleTree widg)
       :: drop i (FrameKids tv))
    (if first then 0%Z else StackTop tv)
    (NewTabButton tv) (NewTabType tv) (Log tv) (Emitted tv).

(** The index [DeleteTabIndex] selects afterwards, or -1. *)
Definition next_index (top idx sz : Z) : Z :=
  if (top =? idx)%Z then
    if (idx >? 0)%Z then (idx - 1)%Z
    else if (idx <? sz - 1)%Z then idx
    else (-1)%Z
  else (-1)%Z.

(** The container after the two deletions and the renumbering. *)
Definition deleted (idx : Z) (tv : TabView) : TabView :=
  let i := Z.to_nat idx in
  let fr' := take i (FrameKids tv) ++ drop (S i) (FrameKids tv) in
  let tb' := take i (TabsKids tv) ++ drop (S i) (TabsKids tv) in
  set_TabsKids (renumber (length fr') tb')
    (set_TabsKids tb' (set_FrameKids fr' tv)).

(** [DeleteTabIndex] on a well-formed container and a valid index: the
    deletions and the renumbering, then [SelectTabIndex(nxtidx)] when
    [nxtidx >= 0], which is a no-op when [StackTop] already is [nxtidx]. *)
Definition DeleteTabIndex_result (idx : Z) (tv : TabView) : TabView :=
  let tv2 := deleted idx tv in
  let nxtidx := next_index (StackTop tv) idx (len (FrameKids tv)) in
  if (nxtidx >=? 0)%Z then
    if (StackTop tv =? nxtidx)%Z then tv2
    else set_StackTop nxtidx
           (set_TabsKids
              (select_only (length (FrameKids tv2)) nxtidx (TabsKids tv2))
              tv2)
  else tv2.

(** The new-tab button as [ConfigNewTabButton] leaves it. *)
Definition new_tab_button : Button :=
  mkButton KiT_Action "new-tab" (Some (-1)%Z) EmptyString EmptyString "plus"
           false.

(** [NewTabButton ? 1 : 0]. *)
Definition flag_count (tv : TabView) : nat :=
  if NewTabButton tv then 1%nat else 0%nat.

(** [ConfigNewTabButton] on a well-formed container: the container it
    leaves, and the boolean it returns. *)
Definition ConfigNewTabButton_result (tv : TabView) : TabView :=
  if NewTabButton tv then
    if (length (TabsKids tv) =? S (length (FrameKids tv)))%nat then tv
    else set_TabsKids (TabsKids tv ++ [new_tab_button])
           (set_NewTabType
              (Some (match NewTabType tv with
                     | Some t => t
                     | None => KiT_Frame
                     end)) tv)
  else
    if (length (TabsKids tv) =? length (FrameKids tv))%nat then tv
    else set_TabsKids (take (length (FrameKids tv)) (TabsKids tv)) tv.

Definition ConfigNewTabButton_changes (tv : TabView) : bool :=
  if NewTabButton tv
  then negb (length (TabsKids tv) =? S (length (FrameKids tv)))%nat
  else negb (length (TabsKids tv) =? length (FrameKids tv))%nat.

(** The containers a program can hold: a fresh one after its first use, and
    whatever the documented operations make of it.  An operation that
    panics reaches nothing. *)
Inductive reachable : TabView -> Prop :=
  | reach_init (flag : bool) (tv : TabView) :
      InitTabView (NewTabView flag) = Some (tt, tv) -> reachable tv
  | reach_step (tv : TabView) (op : Op) (tv' : TabView) :
      reachable tv -> run_op op tv = Some tv' -> reachable tv'.

(** The container once its two frames exist: itself if they do, and else
    what [InitTabView] builds. *)
Definition started (tv : TabView) : TabView :=
  if Inited tv then tv
  else if NewTabButton tv
       then mkTabView true [new_tab_button] [] 0%Z true
              (Some (match NewTabType tv with
                     | Some t => t
                     | None => KiT_Frame
                     end))
              (Log tv) (Emitted tv)
       else mkTabView true [] [] 0%Z false (NewTabType tv) (Log tv) (Emitted tv).

(** A container right after its first use. *)
Definition InitialTabView (flag : bool) : TabView :=
  if flag
  then mkTabView true [new_tab_button] [] 0%Z true (Some KiT_Frame) [] []
  else mkTabView true [] [] 0%Z false None [] [].

(** Three content widgets. *)
Definition wA : Node2D := mkNode2D 1 KiT_Frame "A" false.
Definition wB : Node2D := mkNode2D 2 KiT_Frame "B" false.
Definition wC : Node2D := mkNode2D 3 KiT_Frame "C" false.

(** Tabs A, B, C added in turn to a fresh container. *)
Definition tabsABC : list Op :=
  [OpAddTab wA "A"; OpAddTab wB "B"; OpAddTab wC "C"].

Definition tabsAB : list Op :=
  [OpAddTab wA "A"; OpAddTab wB "B"].

(** The index tags of the tab buttons agree with their positions. *)
Definition tags_aligned (tv : TabView) : Prop :=
  forall (i : nat) (b : Button),
    (i < length (FrameKids tv))%nat ->
    TabsKids tv !! i = Some b -> Data b = Some (Z.of_nat i).

(** Exactly the tab button at [idx] reports selected state. *)
Definition only_selected (idx : Z) (tv : TabView) : Prop :=
  forall (j : nat) (b : Button),
    (j < length (FrameKids tv))%nat ->
    TabsKids tv !! j = Some b ->
    (Selected b = true <-> Z.of_nat j = idx).

(** The visible index is -1, or a valid index whose tab button is the one
    selected button. *)
Definition visible_index_ok (tv : TabView) : Prop :=
  StackTop tv = (-1)%Z \/
  ((0 <= StackTop tv < len (FrameKids tv))%Z /\ only_selected (StackTop tv) tv).

(** No tab button reports selected state. *)
Definition none_selected (tv : TabView) : Prop :=
  forall (j : nat) (b : Button),
    (j < length (FrameKids tv))%nat ->
    TabsKids tv !! j = Some b -> Selected b = false.

(** A container with the single tab A, and one with tabs A, B, C. *)
Definition oneTab : TabView :=
  InsertTab_result wA "A" 0%Z (InitialTabView false).

Definition threeTabs : TabView :=
  InsertTab_result wC "C" 2%Z
    (InsertTab_result wB "B" 1%Z oneTab).

(** ** Further closed forms and predicates *)

(** [0 <= idx < len(fr.Kids)], the test of [TabAtIndex]. *)
Definition valid_index (idx : Z) (tv : TabView) : bool :=
  ((0 <=? idx) && (idx <? len (FrameKids tv)))%Z.

(** [SelectTabIndex] on a well-formed container, for any index: the
    container it leaves. *)
Definition select_result (idx : Z) (tv : TabView) : TabView :=
  if valid_index idx tv then
    if (StackTop tv =? idx)%Z then tv
    else set_StackTop idx
           (set_TabsKids (select_only (length (FrameKids tv)) idx (TabsKids tv))
              tv)
  else add_Log (LogOutOfRange idx (len (FrameKids tv))) tv.

(** [DeleteTabIndex] on a well-formed container, for any index. *)
Definition delete_result (idx : Z) (tv : TabView) : TabView :=
  if valid_index idx tv then DeleteTabIndex_result idx tv
  else add_Log (LogOutOfRange idx (len (FrameKids tv))) tv.

(** What each operation makes of a well-formed container, or [None] where
    it leaves the range of the tree interface (an insert outside
    [0 .. n], a lookup by name that lands on the new-tab button). *)
Definition op_result (op : Op) (tv : TabView) : option TabView :=
  let n := len (FrameKids tv) in
  match op with
  | OpInsertTab widg label idx =>
      if ((0 <=? idx) && (idx <=? n))%Z
      then Some (InsertTab_result widg label idx tv) else None
  | OpAddTab widg label => Some (InsertTab_result widg label n tv)
  | OpInsertNewTab id typ label idx =>
      if ((0 <=? idx) && (idx <=? n))%Z
      then Some (InsertTab_result (NewNode2D id typ label) label idx tv)
      else None
  | OpAddNewTab id typ label =>
      Some (InsertTab_result (NewNode2D id typ label) label n tv)
  | OpAddNewTabAction id typ label =>
      Some (add_Emitted TabAdded n
              (InsertTab_result (NewNode2D id typ label) label n tv))
  | OpSelectTabIndex idx => Some (select_result idx tv)
  | OpSelectTabIndexAction idx =>
      Some (if valid_index idx tv
            then add_Emitted TabSelected idx (select_result idx tv)
            else select_result idx tv)
  | OpSelectTabByName label =>
      match IndexByName (TabsKids tv) label with
      | None => Some tv
      | Some j => if (j <? n)%Z then Some (select_result j tv) else None
      end
  | OpDeleteTabIndex idx _ => Some (delete_result idx tv)
  | OpDeleteTabIndexAction idx =>
      Some (if valid_index idx tv
            then add_Emitted TabDeleted idx (delete_result idx tv)
            else delete_result idx tv)
  | OpSetNewTabButton flag => Some (set_NewTabButton flag tv)
  | OpConfigNewTabButton => Some (ConfigNewTabButton_result tv)
  end.


(** The operations that keep index tags aligned: all but an insert in
    front of an existing tab. *)
Definition keeps_tags (op : Op) (tv : TabView) : Prop :=
  match op with
  | OpInsertTab _ _ idx | OpInsertNewTab _ _ _ idx => idx = len (FrameKids tv)
  | _ => True
  end.



(** The signals an operation emits, the diagnostics it logs, and the
    change of the number of tabs. *)
Definition op_signals (op : Op) (tv : TabView) : list (TabViewSignals * Z) :=
  match op with
  | OpAddNewTabAction _ _ _ => [(TabAdded, len (FrameKids tv))]
  | OpSelectTabIndexAction idx =>
      if valid_index idx tv then [(TabSelected, idx)] else []
  | OpDeleteTabIndexAction idx =>
      if valid_index idx tv then [(TabDeleted, idx)] else []
  | _ => []
  end.

Definition op_log (op : Op) (tv : TabView) : list LogEntry :=
  match op with
  | OpSelectTabIndex idx | OpSelectTabIndexAction idx
  | OpDeleteTabIndex idx _ | OpDeleteTabIndexAction idx =>
      if valid_index idx tv then []
      else [LogOutOfRange idx (len (FrameKids tv))]
  | _ => []
  end.

Definition op_tabs (op : Op) (tv : TabView) : Z :=
  match op with
  | OpInsertTab _ _ _ | OpAddTab _ _ | OpInsertNewTab _ _ _ _
  | OpAddNewTab _ _ _ | OpAddNewTabAction _ _ _ => 1
  | OpDeleteTabIndex idx _ | OpDeleteTabIndexAction idx =>
      if valid_index idx tv then (-1) else 0
  | _ => 0
  end%Z.


(** ** TextViewSignals: the generated stringer code

    [TextViewSignals] is an int64, here a [Z]; [_TextViewSignals_index] holds
    uint8 offsets into the name string. *)
Definition _TextViewSignals_name : string :=
  "TextViewDoneTextViewSelectedTextViewSignalsN".

Definition _TextViewSignals_index : list Z := [0; 12; 28; 44]%Z.

(** [a[i]] on an array and [s[lo:hi]] on a string: [None] for the panic
    outside the bounds. *)
Definition index_at (a : list Z) (i : Z) : option Z :=
  if (i <? 0)%Z then None else a !! Z.to_nat i.

Definition slice (s : string) (lo hi : Z) : option string :=
  if ((0 <=? lo) && (lo <=? hi) && (hi <=? Z.of_nat (String.length s)))%Z
  then Some (substring (Z.to_nat lo) (Z.to_nat (hi - lo)) s)
  else None.

(** [strconv.FormatInt(i, 10)]. *)
Definition FormatInt10 (z : Z) : string := NilZero.string_of_int (Z.to_int z).

(** [_TextViewSignals_name[_TextViewSignals_index[j]:_TextViewSignals_index[j+1]]]. *)
Definition TextViewSignals_name_at (j : Z) : option string :=
  match index_at _TextViewSignals_index j with
  | Some lo =>
      match index_at _TextViewSignals_index (j + 1) with
      | Some hi => slice _TextViewSignals_name lo hi
      | None => None
      end
  | None => None
  end.

(** [String]. *)
Definition TextViewSignals_String (i : Z) : option string :=
  if ((i <? 0) || (i >=? len _TextViewSignals_index - 1))%Z
  then Some ("TextViewSignals(" ++ FormatInt10 i ++ ")")%string
  else TextViewSignals_name_at i.

(** The error of [FromString], with [%v] the string itself. *)
Definition FromString_error (s : string) : string :=
  ("String " ++ s ++ " is not a valid option for type TextViewSignals")%string.

(** [FromString]: the loop over [j], from the entry value on; [Some None]
    when it runs out without a match. *)
Fixpoint FromString_loop (s : string) (j : Z) (todo : nat) : option (option Z) :=
  match todo with
  | O => Some None
  | S todo' =>
      match TextViewSignals_name_at j with
      | None => None
      | Some name =>
          if String.eqb s name then Some (Some j)
          else FromString_loop s (j + 1) todo'
      end
  end.

(** [FromString] on a receiver holding [i]: the value it leaves in the
    receiver and the error it returns (nil is [None]). *)
Definition TextViewSignals_FromString (i : Z) (s : string)
  : option (Z * option string) :=
  match FromString_loop s 0 (Z.to_nat (len _TextViewSignals_index - 1)) with
  | None => None
  | Some (Some j) => Some (j, None)
  | Some None =>
      Some (i, Some (FromString_error s))
  end.

(** ** Reasoning about the monad *)

Lemma bind_Some {A B : Type} (m : M A) (k : A -> M B) tv a tv' :
  m tv = Some (a, tv') -> bind m k tv = k a tv'.
Proof. unfold bind. intros ->. reflexivity. Qed.

Lemma set_TabsKids_same tv : set_TabsKids (TabsKids tv) tv = tv.
Proof. destruct tv; reflexivity. Qed.

Lemma SetSelectedState_same b : SetSelectedState (Selected b) b = b.
Proof. destruct b; reflexivity. Qed.

Lemma len_nonneg {A : Type} (l : list A) : (0 <= len l)%Z.
Proof. unfold len. lia. Qed.

Lemma KnownChild_nat {A : Type} (kids : list A) (i : nat) :
  KnownChild kids (Z.of_nat i) = kids !! i.
Proof.
  unfold KnownChild.
  destruct (Z.ltb_spec (Z.of_nat i) 0); [lia |].
  rewrite Nat2Z.id. reflexivity.
Qed.

Lemma KnownChild_in_range {A : Type} (kids : list A) (idx : Z) :
  (0 <= idx < len kids)%Z -> exists x, KnownChild kids idx = Some x.
Proof.
  unfold KnownChild, len. intros Hr.
  destruct (Z.ltb_spec idx 0); [lia |].
  destruct (lookup_lt_is_Some_2 kids (Z.to_nat idx)) as [x Hx]; [lia |].
  exists x. exact Hx.
Qed.

Lemma asTabButton_Some b :
  BType b = KiT_TabButton -> asTabButton b = Some b.
Proof. unfold asTabButton. intros ->. reflexivity. Qed.

(** *** Lazy initialisation *)

Lemma InitTabView_inited tv :
  Inited tv = true -> InitTabView tv = Some (tt, tv).
Proof. unfold InitTabView, bind, gets. intros ->. reflexivity. Qed.

Lemma Tabs_inited tv :
  Inited tv = true -> Tabs tv = Some (TabsKids tv, tv).
Proof.
  intros H. unfold Tabs.
  rewrite (bind_Some _ _ _ _ _ (InitTabView_inited tv H)). reflexivity.
Qed.

Lemma Frame_inited tv :
  Inited tv = true -> Frame tv = Some (FrameKids tv, tv).
Proof.
  intros H. unfold Frame.
  rewrite (bind_Some _ _ _ _ _ (InitTabView_inited tv H)). reflexivity.
Qed.

Lemma NTabs_inited tv :
  Inited tv = true -> NTabs tv = Some (len (FrameKids tv), tv).
Proof.
  intros H. unfold NTabs.
  rewrite (bind_Some _ _ _ _ _ (Frame_inited tv H)). reflexivity.
Qed.

(** A fresh container becomes well formed on first use, with the new-tab
    button in place when the flag asks for it. *)
Lemma InitTabView_new flag :
  InitTabView (NewTabView flag) =
  Some (tt,
        if flag
        then mkTabView true
               [mkButton KiT_Action "new-tab" (Some (-1)%Z) EmptyString
                         EmptyString "plus" false]
               [] 0%Z true (Some KiT_Frame) [] []
        else mkTabView true [] [] 0%Z false None [] []).
Proof. destruct flag; reflexivity. Qed.

Lemma wf_InitTabView_new flag :
  exists tv, InitTabView (NewTabView flag) = Some (tt, tv) /\ wf tv.
Proof.
  rewrite InitTabView_new. eexists; split; [reflexivity |].
  destruct flag; constructor; simpl; try lia; try reflexivity;
    intros i b Hi; lia.
Qed.

(** Every method starts by fetching a frame, so on a container not used
    before it behaves as on the container [InitTabView] builds. *)
Lemma InitTabView_started tv : InitTabView tv = Some (tt, started tv).
Proof.
  unfold InitTabView, started, bind, gets.
  destruct (Inited tv); [reflexivity |].
  unfold modify, ConfigNewTabButton_with, bind, gets. simpl.
  destruct (NewTabButton tv); [| reflexivity].
  destruct (NewTabType tv); reflexivity.
Qed.

Lemma Inited_started tv : Inited (started tv) = true.
Proof.
  unfold started. destruct (Inited tv) eqn:E; [exact E |].
  destruct (NewTabButton tv); reflexivity.
Qed.

Lemma wf_started tv : (Inited tv = true -> wf tv) -> wf (started tv).
Proof.
  intros H. unfold started. destruct (Inited tv); [apply H; reflexivity |].
  destruct (NewTabButton tv); constructor; simpl; try lia; try reflexivity;
    intros i b Hi; lia.
Qed.

Lemma Frame_started {A : Type} (k : list Node2D -> M A) tv :
  bind Frame k tv = bind Frame k (started tv).
Proof.
  unfold Frame.
  unfold bind at 1 2. rewrite InitTabView_started.
  unfold bind at 1 2.
  rewrite (InitTabView_inited _ (Inited_started tv)). reflexivity.
Qed.

Lemma Tabs_started {A : Type} (k : list Button -> M A) tv :
  bind Tabs k tv = bind Tabs k (started tv).
Proof.
  unfold Tabs.
  unfold bind at 1 2. rewrite InitTabView_started.
  unfold bind at 1 2.
  rewrite (InitTabView_inited _ (Inited_started tv)). reflexivity.
Qed.

Lemma InsertTab_started widg label idx tv :
  InsertTab widg label idx tv = InsertTab widg label idx (started tv).
Proof. unfold InsertTab. apply Frame_started. Qed.

Lemma AddTab_started widg label tv :
  AddTab widg label tv = AddTab widg label (started tv).
Proof. unfold AddTab. apply Frame_started. Qed.

Lemma TabAtIndex_started idx tv : TabAtIndex idx tv = TabAtIndex idx (started tv).
Proof. unfold TabAtIndex. apply Frame_started. Qed.

Lemma SelectTabIndex_started idx tv :
  SelectTabIndex idx tv = SelectTabIndex idx (started tv).
Proof.
  unfold SelectTabIndex, bind. rewrite TabAtIndex_started. reflexivity.
Qed.

Lemma DeleteTabIndex_started idx destroy tv :
  DeleteTabIndex idx destroy tv = DeleteTabIndex idx destroy (started tv).
Proof.
  unfold DeleteTabIndex, bind. rewrite TabAtIndex_started. reflexivity.
Qed.

Lemma SelectTabIndexAction_started idx tv :
  SelectTabIndexAction idx tv = SelectTabIndexAction idx (started tv).
Proof.
  unfold SelectTabIndexAction, bind. rewrite SelectTabIndex_started.
  reflexivity.
Qed.

Lemma DeleteTabIndexAction_started idx tv :
  DeleteTabIndexAction idx tv = DeleteTabIndexAction idx (started tv).
Proof.
  unfold DeleteTabIndexAction, bind. rewrite DeleteTabIndex_started.
  reflexivity.
Qed.

Lemma TabByName_started label tv : TabByName label tv = TabByName label (started tv).
Proof. unfold TabByName. apply Tabs_started. Qed.

Lemma ConfigNewTabButton_started tv :
  ConfigNewTabButton tv = ConfigNewTabButton (started tv).
Proof.
  unfold ConfigNewTabButton, ConfigNewTabButton_with, NTabs.
  unfold bind at 1 5. rewrite (Frame_started _ tv). reflexivity.
Qed.

(** *** Index checks *)

Lemma TabAtIndex_valid tv idx :
  wf tv -> (0 <= idx < len (FrameKids tv))%Z ->
  exists tab widg,
    TabsKids tv !! Z.to_nat idx = Some tab /\
    BType tab = KiT_TabButton /\
    FrameKids tv !! Z.to_nat idx = Some widg /\
    TabAtIndex idx tv = Some ((Some widg, Some tab, true), tv).
Proof.
  intros Hwf Hr. pose proof (wf_inited _ Hwf) as Hi.
  unfold len in Hr.
  destruct (lookup_lt_is_Some_2 (FrameKids tv) (Z.to_nat idx)) as [widg Hw];
    [lia |].
  destruct (lookup_lt_is_Some_2 (TabsKids tv) (Z.to_nat idx)) as [tab Ht].
  { pose proof (wf_le _ Hwf). lia. }
  assert (Hty : BType tab = KiT_TabButton).
  { apply (wf_tabs _ Hwf (Z.to_nat idx)); [lia | exact Ht]. }
  exists tab, widg. repeat split; try assumption.
  unfold TabAtIndex.
  rewrite (bind_Some _ _ _ _ _ (Frame_inited tv Hi)).
  rewrite (bind_Some _ _ _ _ _ (Tabs_inited tv Hi)).
  destruct (Z.ltb_spec idx 0); [lia |].
  destruct (Z.geb_spec idx (len (FrameKids tv))); [unfold len in *; lia |].
  simpl. unfold bind, lift, ret, KnownChild.
  destruct (Z.ltb_spec idx 0); [lia |].
  rewrite Ht, (asTabButton_Some _ Hty), Hw. reflexivity.
Qed.

Lemma TabAtIndex_invalid tv idx :
  Inited tv = true -> (idx < 0 \/ len (FrameKids tv) <= idx)%Z ->
  TabAtIndex idx tv =
  Some ((None, None, false),
        add_Log (LogOutOfRange idx (len (FrameKids tv))) tv).
Proof.
  intros Hi Hr. unfold TabAtIndex.
  rewrite (bind_Some _ _ _ _ _ (Frame_inited tv Hi)).
  rewrite (bind_Some _ _ _ _ _ (Tabs_inited tv Hi)).
  destruct (Z.ltb_spec idx 0); [reflexivity |].
  destruct (Z.geb_spec idx (len (FrameKids tv))); [reflexivity | lia].
Qed.

(** *** Writes through pointers, and the two loops over the strip *)

Lemma write_tab_nat tv (i : nat) f b :
  TabsKids tv !! i = Some b ->
  write_tab (Z.of_nat i) f tv =
  Some (tt, set_TabsKids (<[i := f b]> (TabsKids tv)) tv).
Proof.
  intros Hb. unfold write_tab, bind, gets, lift, modify.
  rewrite KnownChild_nat, Hb, Nat2Z.id. reflexivity.
Qed.

Lemma write_tab_Z tv (idx : Z) f b :
  (0 <= idx)%Z -> TabsKids tv !! Z.to_nat idx = Some b ->
  write_tab idx f tv =
  Some (tt, set_TabsKids (<[Z.to_nat idx := f b]> (TabsKids tv)) tv).
Proof.
  intros H0 Hb. rewrite <- (Z2Nat.id idx) at 1 by lia.
  apply write_tab_nat. exact Hb.
Qed.

Lemma write_widg_Z tv (idx : Z) f w :
  (0 <= idx)%Z -> FrameKids tv !! Z.to_nat idx = Some w ->
  write_widg idx f tv =
  Some (tt, set_FrameKids (<[Z.to_nat idx := f w]> (FrameKids tv)) tv).
Proof.
  intros H0 Hw. unfold write_widg, bind, gets, lift, modify, KnownChild.
  destruct (Z.ltb_spec idx 0); [lia |].
  rewrite Hw. reflexivity.
Qed.

Lemma lookup_map_range start n g tbs j :
  map_range start n g tbs !! j =
  (fun b => if ((start <=? j) && (j <? start + n))%nat then g j b else b)
    <$> tbs !! j.
Proof. unfold map_range. apply list_lookup_imap. Qed.

Lemma length_map_range start n g tbs :
  length (map_range start n g tbs) = length tbs.
Proof. unfold map_range. apply length_imap. Qed.

Lemma map_range_0 start g tbs : map_range start 0 g tbs = tbs.
Proof.
  apply list_eq. intros j. rewrite lookup_map_range.
  destruct (tbs !! j) as [b |]; [| reflexivity].
  destruct (Nat.leb_spec start j); destruct (Nat.ltb_spec j (start + 0));
    try reflexivity; lia.
Qed.

Lemma map_range_S start n g tbs b :
  tbs !! start = Some b ->
  map_range (S start) n g (<[start := g start b]> tbs) =
  map_range start (S n) g tbs.
Proof.
  intros Hb. apply list_eq. intros j. rewrite !lookup_map_range.
  destruct (decide (j = start)) as [-> | Hne].
  - rewrite list_lookup_insert_eq by (eapply lookup_lt_Some; eauto).
    rewrite Hb.
    destruct (Nat.leb_spec (S start) start); [lia |].
    destruct (Nat.leb_spec start start); [| lia].
    destruct (Nat.ltb_spec start (start + S n)); [| lia].
    reflexivity.
  - rewrite list_lookup_insert_ne by congruence.
    destruct (tbs !! j) as [c |]; [| reflexivity].
    destruct (Nat.leb_spec (S start) j); destruct (Nat.leb_spec start j);
      destruct (Nat.ltb_spec j (S start + n));
      destruct (Nat.ltb_spec j (start + S n)); try reflexivity; lia.
Qed.

Section Loops.

Variable body : nat -> M unit.
Variable g : nat -> Button -> Button.

Hypothesis body_writes : forall i tv b,
    TabsKids tv !! i = Some b -> BType b = KiT_TabButton ->
    body i tv = Some (tt, set_TabsKids (<[i := g i b]> (TabsKids tv)) tv).

Lemma for_range_tabs n : forall start tv,
    (forall i, (start <= i < start + n)%nat ->
               exists b, TabsKids tv !! i = Some b /\ BType b = KiT_TabButton) ->
    for_range start n body tv =
    Some (tt, set_TabsKids (map_range start n g (TabsKids tv)) tv).
Proof.
  induction n as [| n IH]; intros start tv Hall; simpl.
  - rewrite map_range_0, set_TabsKids_same. reflexivity.
  - destruct (Hall start) as (b & Hb & Hty); [lia |].
    rewrite (bind_Some _ _ _ _ _ (body_writes start tv b Hb Hty)).
    rewrite IH.
    + simpl. rewrite (map_range_S _ _ _ _ _ Hb). reflexivity.
    + intros i Hi. simpl.
      rewrite list_lookup_insert_ne by lia.
      apply Hall. lia.
Qed.

End Loops.

Lemma wf_front tv :
  wf tv ->
  forall i, (0 <= i < 0 + length (FrameKids tv))%nat ->
            exists b, TabsKids tv !! i = Some b /\ BType b = KiT_TabButton.
Proof.
  intros Hwf i Hi.
  destruct (lookup_lt_is_Some_2 (TabsKids tv) i) as [b Hb].
  { pose proof (wf_le _ Hwf). lia. }
  exists b. split; [exact Hb |].
  apply (wf_tabs _ Hwf i); [lia | exact Hb].
Qed.

Lemma UnselectOtherTabs_wf tv idx :
  wf tv ->
  UnselectOtherTabs idx tv =
  Some (tt, set_TabsKids
              (unselect_others (length (FrameKids tv)) idx (TabsKids tv)) tv).
Proof.
  intros Hwf. pose proof (wf_inited _ Hwf) as Hi.
  unfold UnselectOtherTabs.
  rewrite (bind_Some _ _ _ _ _ (NTabs_inited tv Hi)).
  rewrite (bind_Some _ _ _ _ _ (Tabs_inited tv Hi)).
  unfold len. rewrite Nat2Z.id.
  apply for_range_tabs; [| apply wf_front; exact Hwf].
  intros i tv0 b Hb Hty.
  destruct (Z.of_nat i =? idx)%Z.
  - rewrite (list_insert_id _ _ _ Hb), set_TabsKids_same. reflexivity.
  - unfold bind at 1, gets. unfold bind at 1, lift.
    rewrite KnownChild_nat, Hb.
    unfold bind at 1. rewrite (asTabButton_Some _ Hty).
    unfold IsSelected. destruct (Selected b) eqn:Hsel.
    + apply write_tab_nat. exact Hb.
    + rewrite <- Hsel, SetSelectedState_same.
      rewrite (list_insert_id _ _ _ Hb), set_TabsKids_same. reflexivity.
Qed.

Lemma RenumberTabs_wf tv :
  wf tv ->
  RenumberTabs tv =
  Some (tt, set_TabsKids (renumber (length (FrameKids tv)) (TabsKids tv)) tv).
Proof.
  intros Hwf. pose proof (wf_inited _ Hwf) as Hi.
  unfold RenumberTabs.
  rewrite (bind_Some _ _ _ _ _ (NTabs_inited tv Hi)).
  rewrite (bind_Some _ _ _ _ _ (Tabs_inited tv Hi)).
  unfold len. rewrite Nat2Z.id.
  apply for_range_tabs; [| apply wf_front; exact Hwf].
  intros i tv0 b Hb Hty.
  unfold bind at 1, gets. unfold bind at 1, lift.
  rewrite KnownChild_nat, Hb.
  unfold bind at 1. rewrite (asTabButton_Some _ Hty).
  apply write_tab_nat. exact Hb.
Qed.

(** *** Keeping the shape *)

Lemma wf_set_TabsKids tv tbs :
  wf tv ->
  length tbs = length (TabsKids tv) ->
  (forall (i : nat) (b : Button),
      (i < length (FrameKids tv))%nat -> tbs !! i = Some b ->
      BType b = KiT_TabButton) ->
  wf (set_TabsKids tbs tv).
Proof.
  intros Hwf Hlen Hty. constructor; simpl.
  - apply (wf_inited _ Hwf).
  - rewrite Hlen. apply (wf_le _ Hwf).
  - rewrite Hlen. apply (wf_ge _ Hwf).
  - exact Hty.
Qed.

Lemma wf_set_StackTop tv z : wf tv -> wf (set_StackTop z tv).
Proof. intros [H1 H2 H3 H4]. constructor; simpl; assumption. Qed.

Lemma wf_add_Log tv e : wf tv -> wf (add_Log e tv).
Proof. intros [H1 H2 H3 H4]. constructor; simpl; assumption. Qed.

Lemma wf_add_Emitted tv s d : wf tv -> wf (add_Emitted s d tv).
Proof. intros [H1 H2 H3 H4]. constructor; simpl; assumption. Qed.

Lemma wf_set_NewTabButton tv b : wf tv -> wf (set_NewTabButton b tv).
Proof. intros [H1 H2 H3 H4]. constructor; simpl; assumption. Qed.

Lemma map_range_BType start n g tbs j b :
  (forall i c, BType (g i c) = BType c) ->
  map_range start n g tbs !! j = Some b ->
  exists c, tbs !! j = Some c /\ BType b = BType c.
Proof.
  intros Hg. rewrite lookup_map_range.
  destruct (tbs !! j) as [c |]; [| discriminate].
  intros H. exists c. split; [reflexivity |].
  apply (inj Some) in H. subst b.
  destruct ((start <=? j) && (j <? start + n))%nat; [apply Hg | reflexivity].
Qed.

Lemma wf_map_range tv start n g :
  (forall i c, BType (g i c) = BType c) ->
  wf tv -> wf (set_TabsKids (map_range start n g (TabsKids tv)) tv).
Proof.
  intros Hg Hwf. apply wf_set_TabsKids; [exact Hwf | apply length_map_range |].
  intros i b Hi Hb.
  destruct (map_range_BType _ _ _ _ _ _ Hg Hb) as (c & Hc & ->).
  apply (wf_tabs _ Hwf i); assumption.
Qed.

(** *** [SelectTabIndex] *)

Lemma lookup_select_only sz idx tbs j :
  select_only sz idx tbs !! j =
  (fun b => if (Z.of_nat j =? idx)%Z then SetSelectedState true b
            else if (j <? sz)%nat then SetSelectedState false b
            else b) <$> tbs !! j.
Proof. unfold select_only. apply list_lookup_imap. Qed.

Lemma lookup_unselect_others_at sz idx tbs tab :
  (0 <= idx)%Z -> tbs !! Z.to_nat idx = Some tab ->
  unselect_others sz idx tbs !! Z.to_nat idx = Some tab.
Proof.
  intros H0 Ht. unfold unselect_others.
  rewrite lookup_map_range, Ht, Z2Nat.id, Z.eqb_refl by lia.
  cbn [fmap option_fmap option_map].
  destruct ((0 <=? Z.to_nat idx) && (Z.to_nat idx <? 0 + sz))%nat; reflexivity.
Qed.

Lemma select_only_unselect sz idx tbs tab :
  tbs !! Z.to_nat idx = Some tab -> (0 <= idx)%Z ->
  <[Z.to_nat idx := SetSelectedState true tab]> (unselect_others sz idx tbs) =
  select_only sz idx tbs.
Proof.
  intros Ht H0. apply list_eq. intros j.
  rewrite lookup_select_only.
  destruct (decide (Z.to_nat idx = j)) as [<- | Hne].
  - rewrite list_lookup_insert_eq.
    + rewrite Ht, Z2Nat.id, Z.eqb_refl by lia. reflexivity.
    + unfold unselect_others. rewrite length_map_range.
      eapply lookup_lt_Some; eauto.
  - rewrite list_lookup_insert_ne by exact Hne.
    unfold unselect_others. rewrite lookup_map_range.
    destruct (tbs !! j) as [b |]; [| reflexivity].
    destruct (Z.eqb_spec (Z.of_nat j) idx); [lia |].
    destruct (Nat.leb_spec 0 j); [| lia].
    destruct (Nat.ltb_spec j (0 + sz)); destruct (Nat.ltb_spec j sz);
      try reflexivity; lia.
Qed.

Lemma wf_select_only tv idx :
  wf tv ->
  wf (set_TabsKids (select_only (length (FrameKids tv)) idx (TabsKids tv)) tv).
Proof.
  intros Hwf. apply wf_set_TabsKids; [exact Hwf | apply length_imap |].
  intros i b Hi. rewrite lookup_select_only.
  destruct (TabsKids tv !! i) as [c |] eqn:Hc; [| discriminate].
  intros H. apply (inj Some) in H. subst b.
  pose proof (wf_tabs _ Hwf i c Hi Hc) as Hty.
  destruct (Z.of_nat i =? idx)%Z; [exact Hty |].
  destruct (i <? length (FrameKids tv))%nat; exact Hty.
Qed.

Lemma SelectTabIndex_valid tv idx :
  wf tv -> (0 <= idx < len (FrameKids tv))%Z ->
  exists widg,
    FrameKids tv !! Z.to_nat idx = Some widg /\
    SelectTabIndex idx tv =
    Some ((Some widg, true),
          if (StackTop tv =? idx)%Z then tv
          else set_StackTop idx
                 (set_TabsKids
                    (select_only (length (FrameKids tv)) idx (TabsKids tv))
                    tv)).
Proof.
  intros Hwf Hr. pose proof (wf_inited _ Hwf) as Hi.
  destruct (TabAtIndex_valid tv idx Hwf Hr) as (tab & widg & Ht & Hty & Hw & HT).
  exists widg. split; [exact Hw |].
  unfold SelectTabIndex.
  rewrite (bind_Some _ _ _ _ _ HT). cbn [negb].
  rewrite (bind_Some _ _ _ _ _ (Frame_inited tv Hi)).
  unfold bind at 1, gets.
  destruct (StackTop tv =? idx)%Z; [reflexivity |].
  rewrite (bind_Some _ _ _ _ _ (UnselectOtherTabs_wf tv idx Hwf)).
  erewrite bind_Some.
  2:{ apply write_tab_Z; [lia |]. simpl.
      apply lookup_unselect_others_at; [lia | exact Ht]. }
  simpl. rewrite (select_only_unselect _ _ _ _ Ht) by lia.
  reflexivity.
Qed.

Lemma SelectTabIndex_invalid tv idx :
  Inited tv = true -> (idx < 0 \/ len (FrameKids tv) <= idx)%Z ->
  SelectTabIndex idx tv =
  Some ((None, false), add_Log (LogOutOfRange idx (len (FrameKids tv))) tv).
Proof.
  intros Hi Hr. unfold SelectTabIndex.
  rewrite (bind_Some _ _ _ _ _ (TabAtIndex_invalid tv idx Hi Hr)).
  reflexivity.
Qed.

(** *** Inserting *)

Lemma InsertChild_in_range {A : Type} (kids : list A) (kid : A) (idx : Z) :
  (0 <= idx <= len kids)%Z ->
  InsertChild kids kid idx =
  Some (take (Z.to_nat idx) kids ++ kid :: drop (Z.to_nat idx) kids).
Proof.
  intros Hr. unfold InsertChild.
  destruct (Z.leb_spec 0 idx); [| lia].
  destruct (Z.leb_spec idx (len kids)); [| lia].
  reflexivity.
Qed.

Lemma DeleteChildAtIndex_in_range {A : Type} (kids : list A) (idx : Z) :
  (0 <= idx < len kids)%Z ->
  DeleteChildAtIndex kids idx =
  Some (take (Z.to_nat idx) kids ++ drop (S (Z.to_nat idx)) kids).
Proof.
  intros Hr. unfold DeleteChildAtIndex.
  destruct (Z.leb_spec 0 idx); [| lia].
  destruct (Z.ltb_spec idx (len kids)); [| lia].
  reflexivity.
Qed.

Lemma lookup_middle {A : Type} (l : list A) (i : nat) (x : A) :
  (i <= length l)%nat -> (take i l ++ x :: drop i l) !! i = Some x.
Proof.
  intros Hi. apply list_lookup_middle. rewrite length_take. lia.
Qed.

Lemma insert_middle {A : Type} (l : list A) (i : nat) (x y : A) :
  (i <= length l)%nat ->
  <[i := y]> (take i l ++ x :: drop i l) = take i l ++ y :: drop i l.
Proof.
  intros Hi. rewrite insert_app_r_alt by (rewrite length_take; lia).
  rewrite length_take. replace (i - i `min` length l)%nat with 0%nat by lia.
  reflexivity.
Qed.

Lemma length_middle {A : Type} (l : list A) (i : nat) (x : A) :
  length (take i l ++ x :: drop i l) = S (length l).
Proof.
  rewrite length_app. simpl. rewrite length_take, length_drop. lia.
Qed.

Lemma lookup_middle_lt {A : Type} (l : list A) (i j : nat) (x : A) :
  (j < i)%nat -> (i <= length l)%nat ->
  (take i l ++ x :: drop i l) !! j = l !! j.
Proof.
  intros Hj Hi. rewrite lookup_app_l by (rewrite length_take; lia).
  apply lookup_take_lt. exact Hj.
Qed.

Lemma lookup_middle_gt {A : Type} (l : list A) (i j : nat) (x : A) :
  (i < j)%nat -> (i <= length l)%nat ->
  (take i l ++ x :: drop i l) !! j = l !! (j - 1)%nat.
Proof.
  intros Hj Hi. rewrite lookup_app_r by (rewrite length_take; lia).
  rewrite length_take. replace (i `min` length l)%nat with i by lia.
  destruct (j - i)%nat as [| k] eqn:Hk; [lia |].
  simpl. rewrite lookup_drop. f_equal. lia.
Qed.

Lemma write_tab_middle tv idx f l x :
  (0 <= idx)%Z -> (Z.to_nat idx <= length l)%nat ->
  TabsKids tv = take (Z.to_nat idx) l ++ x :: drop (Z.to_nat idx) l ->
  write_tab idx f tv =
  Some (tt, set_TabsKids
              (take (Z.to_nat idx) l ++ f x :: drop (Z.to_nat idx) l) tv).
Proof.
  intros H0 Hi Htb.
  rewrite (write_tab_Z tv idx f x H0).
  - rewrite Htb, insert_middle by exact Hi. reflexivity.
  - rewrite Htb. apply lookup_middle. exact Hi.
Qed.

Lemma write_widg_middle tv idx f l x :
  (0 <= idx)%Z -> (Z.to_nat idx <= length l)%nat ->
  FrameKids tv = take (Z.to_nat idx) l ++ x :: drop (Z.to_nat idx) l ->
  write_widg idx f tv =
  Some (tt, set_FrameKids
              (take (Z.to_nat idx) l ++ f x :: drop (Z.to_nat idx) l) tv).
Proof.
  intros H0 Hi Hfr.
  rewrite (write_widg_Z tv idx f x H0).
  - rewrite Hfr, insert_middle by exact Hi. reflexivity.
  - rewrite Hfr. apply lookup_middle. exact Hi.
Qed.

Lemma InsertTab_wf tv widg label idx :
  wf tv -> (0 <= idx <= len (FrameKids tv))%Z ->
  InsertTab widg label idx tv = Some (tt, InsertTab_result widg label idx tv).
Proof.
  intros Hwf Hr. pose proof (wf_inited _ Hwf) as Hi.
  pose proof (wf_le _ Hwf) as Hle. unfold len in Hr.
  unfold InsertTab.
  rewrite (bind_Some _ _ _ _ _ (Frame_inited tv Hi)).
  unfold bind at 1, lift. rewrite InsertChild_in_range by (unfold len; lia).
  unfold bind at 1, modify.
  set (fr' := take (Z.to_nat idx) (FrameKids tv) ++ _).
  unfold InsertTabOnlyAt.
  rewrite (bind_Some _ _ _ _ _ (Tabs_inited (set_FrameKids fr' tv) Hi)).
  unfold bind at 1, lift. simpl TabsKids.
  rewrite InsertChild_in_range by (unfold len; lia).
  unfold bind at 1, modify.
  erewrite bind_Some;
    [| eapply write_tab_middle; [lia | | reflexivity]; lia].
  erewrite bind_Some;
    [| eapply write_tab_middle; [lia | | reflexivity]; lia].
  erewrite bind_Some;
    [| eapply write_tab_middle; [lia | | reflexivity]; lia].
  erewrite bind_Some; [| apply Frame_inited; exact Hi].
  cbn [FrameKids set_TabsKids set_FrameKids].
  unfold len, fr'. rewrite length_middle.
  unfold InsertTab_result.
  destruct (Z.eqb_spec (Z.of_nat (S (length (FrameKids tv)))) 1) as [E | E].
  - replace (length (FrameKids tv) =? 0)%nat with true
      by (symmetry; apply Nat.eqb_eq; lia).
    unfold bind at 1, modify.
    erewrite write_tab_middle; [| lia | | reflexivity]; [| lia].
    reflexivity.
  - replace (length (FrameKids tv) =? 0)%nat with false
      by (symmetry; apply Nat.eqb_neq; lia).
    erewrite write_widg_middle; [| lia | | reflexivity]; [| lia].
    reflexivity.
Qed.

Lemma wf_InsertTab_result tv widg label idx :
  wf tv -> (0 <= idx <= len (FrameKids tv))%Z ->
  wf (InsertTab_result widg label idx tv).
Proof.
  intros Hwf Hr. unfold len in Hr.
  pose proof (wf_le _ Hwf) as Hle. pose proof (wf_ge _ Hwf) as Hge.
  constructor; unfold InsertTab_result;
    cbn [Inited TabsKids FrameKids]; rewrite ?length_middle.
  - apply (wf_inited _ Hwf).
  - lia.
  - lia.
  - intros i b Hi Hb.
    destruct (lt_eq_lt_dec i (Z.to_nat idx)) as [[Hlt | ->] | Hgt].
    + rewrite lookup_middle_lt in Hb by lia.
      apply (wf_tabs _ Hwf i); [lia | exact Hb].
    + rewrite lookup_middle in Hb by lia.
      apply (inj Some) in Hb. subst b. reflexivity.
    + rewrite lookup_middle_gt in Hb by lia.
      apply (wf_tabs _ Hwf (i - 1)%nat); [lia | exact Hb].
Qed.

(** *** Deleting *)

Lemma length_delete_at {A : Type} (l : list A) (i : nat) :
  (i < length l)%nat ->
  length (take i l ++ drop (S i) l) = (length l - 1)%nat.
Proof.
  intros Hi. rewrite length_app, length_take, length_drop. lia.
Qed.

Lemma lookup_delete_at_lt {A : Type} (l : list A) (i j : nat) :
  (j < i)%nat -> (i < length l)%nat ->
  (take i l ++ drop (S i) l) !! j = l !! j.
Proof.
  intros Hj Hi. rewrite lookup_app_l by (rewrite length_take; lia).
  apply lookup_take_lt. exact Hj.
Qed.

Lemma lookup_delete_at_ge {A : Type} (l : list A) (i j : nat) :
  (i <= j)%nat -> (i < length l)%nat ->
  (take i l ++ drop (S i) l) !! j = l !! S j.
Proof.
  intros Hj Hi. rewrite lookup_app_r by (rewrite length_take; lia).
  rewrite length_take, lookup_drop. f_equal. lia.
Qed.

Lemma wf_deleted_lists tv idx :
  wf tv -> (0 <= idx < len (FrameKids tv))%Z ->
  wf (set_TabsKids
        (take (Z.to_nat idx) (TabsKids tv) ++
         drop (S (Z.to_nat idx)) (TabsKids tv))
        (set_FrameKids
           (take (Z.to_nat idx) (FrameKids tv) ++
            drop (S (Z.to_nat idx)) (FrameKids tv)) tv)).
Proof.
  intros Hwf Hr. unfold len in Hr.
  pose proof (wf_le _ Hwf) as Hle. pose proof (wf_ge _ Hwf) as Hge.
  constructor; cbn [Inited TabsKids FrameKids set_TabsKids set_FrameKids];
    rewrite ?length_delete_at by lia.
  - apply (wf_inited _ Hwf).
  - lia.
  - lia.
  - intros i b Hi Hb.
    destruct (le_lt_dec (Z.to_nat idx) i) as [Hge' | Hlt].
    + rewrite lookup_delete_at_ge in Hb by lia.
      apply (wf_tabs _ Hwf (S i)); [lia | exact Hb].
    + rewrite lookup_delete_at_lt in Hb by lia.
      apply (wf_tabs _ Hwf i); [lia | exact Hb].
Qed.

Lemma renumber_BType i c : BType (set_Data (Some (Z.of_nat i)) c) = BType c.
Proof. reflexivity. Qed.

Lemma wf_deleted tv idx :
  wf tv -> (0 <= idx < len (FrameKids tv))%Z -> wf (deleted idx tv).
Proof.
  intros Hwf Hr. unfold deleted.
  apply (wf_map_range _ 0 _ _ renumber_BType (wf_deleted_lists tv idx Hwf Hr)).
Qed.

Lemma length_FrameKids_deleted tv idx :
  (0 <= idx < len (FrameKids tv))%Z ->
  length (FrameKids (deleted idx tv)) = (length (FrameKids tv) - 1)%nat.
Proof.
  intros Hr. unfold len in Hr. unfold deleted.
  cbn [FrameKids set_TabsKids set_FrameKids].
  apply length_delete_at. lia.
Qed.

Lemma next_index_range top idx sz :
  (0 <= idx < sz)%Z ->
  (0 <= next_index top idx sz)%Z ->
  (next_index top idx sz < sz - 1)%Z.
Proof.
  unfold next_index. intros Hr.
  destruct (top =? idx)%Z; [| lia].
  destruct (Z.gtb_spec idx 0); [lia |].
  destruct (Z.ltb_spec idx (sz - 1)); lia.
Qed.

Lemma wf_DeleteTabIndex_result tv idx :
  wf tv -> (0 <= idx < len (FrameKids tv))%Z ->
  wf (DeleteTabIndex_result idx tv).
Proof.
  intros Hwf Hr. pose proof (wf_deleted tv idx Hwf Hr) as Hd.
  unfold DeleteTabIndex_result.
  destruct (_ >=? 0)%Z; [| exact Hd].
  destruct (_ =? _)%Z; [exact Hd |].
  apply wf_set_StackTop, wf_select_only. exact Hd.
Qed.

Lemma DeleteTabIndex_wf tv idx destroy :
  wf tv -> (0 <= idx < len (FrameKids tv))%Z ->
  exists widg,
    FrameKids tv !! Z.to_nat idx = Some widg /\
    DeleteTabIndex idx destroy tv =
    Some ((if destroy then None else Some widg, true),
          DeleteTabIndex_result idx tv).
Proof.
  intros Hwf Hr. pose proof (wf_inited _ Hwf) as Hi.
  pose proof (wf_le _ Hwf) as Hle.
  destruct (TabAtIndex_valid tv idx Hwf Hr) as (tab & widg & Ht & Hty & Hw & HT).
  exists widg. split; [exact Hw |].
  unfold DeleteTabIndex.
  rewrite (bind_Some _ _ _ _ _ HT). cbn [negb].
  rewrite (bind_Some _ _ _ _ _ (Frame_inited tv Hi)).
  rewrite (bind_Some _ _ _ _ _ (Tabs_inited tv Hi)).
  unfold bind at 1, gets.
  fold (next_index (StackTop tv) idx (len (FrameKids tv))).
  unfold bind at 1, lift. rewrite DeleteChildAtIndex_in_range by exact Hr.
  unfold bind at 1, modify.
  unfold bind at 1. rewrite DeleteChildAtIndex_in_range
    by (unfold len in *; lia).
  unfold bind at 1.
  pose proof (wf_deleted_lists tv idx Hwf Hr) as Hwf1.
  rewrite (bind_Some _ _ _ _ _ (RenumberTabs_wf _ Hwf1)).
  cbn [FrameKids TabsKids set_TabsKids set_FrameKids].
  pose proof (wf_deleted tv idx Hwf Hr) as Hwf2.
  pose proof (length_FrameKids_deleted tv idx Hr) as Hlen2.
  unfold DeleteTabIndex_result.
  fold (deleted idx tv).
  destruct (Z.geb_spec (next_index (StackTop tv) idx (len (FrameKids tv))) 0)
    as [Hn | Hn].
  - pose proof (next_index_range (StackTop tv) idx _ Hr Hn) as Hn2.
    destruct (SelectTabIndex_valid (deleted idx tv)
                (next_index (StackTop tv) idx (len (FrameKids tv))) Hwf2)
      as (w2 & _ & HS).
    { unfold len in *. rewrite Hlen2. lia. }
    unfold bind at 1. unfold bind at 1. rewrite HS.
    unfold ret. destruct destroy; reflexivity.
  - unfold bind at 1, ret. destruct destroy; reflexivity.
Qed.

(** *** The new-tab button *)

Lemma ConfigNewTabButton_wf tv :
  wf tv ->
  ConfigNewTabButton tv =
  Some (ConfigNewTabButton_changes tv, ConfigNewTabButton_result tv).
Proof.
  intros Hwf. pose proof (wf_inited _ Hwf) as Hi.
  pose proof (wf_le _ Hwf) as Hle. pose proof (wf_ge _ Hwf) as Hge.
  unfold ConfigNewTabButton, ConfigNewTabButton_with,
    ConfigNewTabButton_changes, ConfigNewTabButton_result.
  rewrite (bind_Some _ _ _ _ _ (NTabs_inited tv Hi)).
  rewrite (bind_Some _ _ _ _ _ (Tabs_inited tv Hi)).
  unfold bind at 1, gets.
  destruct (NewTabButton tv).
  - destruct (Z.eqb_spec (len (TabsKids tv)) (len (FrameKids tv) + 1)) as [E | E];
      unfold len in E.
    + replace (length (TabsKids tv) =? S (length (FrameKids tv)))%nat with true
        by (symmetry; apply Nat.eqb_eq; lia).
      reflexivity.
    + replace (length (TabsKids tv) =? S (length (FrameKids tv)))%nat with false
        by (symmetry; apply Nat.eqb_neq; lia).
      unfold bind at 1, gets.
      rewrite InsertChild_in_range by (unfold len; lia).
      unfold len. rewrite Nat2Z.id, take_ge, drop_ge by lia.
      assert (Hlook : forall tv0, TabsKids tv0 =
                        TabsKids tv ++ [NewButton KiT_Action "new-tab"] ->
                      write_tab (Z.of_nat (length (TabsKids tv)))
                        (set_Data (Some (-1)%Z)) tv0 =
                      Some (tt, set_TabsKids
                                  (TabsKids tv ++
                                   [set_Data (Some (-1)%Z)
                                      (NewButton KiT_Action "new-tab")]) tv0)).
      { intros tv0 E0.
        rewrite (write_tab_nat tv0 _ _ (NewButton KiT_Action "new-tab")).
        - rewrite E0, insert_app_r_alt by lia.
          rewrite Nat.sub_diag. reflexivity.
        - rewrite E0. apply list_lookup_middle. reflexivity. }
      assert (Hlook2 : forall tv0, TabsKids tv0 =
                        TabsKids tv ++ [set_Data (Some (-1)%Z)
                                          (NewButton KiT_Action "new-tab")] ->
                      write_tab (Z.of_nat (length (TabsKids tv)))
                        (SetIcon "plus") tv0 =
                      Some (tt, set_TabsKids
                                  (TabsKids tv ++ [new_tab_button]) tv0)).
      { intros tv0 E0.
        rewrite (write_tab_nat tv0 _ _
                   (set_Data (Some (-1)%Z) (NewButton KiT_Action "new-tab"))).
        - rewrite E0, insert_app_r_alt by lia.
          rewrite Nat.sub_diag. reflexivity.
        - rewrite E0. apply list_lookup_middle. reflexivity. }
      destruct (NewTabType tv) as [t |] eqn:Ht.
      * unfold bind at 1, ret. unfold bind at 1, lift.
        unfold bind at 1, modify.
        erewrite bind_Some; [| apply Hlook; reflexivity].
        erewrite bind_Some; [| apply Hlook2; reflexivity].
        unfold ret, set_TabsKids, set_NewTabType.
        cbn [TabsKids FrameKids Inited StackTop NewTabButton NewTabType Log
               Emitted negb].
        rewrite Ht. reflexivity.
      * unfold bind at 1, modify. unfold bind at 1, lift.
        unfold bind at 1.
        erewrite bind_Some; [| apply Hlook; reflexivity].
        erewrite bind_Some; [| apply Hlook2; reflexivity].
        reflexivity.
  - destruct (Z.eqb_spec (len (TabsKids tv)) (len (FrameKids tv))) as [E | E];
      unfold len in E.
    + replace (length (TabsKids tv) =? length (FrameKids tv))%nat with true
        by (symmetry; apply Nat.eqb_eq; lia).
      reflexivity.
    + replace (length (TabsKids tv) =? length (FrameKids tv))%nat with false
        by (symmetry; apply Nat.eqb_neq; lia).
      rewrite DeleteChildAtIndex_in_range by (unfold len; lia).
      unfold bind at 1, lift. unfold bind at 1, modify. unfold ret.
      replace (Z.to_nat (len (TabsKids tv) - 1)) with (length (FrameKids tv))
        by (unfold len; lia).
      rewrite (drop_ge (TabsKids tv)) by lia.
      rewrite app_nil_r. reflexivity.
Qed.

Lemma wf_ConfigNewTabButton_result tv :
  wf tv -> wf (ConfigNewTabButton_result tv).
Proof.
  intros Hwf. pose proof (wf_le _ Hwf) as Hle. pose proof (wf_ge _ Hwf) as Hge.
  unfold ConfigNewTabButton_result.
  destruct (NewTabButton tv).
  - destruct (Nat.eqb_spec (length (TabsKids tv)) (S (length (FrameKids tv))));
      [exact Hwf |].
    constructor; cbn [Inited TabsKids FrameKids set_TabsKids set_NewTabType];
      rewrite ?length_app; simpl length.
    + apply (wf_inited _ Hwf).
    + lia.
    + lia.
    + intros i b Hi Hb. rewrite lookup_app_l in Hb by lia.
      apply (wf_tabs _ Hwf i); assumption.
  - destruct (Nat.eqb_spec (length (TabsKids tv)) (length (FrameKids tv)));
      [exact Hwf |].
    constructor; cbn [Inited TabsKids FrameKids set_TabsKids];
      rewrite ?length_take.
    + apply (wf_inited _ Hwf).
    + lia.
    + lia.
    + intros i b Hi Hb. rewrite lookup_take_lt in Hb by lia.
      apply (wf_tabs _ Hwf i); assumption.
Qed.

Lemma ConfigNewTabButton_result_count tv :
  wf tv ->
  length (TabsKids (ConfigNewTabButton_result tv)) =
  (length (FrameKids (ConfigNewTabButton_result tv)) +
   flag_count (ConfigNewTabButton_result tv))%nat.
Proof.
  intros Hwf. pose proof (wf_le _ Hwf) as Hle. pose proof (wf_ge _ Hwf) as Hge.
  unfold ConfigNewTabButton_result, flag_count.
  destruct (NewTabButton tv) eqn:Hf.
  - destruct (Nat.eqb_spec (length (TabsKids tv)) (S (length (FrameKids tv)))).
    + rewrite Hf. lia.
    + cbn [TabsKids FrameKids NewTabButton set_TabsKids set_NewTabType].
      rewrite Hf, length_app. simpl. lia.
  - destruct (Nat.eqb_spec (length (TabsKids tv)) (length (FrameKids tv))).
    + rewrite Hf. lia.
    + cbn [TabsKids FrameKids NewTabButton set_TabsKids].
      rewrite Hf, length_take. lia.
Qed.

(** *** Lookup by name *)

Lemma IndexByName_from_None kids label i :
  IndexByName_from kids label i = None <->
  (forall j b, kids !! j = Some b -> BName b <> label).
Proof.
  revert i. induction kids as [| c kids IH]; intros i; simpl.
  - split; [intros _ j b Hj; discriminate | reflexivity].
  - destruct (String.eqb_spec (BName c) label) as [E | E].
    + split; [discriminate |].
      intros H. exfalso. apply (H 0%nat c); [reflexivity | exact E].
    + rewrite IH. split.
      * intros H [| j] b Hj; simpl in Hj.
        -- apply (inj Some) in Hj. subst b. exact E.
        -- apply (H j b Hj).
      * intros H j b Hj. apply (H (S j) b). exact Hj.
Qed.

Lemma IndexByName_from_Some kids label i r :
  IndexByName_from kids label i = Some r <->
  exists (j : nat) (b : Button),
    r = (i + Z.of_nat j)%Z /\ kids !! j = Some b /\ BName b = label /\
    (forall j' b', (j' < j)%nat -> kids !! j' = Some b' -> BName b' <> label).
Proof.
  revert i. induction kids as [| c kids IH]; intros i; simpl.
  - split; [discriminate | intros (j & b & _ & Hj & _); discriminate].
  - destruct (String.eqb_spec (BName c) label) as [E | E].
    + split.
      * intros H. apply (inj Some) in H. subst r.
        exists 0%nat, c. repeat split; [lia | exact E | intros; lia].
      * intros (j & b & -> & Hj & Hb & Hfirst).
        destruct j as [| j]; [f_equal; lia |].
        exfalso. apply (Hfirst 0%nat c); [lia | reflexivity | exact E].
    + rewrite IH. split.
      * intros (j & b & -> & Hj & Hb & Hfirst).
        exists (S j), b. repeat split; [lia | exact Hj | exact Hb |].
        intros [| j'] b' Hlt Hj'; simpl in Hj'.
        -- apply (inj Some) in Hj'. subst b'. exact E.
        -- apply (Hfirst j' b'); [lia | exact Hj'].
      * intros (j & b & -> & Hj & Hb & Hfirst).
        destruct j as [| j]; simpl in Hj.
        -- apply (inj Some) in Hj. subst b. contradiction.
        -- exists j, b. repeat split; [lia | exact Hj | exact Hb |].
           intros j' b' Hlt Hj'. apply (Hfirst (S j') b'); [lia | exact Hj'].
Qed.

Lemma TabByName_not_found tv label :
  Inited tv = true ->
  IndexByName (TabsKids tv) label = None ->
  TabByName label tv = Some ((None, (-1)%Z, false), tv).
Proof.
  intros Hi Hn. unfold TabByName.
  rewrite (bind_Some _ _ _ _ _ (Tabs_inited tv Hi)), Hn. reflexivity.
Qed.

Lemma TabByName_found tv label idx widg :
  Inited tv = true ->
  IndexByName (TabsKids tv) label = Some idx ->
  KnownChild (FrameKids tv) idx = Some widg ->
  TabByName label tv = Some ((Some widg, idx, true), tv).
Proof.
  intros Hi Hn Hw. unfold TabByName.
  rewrite (bind_Some _ _ _ _ _ (Tabs_inited tv Hi)), Hn.
  rewrite (bind_Some _ _ _ _ _ (Frame_inited tv Hi)).
  unfold bind, lift, ret. rewrite Hw. reflexivity.
Qed.

(** Whatever [TabByName] returns, it leaves the container as it was once the
    frames exist, and a hit is the first child of the strip with that
    name. *)
Lemma TabByName_inv tv label r tv' :
  Inited tv = true ->
  TabByName label tv = Some (r, tv') ->
  tv' = tv /\
  match r with
  | (Some widg, idx, true) =>
      IndexByName (TabsKids tv) label = Some idx /\
      KnownChild (FrameKids tv) idx = Some widg
  | (None, idx, false) =>
      idx = (-1)%Z /\ IndexByName (TabsKids tv) label = None
  | _ => False
  end.
Proof.
  intros Hi. unfold TabByName.
  rewrite (bind_Some _ _ _ _ _ (Tabs_inited tv Hi)).
  destruct (IndexByName (TabsKids tv) label) as [idx |] eqn:Hn.
  - rewrite (bind_Some _ _ _ _ _ (Frame_inited tv Hi)).
    unfold bind, lift, ret.
    destruct (KnownChild (FrameKids tv) idx) as [widg |] eqn:Hw;
      [| discriminate].
    intros H. inversion H; subst. auto.
  - unfold ret. intros H. inversion H; subst. auto.
Qed.

(** *** The wrappers *)

Lemma AddTab_wf tv widg label :
  wf tv ->
  AddTab widg label tv =
  Some (len (FrameKids tv),
        InsertTab_result widg label (len (FrameKids tv)) tv).
Proof.
  intros Hwf. pose proof (wf_inited _ Hwf) as Hi.
  unfold AddTab.
  rewrite (bind_Some _ _ _ _ _ (Frame_inited tv Hi)).
  erewrite bind_Some;
    [| apply InsertTab_wf; [exact Hwf | pose proof (len_nonneg (FrameKids tv)); lia]].
  reflexivity.
Qed.

Lemma InsertNewTab_unfold id typ label idx tv :
  InsertNewTab id typ label idx tv =
  (InsertTab (NewNode2D id typ label) label idx ;;
   fr2 <- gets FrameKids ;;
   lift (KnownChild fr2 idx)) tv.
Proof.
  unfold InsertNewTab, InsertTab, bind.
  destruct (Frame tv) as [[fr tv1] |]; [| reflexivity].
  destruct (lift (InsertChild fr (NewNode2D id typ label) idx) tv1)
    as [[fr' tv2] |]; [| reflexivity].
  destruct (modify (set_FrameKids fr') tv2) as [[u tv3] |]; reflexivity.
Qed.

Lemma InsertNewTab_wf tv id typ label idx :
  wf tv -> (0 <= idx <= len (FrameKids tv))%Z ->
  exists widg,
    InsertNewTab id typ label idx tv =
    Some (widg, InsertTab_result (NewNode2D id typ label) label idx tv).
Proof.
  intros Hwf Hr. rewrite InsertNewTab_unfold.
  rewrite (bind_Some _ _ _ _ _ (InsertTab_wf tv _ label idx Hwf Hr)).
  unfold bind, gets, lift.
  destruct (KnownChild_in_range
              (FrameKids (InsertTab_result (NewNode2D id typ label) label idx tv))
              idx) as [w Hw].
  { unfold len, InsertTab_result in *. cbn [FrameKids].
    rewrite length_middle. lia. }
  exists w. rewrite Hw. reflexivity.
Qed.

Lemma AddNewTab_wf tv id typ label :
  wf tv ->
  exists widg,
    AddNewTab id typ label tv =
    Some ((widg, len (FrameKids tv)),
          InsertTab_result (NewNode2D id typ label) label
            (len (FrameKids tv)) tv).
Proof.
  intros Hwf. pose proof (wf_inited _ Hwf) as Hi.
  destruct (InsertNewTab_wf tv id typ label (len (FrameKids tv)) Hwf)
    as [w Hw]; [pose proof (len_nonneg (FrameKids tv)); lia |].
  exists w. unfold AddNewTab.
  rewrite (bind_Some _ _ _ _ _ (Frame_inited tv Hi)).
  rewrite (bind_Some _ _ _ _ _ Hw). reflexivity.
Qed.

Lemma SelectTabIndexAction_valid tv idx :
  wf tv -> (0 <= idx < len (FrameKids tv))%Z ->
  SelectTabIndexAction idx tv =
  Some (tt, add_Emitted TabSelected idx
              (if (StackTop tv =? idx)%Z then tv
               else set_StackTop idx
                      (set_TabsKids
                         (select_only (length (FrameKids tv)) idx (TabsKids tv))
                         tv))).
Proof.
  intros Hwf Hr.
  destruct (SelectTabIndex_valid tv idx Hwf Hr) as (w & _ & HS).
  unfold SelectTabIndexAction.
  rewrite (bind_Some _ _ _ _ _ HS). reflexivity.
Qed.

Lemma SelectTabIndexAction_invalid tv idx :
  Inited tv = true -> (idx < 0 \/ len (FrameKids tv) <= idx)%Z ->
  SelectTabIndexAction idx tv =
  Some (tt, add_Log (LogOutOfRange idx (len (FrameKids tv))) tv).
Proof.
  intros Hi Hr. unfold SelectTabIndexAction.
  rewrite (bind_Some _ _ _ _ _ (SelectTabIndex_invalid tv idx Hi Hr)).
  reflexivity.
Qed.

Lemma DeleteTabIndex_invalid tv idx destroy :
  Inited tv = true -> (idx < 0 \/ len (FrameKids tv) <= idx)%Z ->
  DeleteTabIndex idx destroy tv =
  Some ((None, false), add_Log (LogOutOfRange idx (len (FrameKids tv))) tv).
Proof.
  intros Hi Hr. unfold DeleteTabIndex.
  rewrite (bind_Some _ _ _ _ _ (TabAtIndex_invalid tv idx Hi Hr)).
  reflexivity.
Qed.

Lemma DeleteTabIndexAction_valid tv idx :
  wf tv -> (0 <= idx < len (FrameKids tv))%Z ->
  DeleteTabIndexAction idx tv =
  Some (tt, add_Emitted TabDeleted idx (DeleteTabIndex_result idx tv)).
Proof.
  intros Hwf Hr.
  destruct (DeleteTabIndex_wf tv idx true Hwf Hr) as (w & _ & HD).
  unfold DeleteTabIndexAction.
  rewrite (bind_Some _ _ _ _ _ HD). reflexivity.
Qed.

Lemma DeleteTabIndexAction_invalid tv idx :
  Inited tv = true -> (idx < 0 \/ len (FrameKids tv) <= idx)%Z ->
  DeleteTabIndexAction idx tv =
  Some (tt, add_Log (LogOutOfRange idx (len (FrameKids tv))) tv).
Proof.
  intros Hi Hr. unfold DeleteTabIndexAction.
  rewrite (bind_Some _ _ _ _ _ (DeleteTabIndex_invalid tv idx true Hi Hr)).
  reflexivity.
Qed.

(** ** Reachable containers are well formed *)

Lemma reachable_run_ops ops : forall tv tv',
  reachable tv -> run_ops ops tv = Some tv' -> reachable tv'.
Proof.
  induction ops as [| op ops IH]; intros tv tv' Hr; simpl.
  - intros H. inversion H; subst. exact Hr.
  - destruct (run_op op tv) as [tv1 |] eqn:Hop; [| discriminate].
    apply IH. eapply reach_step; eauto.
Qed.

Lemma InsertTab_range tv widg label idx r :
  Inited tv = true -> InsertTab widg label idx tv = Some r ->
  (0 <= idx <= len (FrameKids tv))%Z.
Proof.
  intros Hi. unfold InsertTab.
  rewrite (bind_Some _ _ _ _ _ (Frame_inited tv Hi)).
  unfold bind at 1, lift, InsertChild.
  destruct (Z.leb_spec 0 idx); destruct (Z.leb_spec idx (len (FrameKids tv)));
    simpl; try discriminate.
  intros _. lia.
Qed.

Lemma InsertNewTab_range tv id typ label idx r :
  Inited tv = true -> InsertNewTab id typ label idx tv = Some r ->
  (0 <= idx <= len (FrameKids tv))%Z.
Proof.
  intros Hi. rewrite InsertNewTab_unfold. unfold bind at 1.
  destruct (InsertTab (NewNode2D id typ label) label idx tv) as [r0 |] eqn:E;
    [| discriminate].
  intros _. eapply InsertTab_range; eauto.
Qed.

Lemma wf_SelectTabIndex tv idx r tv' :
  wf tv -> SelectTabIndex idx tv = Some (r, tv') -> wf tv'.
Proof.
  intros Hwf. pose proof (wf_inited _ Hwf) as Hi.
  destruct (Z_lt_dec idx 0) as [Hneg | Hnn];
    [| destruct (Z_lt_dec idx (len (FrameKids tv))) as [Hlt | Hge]].
  - rewrite SelectTabIndex_invalid by (auto; lia).
    intros H. inversion H; subst. apply wf_add_Log. exact Hwf.
  - destruct (SelectTabIndex_valid tv idx Hwf) as (w & _ & HS); [lia |].
    rewrite HS. intros H. inversion H; subst.
    destruct (_ =? _)%Z; [exact Hwf |].
    apply wf_set_StackTop, wf_select_only. exact Hwf.
  - rewrite SelectTabIndex_invalid by (auto; lia).
    intros H. inversion H; subst. apply wf_add_Log. exact Hwf.
Qed.

Lemma wf_DeleteTabIndex tv idx destroy r tv' :
  wf tv -> DeleteTabIndex idx destroy tv = Some (r, tv') -> wf tv'.
Proof.
  intros Hwf. pose proof (wf_inited _ Hwf) as Hi.
  destruct (Z_lt_dec idx 0) as [Hneg | Hnn];
    [| destruct (Z_lt_dec idx (len (FrameKids tv))) as [Hlt | Hge]].
  - rewrite DeleteTabIndex_invalid by (auto; lia).
    intros H. inversion H; subst. apply wf_add_Log. exact Hwf.
  - destruct (DeleteTabIndex_wf tv idx destroy Hwf) as (w & _ & HD); [lia |].
    rewrite HD. intros H. inversion H; subst.
    apply wf_DeleteTabIndex_result; [exact Hwf | lia].
  - rewrite DeleteTabIndex_invalid by (auto; lia).
    intros H. inversion H; subst. apply wf_add_Log. exact Hwf.
Qed.

Lemma wf_step tv op tv' :
  wf tv -> run_op op tv = Some tv' -> wf tv'.
Proof.
  intros Hwf. pose proof (wf_inited _ Hwf) as Hi.
  destruct op as [widg label idx | widg label | id typ label idx
                 | id typ label | id typ label | idx | idx | label
                 | idx destroy | idx | flag |]; simpl; unfold exec.
  - destruct (InsertTab widg label idx tv) as [[u tv1] |] eqn:E;
      [| discriminate].
    pose proof (InsertTab_range _ _ _ _ _ Hi E) as Hr.
    rewrite (InsertTab_wf tv widg label idx Hwf Hr) in E.
    inversion E; subst. intros H. inversion H; subst.
    apply wf_InsertTab_result; assumption.
  - rewrite (AddTab_wf tv widg label Hwf).
    intros H. inversion H; subst.
    apply wf_InsertTab_result;
      [exact Hwf | pose proof (len_nonneg (FrameKids tv)); lia].
  - destruct (InsertNewTab id typ label idx tv) as [[u tv1] |] eqn:E;
      [| discriminate].
    pose proof (InsertNewTab_range _ _ _ _ _ _ Hi E) as Hr.
    destruct (InsertNewTab_wf tv id typ label idx Hwf Hr) as [w Hw].
    rewrite Hw in E. inversion E; subst. intros H. inversion H; subst.
    apply wf_InsertTab_result; assumption.
  - destruct (AddNewTab_wf tv id typ label Hwf) as [w Hw].
    rewrite Hw. intros H. inversion H; subst.
    apply wf_InsertTab_result;
      [exact Hwf | pose proof (len_nonneg (FrameKids tv)); lia].
  - destruct (AddNewTab_wf tv id typ label Hwf) as [w Hw].
    unfold AddNewTabAction. rewrite (bind_Some _ _ _ _ _ Hw).
    unfold bind, modify, ret. intros H. inversion H; subst.
    apply wf_add_Emitted, wf_InsertTab_result;
      [exact Hwf | pose proof (len_nonneg (FrameKids tv)); lia].
  - destruct (SelectTabIndex idx tv) as [[r tv1] |] eqn:E; [| discriminate].
    intros H. inversion H; subst. eapply wf_SelectTabIndex; eauto.
  - unfold SelectTabIndexAction, bind.
    destruct (SelectTabIndex idx tv) as [[r tv1] |] eqn:E; [| discriminate].
    pose proof (wf_SelectTabIndex _ _ _ _ Hwf E) as Hwf1.
    destruct (snd r); unfold modify, ret; intros H; inversion H; subst;
      [apply wf_add_Emitted |]; exact Hwf1.
  - unfold SelectTabByName. unfold bind at 1.
    destruct (TabByName label tv) as [[r tv1] |] eqn:E; [| discriminate].
    destruct (TabByName_inv _ _ _ _ Hi E) as [-> Hr].
    destruct r as [[[widg |] idx] [|]]; try contradiction.
    + unfold bind.
      destruct (SelectTabIndex idx tv) as [[r tv1] |] eqn:ES; [| discriminate].
      unfold ret. intros H. inversion H; subst.
      eapply wf_SelectTabIndex; eauto.
    + unfold bind, ret. intros H. inversion H; subst. exact Hwf.
  - destruct (DeleteTabIndex idx destroy tv) as [[r tv1] |] eqn:E;
      [| discriminate].
    intros H. inversion H; subst. eapply wf_DeleteTabIndex; eauto.
  - unfold DeleteTabIndexAction, bind.
    destruct (DeleteTabIndex idx true tv) as [[r tv1] |] eqn:E;
      [| discriminate].
    pose proof (wf_DeleteTabIndex _ _ _ _ _ Hwf E) as Hwf1.
    destruct (snd r); unfold modify, ret; intros H; inversion H; subst;
      [apply wf_add_Emitted |]; exact Hwf1.
  - intros H. inversion H; subst. apply wf_set_NewTabButton. exact Hwf.
  - rewrite (ConfigNewTabButton_wf tv Hwf).
    intros H. inversion H; subst. apply wf_ConfigNewTabButton_result.
    exact Hwf.
Qed.

(** Every reachable container is well formed. *)
Lemma reachable_wf tv : reachable tv -> wf tv.
Proof.
  induction 1 as [flag tv Hinit | tv op tv' Hr IH Hop].
  - destruct (wf_InitTabView_new flag) as (tv0 & H0 & Hwf).
    rewrite Hinit in H0. inversion H0; subst. exact Hwf.
  - eapply wf_step; eauto.
Qed.

(** ** Sample containers *)

Lemma reachable_initial flag : reachable (InitialTabView flag).
Proof. apply (reach_init flag). destruct flag; reflexivity. Qed.

Lemma reachable_from_initial flag ops tv :
  run_ops ops (InitialTabView flag) = Some tv -> reachable tv.
Proof. apply reachable_run_ops, reachable_initial. Qed.

(** ** Properties of the container *)

(** What does hold of the tags: [RenumberTabs] aligns them, so they are
    aligned after every deletion. *)
Lemma renumber_aligned tv :
  tags_aligned (set_TabsKids (renumber (length (FrameKids tv)) (TabsKids tv)) tv).
Proof.
  intros i b Hi. cbn [TabsKids FrameKids set_TabsKids] in *.
  unfold renumber. rewrite lookup_map_range.
  destruct (TabsKids tv !! i) as [c |]; [| discriminate].
  destruct (Nat.leb_spec 0 i); [| lia].
  destruct (Nat.ltb_spec i (0 + length (FrameKids tv))); [| lia].
  intros Hb. apply (inj Some) in Hb. subst b. reflexivity.
Qed.

Lemma select_only_Data sz idx tbs j b :
  select_only sz idx tbs !! j = Some b ->
  exists c, tbs !! j = Some c /\ Data b = Data c.
Proof.
  rewrite lookup_select_only.
  destruct (tbs !! j) as [c |]; [| discriminate].
  intros H. apply (inj Some) in H. subst b. exists c. split; [reflexivity |].
  destruct (Z.of_nat j =? idx)%Z; [reflexivity |].
  destruct (j <? sz)%nat; reflexivity.
Qed.

Lemma DeleteTabIndex_result_aligned tv idx :
  tags_aligned (DeleteTabIndex_result idx tv).
Proof.
  assert (Hd : tags_aligned (deleted idx tv)).
  { unfold deleted. apply (renumber_aligned (set_TabsKids _ (set_FrameKids _ tv))). }
  unfold DeleteTabIndex_result.
  destruct (_ >=? 0)%Z; [| exact Hd].
  destruct (_ =? _)%Z; [exact Hd |].
  intros i b Hi Hb. cbn [TabsKids FrameKids set_TabsKids set_StackTop] in *.
  destruct (select_only_Data _ _ _ _ _ Hb) as (c & Hc & ->).
  apply (Hd i c Hi Hc).
Qed.

(** C1 (index alignment invariant): the code breaks it.  [InsertTabOnlyAt]
    tags the new button with [idx] and renumbers nothing, although
    [DeleteTabIndex] calls [RenumberTabs] for the same purpose.  Adding tab
    A to a fresh container and inserting tab B in front of it gives a
    reachable container whose strip and stack both have length two, and in
    which the button of A sits at position 1 with index tag 0. *)
Theorem C1_insert_in_front_leaves_stale_tag :
  exists (tv : TabView) (b : Button),
    run_ops [OpAddTab wA "A"; OpInsertTab wB "B" 0%Z] (NewTabView false)
      = Some tv /\
    reachable tv /\
    length (TabsKids tv) = 2%nat /\ length (FrameKids tv) = 2%nat /\
    TabsKids tv !! 1%nat = Some b /\ BName b = "A" /\ Data b = Some 0%Z /\
    ~ tags_aligned tv.
Proof.
  eexists. eexists.
  split; [vm_compute; reflexivity |].
  split; [apply (reachable_from_initial false
                   [OpAddTab wA "A"; OpInsertTab wB "B" 0%Z]);
          vm_compute; reflexivity |].
  split; [reflexivity |]. split; [reflexivity |].
  split; [reflexivity |]. split; [reflexivity |]. split; [reflexivity |].
  intros H. specialize (H 1%nat _ ltac:(simpl; lia) eq_refl).
  discriminate H.
Qed.

(** C2 (visible-index invariant): the code breaks it in two ways.
    Deleting a tab in front of the visible one leaves [StackTop] where it
    was: with tabs A, B, C and C selected, deleting index 0 gives a reachable
    container with two tabs and [StackTop] 2.  And deleting the visible tab
    at index 0 of A, B leaves [StackTop] 0 with the button of B unselected,
    after which [SelectTabIndex(0)] succeeds and still no button is
    selected. *)
Theorem C2_visible_index_invariant_broken :
  (exists tv : TabView,
      run_ops (tabsABC ++ [OpSelectTabIndex 2%Z; OpDeleteTabIndex 0%Z true])
              (NewTabView false) = Some tv /\
      reachable tv /\
      len (FrameKids tv) = 2%Z /\ StackTop tv = 2%Z /\
      ~ visible_index_ok tv) /\
  (exists (tv : TabView) (widg : Node2D),
      run_ops (tabsAB ++ [OpDeleteTabIndex 0%Z true]) (NewTabView false)
        = Some tv /\
      reachable tv /\
      SelectTabIndex 0%Z tv = Some ((Some widg, true), tv) /\
      StackTop tv = 0%Z /\ len (FrameKids tv) = 1%Z /\
      none_selected tv /\
      ~ visible_index_ok tv).
Proof.
  split.
  - eexists. split; [vm_compute; reflexivity |].
    split; [apply (reachable_from_initial false
                     (tabsABC ++ [OpSelectTabIndex 2%Z; OpDeleteTabIndex 0%Z true]));
            vm_compute; reflexivity |].
    split; [reflexivity |]. split; [reflexivity |].
    intros [H | [[_ H] _]]; [discriminate H |].
    vm_compute in H. discriminate H.
  - eexists. eexists. split; [vm_compute; reflexivity |].
    split; [apply (reachable_from_initial false
                     (tabsAB ++ [OpDeleteTabIndex 0%Z true]));
            vm_compute; reflexivity |].
    split; [vm_compute; reflexivity |].
    split; [reflexivity |]. split; [reflexivity |].
    split.
    + intros [| j] b Hj Hb; cbn in Hj, Hb; [| lia].
      inversion Hb; subst. reflexivity.
    + intros [H | [_ H]]; [discriminate H |].
      specialize (H 0%nat _ ltac:(simpl; lia) eq_refl).
      cbn in H. destruct H as [_ H]. specialize (H eq_refl). discriminate H.
Qed.

(** The part of the reselect policy the code does carry out: deleting the
    visible tab at an index above 0 selects the tab before it. *)
Lemma select_only_only_selected tv idx :
  only_selected idx
    (set_StackTop idx
       (set_TabsKids (select_only (length (FrameKids tv)) idx (TabsKids tv)) tv)).
Proof.
  intros j b Hj. cbn [TabsKids FrameKids set_TabsKids set_StackTop] in *.
  rewrite lookup_select_only.
  destruct (TabsKids tv !! j) as [c |]; [| discriminate].
  intros H. apply (inj Some) in H. subst b.
  destruct (Z.eqb_spec (Z.of_nat j) idx) as [E | E].
  - split; [intros _; exact E | reflexivity].
  - destruct (Nat.ltb_spec j (length (FrameKids tv))); [| lia].
    split; [discriminate | contradiction].
Qed.


(** The three examples of the policy, run on the code. *)
Lemma delete_visible_middle :
  exists tv : TabView,
    run_ops (tabsABC ++ [OpSelectTabIndex 1%Z; OpDeleteTabIndex 1%Z true])
            (NewTabView false) = Some tv /\
    StackTop tv = 0%Z /\
    map BName (TabsKids tv) = ["A"; "C"] /\
    map Selected (TabsKids tv) = [true; false].
Proof. eexists. split; [vm_compute; reflexivity |]. repeat split. Qed.

Lemma delete_visible_last :
  exists tv : TabView,
    run_ops (tabsABC ++ [OpSelectTabIndex 2%Z; OpDeleteTabIndex 2%Z true])
            (NewTabView false) = Some tv /\
    StackTop tv = 1%Z /\
    map BName (TabsKids tv) = ["A"; "B"] /\
    map Selected (TabsKids tv) = [false; true].
Proof. eexists. split; [vm_compute; reflexivity |]. repeat split. Qed.

Lemma delete_single :
  exists tv : TabView,
    run_ops [OpAddTab wA "A"; OpDeleteTabIndex 0%Z true] (NewTabView false)
      = Some tv /\
    TabsKids tv = [] /\ FrameKids tv = [] /\
    CurTab tv = Some ((None, (-1)%Z, false), tv).
Proof. eexists. split; [vm_compute; reflexivity |]. repeat split. Qed.

(** C3 (delete-reselect policy): the code misses the middle case.  With
    tabs A, B and A visible and selected, [DeleteTabIndex(0, true)] computes
    [nxtidx = 0] and calls [SelectTabIndex(0)], which returns at once because
    [StackTop] is still 0.  B slides into position 0 and becomes the visible
    content, but its button is never marked selected: no tab button reports
    selected state. *)
Theorem C3_delete_first_visible_selects_no_button :
  exists (tv0 tv : TabView) (a : Button),
    run_ops tabsAB (NewTabView false) = Some tv0 /\
    StackTop tv0 = 0%Z /\
    TabsKids tv0 !! 0%nat = Some a /\ BName a = "A" /\ Selected a = true /\
    DeleteTabIndex 0%Z true tv0 = Some ((None, true), tv) /\
    len (FrameKids tv) = 1%Z /\
    map BName (TabsKids tv) = ["B"] /\
    StackTop tv = 0%Z /\
    none_selected tv /\
    ~ only_selected 0%Z tv.
Proof.
  eexists. eexists. eexists.
  split; [vm_compute; reflexivity |].
  split; [reflexivity |]. split; [reflexivity |].
  split; [reflexivity |]. split; [reflexivity |].
  split; [vm_compute; reflexivity |].
  split; [reflexivity |]. split; [reflexivity |]. split; [reflexivity |].
  split.
  - intros [| j] b Hj Hb; cbn in Hj, Hb; [| lia].
    inversion Hb; subst. reflexivity.
  - intros H. specialize (H 0%nat _ ltac:(simpl; lia) eq_refl).
    destruct H as [_ H]. specialize (H eq_refl). discriminate H.
Qed.

(** C10 ([CurTab] bounds safety): the code breaks it.  With tabs A, B, C
    and C selected, deleting index 0 gives a reachable container with two
    tabs and [StackTop] 2, where the child access of [CurTab] is out of
    bounds.  The defect is the one of C2: [DeleteTabIndex] leaves [StackTop]
    alone when the deleted tab precedes the visible one. *)
Theorem C10_CurTab_access_out_of_bounds :
  exists tv : TabView,
    run_ops (tabsABC ++ [OpSelectTabIndex 2%Z; OpDeleteTabIndex 0%Z true])
            (NewTabView false) = Some tv /\
    reachable tv /\
    NTabs tv = Some (2%Z, tv) /\
    StackTop tv = 2%Z /\
    KnownChild (FrameKids tv) (StackTop tv) = None /\
    CurTab tv = None.
Proof.
  eexists. split; [vm_compute; reflexivity |].
  split; [apply (reachable_from_initial false
                   (tabsABC ++ [OpSelectTabIndex 2%Z; OpDeleteTabIndex 0%Z true]));
          vm_compute; reflexivity |].
  repeat split.
Qed.

Lemma wf_initial flag : wf (InitialTabView flag).
Proof. apply reachable_wf, reachable_initial. Qed.

Lemma wf_oneTab : wf oneTab.
Proof.
  apply wf_InsertTab_result; [apply wf_initial | vm_compute; split; discriminate].
Qed.

Lemma wf_threeTabs : wf threeTabs.
Proof.
  apply wf_InsertTab_result; [| vm_compute; split; discriminate].
  apply wf_InsertTab_result; [| vm_compute; split; discriminate].
  apply wf_oneTab.
Qed.

(** C4 ([InsertTab] selection behaviour).  On a container that is fresh
    or well formed ([tv0] is the container once its frames exist) and an
    index in the documented range, [InsertTab] returns, puts the new
    button and the widget at [idx] and leaves every other child of the strip
    and of the stack as it was.  If the stack was empty, the new button is
    selected, the widget is stored as given and the visible index is 0.
    Otherwise the new button is not selected, the widget is marked
    invisible, the visible index is unchanged and the selected buttons are
    the ones selected before. *)
Theorem C4_InsertTab_selection (tv : TabView) (widg : Node2D) (label : string)
  (idx : Z) :
  let tv0 := started tv in
  wf tv0 -> (0 <= idx <= len (FrameKids tv0))%Z ->
  let first := (length (FrameKids tv0) =? 0)%nat in
  let i := Z.to_nat idx in
  exists tv' : TabView,
    InsertTab widg label idx tv = Some (tt, tv') /\
    TabsKids tv' =
      take i (TabsKids tv0) ++ new_tab label idx first :: drop i (TabsKids tv0) /\
    FrameKids tv' =
      take i (FrameKids tv0)
        ++ (if first then widg else SetInvisibleTree widg)
        :: drop i (FrameKids tv0) /\
    StackTop tv' = (if first then 0%Z else StackTop tv0) /\
    KnownChild (FrameKids tv') idx =
      Some (if first then widg else SetInvisibleTree widg) /\
    KnownChild (TabsKids tv') idx = Some (new_tab label idx first) /\
    List.filter Selected (TabsKids tv') =
      (if first
       then new_tab label 0%Z true :: List.filter Selected (TabsKids tv0)
       else List.filter Selected (TabsKids tv0)).
Proof.
  intros tv0 Hwf Hr first i.
  rewrite InsertTab_started. fold tv0. clearbody tv0. clear tv.
  rename tv0 into tv.
  pose proof (wf_le _ Hwf) as Hle.
  exists (InsertTab_result widg label idx tv).
  split; [apply InsertTab_wf; assumption |].
  unfold InsertTab_result. cbn [TabsKids FrameKids StackTop].
  fold first. fold i.
  assert (Hi : (i <= length (FrameKids tv))%nat) by (unfold i, len in *; lia).
  split; [reflexivity |]. split; [reflexivity |]. split; [reflexivity |].
  split.
  { unfold KnownChild. destruct (Z.ltb_spec idx 0); [lia |].
    fold i. apply lookup_middle. exact Hi. }
  split.
  { unfold KnownChild. destruct (Z.ltb_spec idx 0); [lia |].
    fold i. apply lookup_middle. lia. }
  rewrite List.filter_app. cbn [List.filter].
  unfold first.
  destruct (Nat.eqb_spec (length (FrameKids tv)) 0) as [E | E].
  - assert (idx = 0%Z) by (unfold len in Hr; lia). subst idx.
    unfold i. simpl. reflexivity.
  - cbn [new_tab Selected].
    rewrite <- List.filter_app, take_drop. reflexivity.
Qed.

Lemma C4_InsertTab_selection_witness :
  (wf (started (NewTabView false)) /\
   (0 <= 0 <= len (FrameKids (started (NewTabView false))))%Z /\
   exists tv' : TabView,
     InsertTab wA "A" 0%Z (NewTabView false) = Some (tt, tv') /\
     TabsKids tv' = [new_tab "A" 0%Z true] /\
     FrameKids tv' = [wA] /\
     StackTop tv' = 0%Z) /\
  (wf (started oneTab) /\ (0 <= 0 <= len (FrameKids (started oneTab)))%Z /\
   exists tv' : TabView,
     InsertTab wB "B" 0%Z oneTab = Some (tt, tv') /\
     TabsKids tv' = [new_tab "B" 0%Z false; new_tab "A" 0%Z true] /\
     FrameKids tv' = [SetInvisibleTree wB; wA] /\
     StackTop tv' = 0%Z).
Proof.
  split.
  - split; [exact (wf_initial false) |].
    split; [vm_compute; split; discriminate |].
    destruct (C4_InsertTab_selection (NewTabView false) wA "A" 0%Z
                (wf_initial false))
      as (tv' & H1 & H2 & H3 & H4 & _).
    + vm_compute; split; discriminate.
    + exists tv'. split; [exact H1 |].
      split; [exact H2 |]. split; [exact H3 | exact H4].
  - split; [exact wf_oneTab |].
    split; [vm_compute; split; discriminate |].
    destruct (C4_InsertTab_selection oneTab wB "B" 0%Z wf_oneTab)
      as (tv' & H1 & H2 & H3 & H4 & _).
    + vm_compute; split; discriminate.
    + exists tv'. split; [exact H1 |].
      split; [exact H2 |]. split; [exact H3 | exact H4].
Defined.

(** C5 ([SelectTabIndex] contract).  On a container that is fresh or well
    formed ([tv0] is the container once its frames exist), with [n] tabs: a
    valid [idx] that is already the visible index gives back the
    content widget at [idx] and success and changes nothing; a valid [idx]
    that is not visible also succeeds, sets the visible index to [idx],
    selects the button at [idx], deselects every other tab button and
    changes nothing else; an [idx] below 0 or from [n] on gives (nil, false)
    and changes nothing but the log, which gains the one diagnostic. *)
Theorem C5_SelectTabIndex_contract (tv : TabView) (idx : Z) :
  let tv0 := started tv in
  wf tv0 ->
  let n := len (FrameKids tv0) in
  ((0 <= idx < n)%Z -> StackTop tv0 = idx ->
   exists widg : Node2D,
     KnownChild (FrameKids tv0) (StackTop tv0) = Some widg /\
     SelectTabIndex idx tv = Some ((Some widg, true), tv0)) /\
  ((0 <= idx < n)%Z -> StackTop tv0 <> idx ->
   exists (widg : Node2D) (tv' : TabView),
     KnownChild (FrameKids tv0) idx = Some widg /\
     SelectTabIndex idx tv = Some ((Some widg, true), tv') /\
     tv' = set_StackTop idx (set_TabsKids (TabsKids tv') tv0) /\
     only_selected idx tv' /\
     forall j : nat,
       TabsKids tv' !! j =
       (fun b => if (Z.of_nat j =? idx)%Z then SetSelectedState true b
                 else if (Z.of_nat j <? n)%Z then SetSelectedState false b
                 else b) <$> TabsKids tv0 !! j) /\
  ((idx < 0 \/ n <= idx)%Z ->
   SelectTabIndex idx tv =
   Some ((None, false), add_Log (LogOutOfRange idx n) tv0)).
Proof.
  intros tv0 Hwf n.
  rewrite SelectTabIndex_started. fold tv0. clearbody tv0. clear tv.
  rename tv0 into tv. split; [| split].
  - intros Hr Htop.
    destruct (SelectTabIndex_valid tv idx Hwf Hr) as (widg & Hw & HS).
    exists widg. split.
    + rewrite Htop. unfold KnownChild.
      destruct (Z.ltb_spec idx 0); [lia | exact Hw].
    + rewrite HS, Htop, Z.eqb_refl. reflexivity.
  - intros Hr Htop.
    destruct (SelectTabIndex_valid tv idx Hwf Hr) as (widg & Hw & HS).
    exists widg. eexists. split.
    { unfold KnownChild. destruct (Z.ltb_spec idx 0); [lia | exact Hw]. }
    split.
    { rewrite HS. destruct (Z.eqb_spec (StackTop tv) idx); [contradiction |].
      reflexivity. }
    split; [reflexivity |].
    split; [apply select_only_only_selected |].
    intros j. cbn [TabsKids set_TabsKids set_StackTop].
    rewrite lookup_select_only.
    destruct (TabsKids tv !! j) as [b |]; [| reflexivity].
    cbn [fmap option_fmap option_map]. unfold n, len.
    destruct (Nat.ltb_spec j (length (FrameKids tv)));
      destruct (Z.ltb_spec (Z.of_nat j) (Z.of_nat (length (FrameKids tv))));
      try reflexivity; lia.
  - intros Hr. apply SelectTabIndex_invalid; [apply (wf_inited _ Hwf) | exact Hr].
Qed.

Lemma C5_SelectTabIndex_contract_witness :
  wf (started threeTabs) /\
  ((0 <= 0 < len (FrameKids threeTabs))%Z /\ StackTop threeTabs = 0%Z /\
   exists widg : Node2D,
     SelectTabIndex 0%Z threeTabs = Some ((Some widg, true), threeTabs)) /\
  ((0 <= 2 < len (FrameKids threeTabs))%Z /\ StackTop threeTabs <> 2%Z /\
   exists (widg : Node2D) (tv' : TabView),
     SelectTabIndex 2%Z threeTabs = Some ((Some widg, true), tv') /\
     only_selected 2%Z tv') /\
  ((5 < 0 \/ len (FrameKids threeTabs) <= 5)%Z /\
   SelectTabIndex 5%Z threeTabs =
   Some ((None, false), add_Log (LogOutOfRange 5%Z 3%Z) threeTabs)).
Proof.
  split; [exact wf_threeTabs |].
  split; [| split].
  - split; [vm_compute; split; [discriminate | reflexivity] |].
    split; [reflexivity |].
    destruct (proj1 (C5_SelectTabIndex_contract threeTabs 0%Z wf_threeTabs))
      as (widg & _ & HS).
    + vm_compute; split; [discriminate | reflexivity].
    + reflexivity.
    + exists widg. exact HS.
  - split; [vm_compute; split; [discriminate | reflexivity] |].
    split; [discriminate |].
    destruct (proj1 (proj2 (C5_SelectTabIndex_contract threeTabs 2%Z
                              wf_threeTabs)))
      as (widg & tv' & _ & HS & _ & Hsel & _).
    + vm_compute; split; [discriminate | reflexivity].
    + discriminate.
    + exists widg, tv'. split; [exact HS | exact Hsel].
  - split; [right; vm_compute; discriminate |].
    apply (proj2 (proj2 (C5_SelectTabIndex_contract threeTabs 5%Z
                           wf_threeTabs))).
    right; vm_compute; discriminate.
Defined.

Lemma Emitted_DeleteTabIndex_result tv idx :
  Emitted (DeleteTabIndex_result idx tv) = Emitted tv.
Proof.
  unfold DeleteTabIndex_result.
  destruct (_ >=? 0)%Z; [| reflexivity].
  destruct (_ =? _)%Z; reflexivity.
Qed.

(** C6 (signal emission iff success).  On a container that is fresh or
    well formed ([tv0] is the container once its frames exist), with [n]
    tabs, [SelectTabIndexAction(idx)] returns and appends to the emitted
    signals exactly one [TabSelected] carrying [idx] when [0 <= idx < n], and
    nothing otherwise; [DeleteTabIndexAction(idx)] does the same with
    [TabDeleted]. *)
Theorem C6_signal_iff_success (tv : TabView) (idx : Z) :
  let tv0 := started tv in
  wf tv0 ->
  let valid := ((0 <=? idx) && (idx <? len (FrameKids tv0)))%Z in
  (exists tv' : TabView,
      SelectTabIndexAction idx tv = Some (tt, tv') /\
      Emitted tv' =
      Emitted tv0 ++ (if valid then [(TabSelected, idx)] else [])) /\
  (exists tv' : TabView,
      DeleteTabIndexAction idx tv = Some (tt, tv') /\
      Emitted tv' =
      Emitted tv0 ++ (if valid then [(TabDeleted, idx)] else [])).
Proof.
  intros tv0 Hwf valid.
  rewrite SelectTabIndexAction_started, DeleteTabIndexAction_started.
  fold tv0. clearbody tv0. clear tv. rename tv0 into tv. pose proof (wf_inited _ Hwf) as Hi. unfold valid.
  destruct (Z.leb_spec 0 idx) as [H0 | H0];
    [destruct (Z.ltb_spec idx (len (FrameKids tv))) as [H1 | H1] |];
    cbn [andb].
  - split; eexists.
    + split; [apply SelectTabIndexAction_valid; [exact Hwf | lia] |].
      cbn [Emitted add_Emitted].
      destruct (StackTop tv =? idx)%Z; reflexivity.
    + split; [apply DeleteTabIndexAction_valid; [exact Hwf | lia] |].
      cbn [Emitted add_Emitted]. rewrite Emitted_DeleteTabIndex_result.
      reflexivity.
  - split; eexists.
    + split; [apply SelectTabIndexAction_invalid; [exact Hi | lia] |].
      cbn [Emitted add_Log]. rewrite app_nil_r. reflexivity.
    + split; [apply DeleteTabIndexAction_invalid; [exact Hi | lia] |].
      cbn [Emitted add_Log]. rewrite app_nil_r. reflexivity.
  - split; eexists.
    + split; [apply SelectTabIndexAction_invalid; [exact Hi | lia] |].
      cbn [Emitted add_Log]. rewrite app_nil_r. reflexivity.
    + split; [apply DeleteTabIndexAction_invalid; [exact Hi | lia] |].
      cbn [Emitted add_Log]. rewrite app_nil_r. reflexivity.
Qed.

Lemma C6_signal_iff_success_witness :
  wf (started threeTabs) /\
  (exists tv' : TabView,
      SelectTabIndexAction 1%Z threeTabs = Some (tt, tv') /\
      Emitted tv' = [(TabSelected, 1%Z)]) /\
  (exists tv' : TabView,
      DeleteTabIndexAction 1%Z threeTabs = Some (tt, tv') /\
      Emitted tv' = [(TabDeleted, 1%Z)]) /\
  (exists tv' : TabView,
      DeleteTabIndexAction 3%Z threeTabs = Some (tt, tv') /\
      Emitted tv' = []).
Proof.
  split; [exact wf_threeTabs |].
  destruct (C6_signal_iff_success threeTabs 1%Z wf_threeTabs) as [HS HD].
  destruct (C6_signal_iff_success threeTabs 3%Z wf_threeTabs) as [_ HD3].
  split; [exact HS |]. split; [exact HD | exact HD3].
Defined.

(** C7 (add/find round trip).  On a container that is fresh or well
    formed ([tv0] is the container once its frames exist) and none of whose
    tabs is named [label], [AddTab(w, label)] returns the index [n] of the
    new tab and [TabByName(label)] then returns that index and the widget
    [w] (the same node, marked invisible by the insertion unless it is the
    first tab) and changes nothing.  Whenever [TabByName] returns, on any
    container, the container is as before once its frames exist; a hit is
    the first child of the strip with that name, and a name no child of the
    strip has gives (nil, -1, false). *)
Theorem C7_add_find_round_trip (tv : TabView) (w : Node2D) (label : string) :
  let tv0 := started tv in
  wf tv0 ->
  (forall (j : nat) (b : Button),
      (j < length (FrameKids tv0))%nat -> TabsKids tv0 !! j = Some b ->
      BName b <> label) ->
  let n := len (FrameKids tv0) in
  (exists (tv1 : TabView) (w' : Node2D),
      AddTab w label tv = Some (n, tv1) /\
      TabByName label tv1 = Some ((Some w', n, true), tv1) /\
      NodeId w' = NodeId w /\
      w' = (if (n =? 0)%Z then w else SetInvisibleTree w)) /\
  (forall (tv2 : TabView) (name : string) r (tv3 : TabView),
      TabByName name tv2 = Some (r, tv3) ->
      let tv2' := started tv2 in
      tv3 = tv2' /\
      ((exists (widg : Node2D) (j : nat) (b : Button),
           r = (Some widg, Z.of_nat j, true) /\
           TabsKids tv2' !! j = Some b /\ BName b = name /\
           FrameKids tv2' !! j = Some widg /\
           (forall j' b', (j' < j)%nat -> TabsKids tv2' !! j' = Some b' ->
                          BName b' <> name)) \/
       (r = (None, (-1)%Z, false) /\
        forall j b, TabsKids tv2' !! j = Some b -> BName b <> name))) /\
  (forall (tv2 : TabView) (name : string),
      (forall j b, TabsKids (started tv2) !! j = Some b -> BName b <> name) ->
      TabByName name tv2 = Some ((None, (-1)%Z, false), started tv2)).
Proof.
  intros tv0 Hwf Hfresh n.
  rewrite AddTab_started. fold tv0. clearbody tv0. clear tv.
  rename tv0 into tv. pose proof (wf_le _ Hwf) as Hle.
  split; [| split].
  - exists (InsertTab_result w label n tv).
    exists (if (n =? 0)%Z then w else SetInvisibleTree w).
    split; [apply AddTab_wf; exact Hwf |].
    assert (Hfirst : (length (FrameKids tv) =? 0)%nat = (n =? 0)%Z).
    { unfold n, len.
      destruct (Nat.eqb_spec (length (FrameKids tv)) 0);
        destruct (Z.eqb_spec (Z.of_nat (length (FrameKids tv))) 0);
        try reflexivity; lia. }
    split; [| split; [destruct (n =? 0)%Z; reflexivity | reflexivity]].
    apply TabByName_found.
    + apply (wf_inited _ Hwf).
    + unfold IndexByName. apply IndexByName_from_Some.
      exists (length (FrameKids tv)).
      exists (new_tab label n (length (FrameKids tv) =? 0)%nat).
      unfold InsertTab_result. cbn [TabsKids]. unfold n, len.
      rewrite Nat2Z.id.
      split; [lia |].
      split; [apply lookup_middle; exact Hle |].
      split; [reflexivity |].
      intros j' b' Hj' Hb'.
      rewrite lookup_middle_lt in Hb' by lia.
      apply (Hfresh j' b' Hj' Hb').
    + unfold InsertTab_result. cbn [FrameKids]. rewrite Hfirst.
      unfold KnownChild. destruct (Z.ltb_spec n 0); [unfold n, len in *; lia |].
      apply lookup_middle. unfold n, len. lia.
  - intros tv2 name r tv3 HT tv2'.
    rewrite TabByName_started in HT. fold tv2' in HT.
    pose proof (Inited_started tv2) as Hi. fold tv2' in Hi.
    clearbody tv2'. clear tv2. rename tv2' into tv2.
    destruct (TabByName_inv _ _ _ _ Hi HT) as [-> Hr].
    split; [reflexivity |].
    destruct r as [[[widg |] idx] [|]]; try contradiction.
    + destruct Hr as [Hidx Hw].
      apply IndexByName_from_Some in Hidx.
      destruct Hidx as (j & b & -> & Hj & Hb & Hfirst).
      left. exists widg, j, b. simpl.
      repeat split; try assumption.
      rewrite Z.add_0_l, KnownChild_nat in Hw. exact Hw.
    + destruct Hr as [-> Hnone]. right. split; [reflexivity |].
      apply (IndexByName_from_None _ _ 0%Z). exact Hnone.
  - intros tv2 name Hnone. rewrite TabByName_started.
    apply TabByName_not_found; [apply Inited_started |].
    apply IndexByName_from_None. exact Hnone.
Qed.

Lemma C7_add_find_round_trip_witness :
  wf (started threeTabs) /\
  (forall (j : nat) (b : Button),
      (j < length (FrameKids (started threeTabs)))%nat ->
      TabsKids (started threeTabs) !! j = Some b -> BName b <> "Foo") /\
  exists (tv1 : TabView) (w' : Node2D),
    AddTab (mkNode2D 4 KiT_Frame "foo" false) "Foo" threeTabs
      = Some (3%Z, tv1) /\
    TabByName "Foo" tv1 = Some ((Some w', 3%Z, true), tv1) /\
    NodeId w' = 4%nat.
Proof.
  assert (Hfresh : forall (j : nat) (b : Button),
             (j < length (FrameKids threeTabs))%nat ->
             TabsKids threeTabs !! j = Some b -> BName b <> "Foo").
  { intros [| [| [| j]]] b Hj Hb; simpl in Hj; try lia;
      inversion Hb; subst; discriminate. }
  split; [exact wf_threeTabs |].
  split; [exact Hfresh |].
  destruct (proj1 (C7_add_find_round_trip threeTabs
                     (mkNode2D 4 KiT_Frame "foo" false) "Foo"
                     wf_threeTabs Hfresh))
    as (tv1 & w' & HA & HT & Hid & _).
  exists tv1, w'. split; [exact HA |]. split; [exact HT | exact Hid].
Defined.

Lemma ConfigNewTabButton_noop tv :
  Inited tv = true ->
  length (TabsKids tv) = (length (FrameKids tv) + flag_count tv)%nat ->
  ConfigNewTabButton tv = Some (false, tv).
Proof.
  intros Hi Hc. unfold ConfigNewTabButton, ConfigNewTabButton_with.
  rewrite (bind_Some _ _ _ _ _ (NTabs_inited tv Hi)).
  rewrite (bind_Some _ _ _ _ _ (Tabs_inited tv Hi)).
  unfold bind at 1, gets. unfold flag_count in Hc.
  destruct (NewTabButton tv).
  - destruct (Z.eqb_spec (len (TabsKids tv)) (len (FrameKids tv) + 1));
      [reflexivity | unfold len in *; lia].
  - destruct (Z.eqb_spec (len (TabsKids tv)) (len (FrameKids tv)));
      [reflexivity | unfold len in *; lia].
Qed.

(** C8 ([ConfigNewTabButton] idempotence).  On a container that is fresh
    or well formed ([tv0] is the container once its frames exist) one call
    returns and leaves the strip with as many children as there are tabs,
    plus one when [NewTabButton] is set; it touches neither the flag nor the
    content stack.  A second call right after it returns false and changes
    nothing, and so does any call on a container whose strip already has that
    many children. *)
Theorem C8_ConfigNewTabButton_idempotent (tv : TabView) :
  let tv0 := started tv in
  wf tv0 ->
  exists (r : bool) (tv1 : TabView),
    ConfigNewTabButton tv = Some (r, tv1) /\
    length (TabsKids tv1) = (length (FrameKids tv1) + flag_count tv1)%nat /\
    NewTabButton tv1 = NewTabButton tv0 /\
    FrameKids tv1 = FrameKids tv0 /\
    ConfigNewTabButton tv1 = Some (false, tv1) /\
    (forall tv2 : TabView,
        Inited tv2 = true ->
        length (TabsKids tv2) = (length (FrameKids tv2) + flag_count tv2)%nat ->
        ConfigNewTabButton tv2 = Some (false, tv2)).
Proof.
  intros tv0 Hwf.
  rewrite ConfigNewTabButton_started. fold tv0. clearbody tv0. clear tv.
  rename tv0 into tv.
  exists (ConfigNewTabButton_changes tv), (ConfigNewTabButton_result tv).
  pose proof (ConfigNewTabButton_result_count tv Hwf) as Hc.
  pose proof (wf_ConfigNewTabButton_result tv Hwf) as Hwf1.
  split; [apply ConfigNewTabButton_wf; exact Hwf |].
  split; [exact Hc |].
  split.
  { unfold ConfigNewTabButton_result.
    destruct (NewTabButton tv) eqn:Hf; destruct (_ =? _)%nat;
      cbn [NewTabButton set_TabsKids set_NewTabType]; exact Hf. }
  split.
  { unfold ConfigNewTabButton_result.
    destruct (NewTabButton tv); destruct (_ =? _)%nat; reflexivity. }
  split.
  { apply ConfigNewTabButton_noop; [apply (wf_inited _ Hwf1) | exact Hc]. }
  intros tv2. apply ConfigNewTabButton_noop.
Qed.

Lemma C8_ConfigNewTabButton_idempotent_witness :
  wf (started (set_NewTabButton true threeTabs)) /\
  exists (r : bool) (tv1 : TabView),
    ConfigNewTabButton (set_NewTabButton true threeTabs) = Some (r, tv1) /\
    length (TabsKids tv1) = 4%nat /\
    ConfigNewTabButton tv1 = Some (false, tv1).
Proof.
  split; [apply wf_set_NewTabButton, wf_threeTabs |].
  destruct (C8_ConfigNewTabButton_idempotent (set_NewTabButton true threeTabs)
              (wf_set_NewTabButton threeTabs true wf_threeTabs))
    as (r & tv1 & H1 & H2 & H3 & H4 & H5 & _).
  exists r, tv1. split; [exact H1 |]. split; [| exact H5].
  rewrite H2, H4. unfold flag_count. rewrite H3. reflexivity.
Defined.

(** *** The close control of a tab button *)

Lemma ParentByType_TabView_None path :
  ParentByType_TabView path = None <->
  (forall (j : nat) (a : Ancestor),
      path !! j = Some a -> exists typ, a = AncOther typ).
Proof.
  induction path as [| a path IH]; simpl.
  - split; [intros _ j a Hj; discriminate | reflexivity].
  - destruct a as [tv | typ].
    + split; [discriminate |].
      intros H. destruct (H 0%nat (AncTabView tv) eq_refl) as [typ Ht].
      discriminate Ht.
    + destruct (ParentByType_TabView path) as [[k tv] |].
      * split; [discriminate |].
        intros H. assert (Hn : Some (k, tv) = @None (nat * TabView)).
        { apply IH. intros j a Hj. apply (H (S j) a Hj). }
        discriminate Hn.
      * split; [| reflexivity].
        intros _ [| j] a Hj; simpl in Hj.
        -- inversion Hj; subst. exists typ. reflexivity.
        -- apply (proj1 IH eq_refl j a Hj).
Qed.

Lemma ParentByType_TabView_Some path k tv :
  ParentByType_TabView path = Some (k, tv) <->
  path !! k = Some (AncTabView tv) /\
  (forall j : nat, (j < k)%nat -> exists typ, path !! j = Some (AncOther typ)).
Proof.
  revert k. induction path as [| a path IH]; intros k; simpl.
  - split; [discriminate | intros [H _]; discriminate].
  - destruct a as [tv0 | typ].
    + split.
      * intros H. inversion H; subst. split; [reflexivity | intros; lia].
      * intros [Hk Hlt]. destruct k as [| k].
        -- simpl in Hk. inversion Hk; subst. reflexivity.
        -- destruct (Hlt 0%nat) as [typ Ht]; [lia |]. discriminate Ht.
    + destruct (ParentByType_TabView path) as [[k0 tv0] |] eqn:E.
      * split.
        -- intros H. inversion H; subst.
           destruct (proj1 (IH k0) eq_refl) as [Hk Hlt].
           split; [exact Hk |].
           intros [| j] Hj; [exists typ; reflexivity |].
           apply Hlt. lia.
        -- intros [Hk Hlt]. destruct k as [| k]; [discriminate Hk |].
           simpl in Hk.
           assert (E' : Some (k0, tv0) = Some (k, tv)).
           { apply IH. split; [exact Hk |].
             intros j Hj. apply (Hlt (S j)). lia. }
           inversion E'; subst. reflexivity.
      * split; [discriminate |].
        intros [Hk Hlt]. destruct k as [| k]; [discriminate Hk |].
        simpl in Hk.
        assert (E' : @None (nat * TabView) = Some (k, tv)).
        { apply IH. split; [exact Hk |].
          intros j Hj. apply (Hlt (S j)). lia. }
        discriminate E'.
Qed.

(** C9 as stated fails: the handler asserts that [Data] holds an int before
    it looks for the container, so on a tab button whose [Data] was never
    set the click panics although the button has no [TabView] ancestor. *)
Lemma C9_close_click_untagged_button_panics :
  ~ (forall (tbb : Button) (path : list Ancestor),
        BType tbb = KiT_TabButton ->
        (forall (j : nat) (a : Ancestor),
            path !! j = Some a -> exists typ, a = AncOther typ) ->
        CloseClicked tbb path = Some path).
Proof.
  intros H.
  specialize (H (NewButton KiT_TabButton "tab") [AncOther KiT_Frame] eq_refl).
  assert (Hc : CloseClicked (NewButton KiT_TabButton "tab")
                 [AncOther KiT_Frame] = None) by reflexivity.
  rewrite H in Hc; [discriminate Hc |].
  intros [| j] a Hj; simpl in Hj; [| discriminate Hj].
  inversion Hj; subst. exists KiT_Frame. reflexivity.
Qed.

(** C9, amended (missing-ancestor no-op).  For a tab button whose [Data]
    holds the int [idx]: when no node above it is a [TabView], a click on its
    close control returns and changes nothing; when the nearest [TabView]
    above it is [tvv], at distance [k], the click is
    [DeleteTabIndexAction(idx)] on [tvv] and touches no other node. *)
Theorem C9_close_click (tbb : Button) (idx : Z) (path : list Ancestor) :
  BType tbb = KiT_TabButton ->
  Data tbb = Some idx ->
  ((forall (j : nat) (a : Ancestor),
       path !! j = Some a -> exists typ, a = AncOther typ) ->
   CloseClicked tbb path = Some path) /\
  (forall (k : nat) (tvv : TabView),
      path !! k = Some (AncTabView tvv) ->
      (forall j : nat, (j < k)%nat ->
                       exists typ, path !! j = Some (AncOther typ)) ->
      CloseClicked tbb path =
      match DeleteTabIndexAction idx tvv with
      | Some (_, tvv') => Some (<[k := AncTabView tvv']> path)
      | None => None
      end).
Proof.
  intros Hty Hd. unfold CloseClicked, TabButton_TabView.
  rewrite (asTabButton_Some _ Hty), Hd.
  split.
  - intros Hnone. apply ParentByType_TabView_None in Hnone.
    rewrite Hnone. reflexivity.
  - intros k tvv Hk Hlt.
    rewrite (proj2 (ParentByType_TabView_Some path k tvv) (conj Hk Hlt)).
    reflexivity.
Qed.

Lemma C9_close_click_witness :
  BType (new_tab "B" 1%Z false) = KiT_TabButton /\
  Data (new_tab "B" 1%Z false) = Some 1%Z /\
  CloseClicked (new_tab "B" 1%Z false) [AncOther KiT_Frame]
    = Some [AncOther KiT_Frame] /\
  CloseClicked (new_tab "B" 1%Z false) [AncOther KiT_Frame; AncTabView threeTabs]
    = Some [AncOther KiT_Frame;
            AncTabView (add_Emitted TabDeleted 1%Z
                          (DeleteTabIndex_result 1%Z threeTabs))].
Proof.
  split; [reflexivity |]. split; [reflexivity |].
  destruct (C9_close_click (new_tab "B" 1%Z false) 1%Z [AncOther KiT_Frame]
              eq_refl eq_refl) as [Hnone _].
  destruct (C9_close_click (new_tab "B" 1%Z false) 1%Z
              [AncOther KiT_Frame; AncTabView threeTabs] eq_refl eq_refl)
    as [_ Hsome].
  split.
  - apply Hnone. intros [| j] a Hj; simpl in Hj; [| discriminate Hj].
    inversion Hj; subst. exists KiT_Frame. reflexivity.
  - rewrite (Hsome 1%nat threeTabs eq_refl).
    + rewrite (DeleteTabIndexAction_valid threeTabs 1%Z wf_threeTabs).
      * reflexivity.
      * vm_compute. split; [discriminate | reflexivity].
    + intros [| j] Hj; [| lia]. exists KiT_Frame. reflexivity.
Defined.

(** ** Further properties of the container *)

Lemma imap_BName (f : nat -> Button -> Button) (l : list Button) :
  (forall i b, BName (f i b) = BName b) ->
  map BName (imap f l) = map BName l.
Proof.
  intros Hf. apply list_eq. intros j.
  rewrite !list_lookup_fmap, list_lookup_imap.
  destruct (l !! j) as [b |]; simpl; [| reflexivity].
  rewrite Hf. reflexivity.
Qed.

Lemma map_range_BName start n g tbs :
  (forall i b, BName (g i b) = BName b) ->
  map BName (map_range start n g tbs) = map BName tbs.
Proof.
  intros Hg. unfold map_range. apply imap_BName.
  intros i b. destruct (_ && _); [apply Hg | reflexivity].
Qed.

Lemma select_only_BName sz idx tbs :
  map BName (select_only sz idx tbs) = map BName tbs.
Proof.
  unfold select_only. apply imap_BName. intros i b.
  destruct (_ =? _)%Z; [reflexivity |]. destruct (_ <? _)%nat; reflexivity.
Qed.

Lemma renumber_BName sz tbs : map BName (renumber sz tbs) = map BName tbs.
Proof. unfold renumber. apply map_range_BName. reflexivity. Qed.

Lemma FrameKids_DeleteTabIndex_result idx tv :
  FrameKids (DeleteTabIndex_result idx tv) =
  take (Z.to_nat idx) (FrameKids tv) ++ drop (S (Z.to_nat idx)) (FrameKids tv).
Proof.
  unfold DeleteTabIndex_result.
  destruct (_ >=? 0)%Z; [| reflexivity].
  destruct (_ =? _)%Z; reflexivity.
Qed.

Lemma BName_DeleteTabIndex_result idx tv :
  map BName (TabsKids (DeleteTabIndex_result idx tv)) =
  map BName (take (Z.to_nat idx) (TabsKids tv) ++
             drop (S (Z.to_nat idx)) (TabsKids tv)).
Proof.
  assert (Hd : map BName (TabsKids (deleted idx tv)) =
               map BName (take (Z.to_nat idx) (TabsKids tv) ++
                          drop (S (Z.to_nat idx)) (TabsKids tv))).
  { unfold deleted. cbn [TabsKids set_TabsKids]. apply renumber_BName. }
  unfold DeleteTabIndex_result.
  destruct (_ >=? 0)%Z; [| exact Hd].
  destruct (_ =? _)%Z; [exact Hd |].
  cbn [TabsKids set_TabsKids set_StackTop]. rewrite select_only_BName.
  exact Hd.
Qed.

Lemma Log_DeleteTabIndex_result idx tv :
  Log (DeleteTabIndex_result idx tv) = Log tv.
Proof.
  unfold DeleteTabIndex_result.
  destruct (_ >=? 0)%Z; [| reflexivity].
  destruct (_ =? _)%Z; reflexivity.
Qed.

(** X1 ([RenumberTabs]).  On a well-formed container the loop returns,
    writes its position into the [Data] of every tab button and changes
    nothing else: no other field of a button, no child behind the tab
    buttons, nothing outside the strip.  Afterwards the tags are aligned. *)
Theorem X1_RenumberTabs_aligns_tags (tv : TabView) :
  wf tv ->
  exists tv' : TabView,
    RenumberTabs tv = Some (tt, tv') /\
    tags_aligned tv' /\
    tv' = set_TabsKids (TabsKids tv') tv /\
    forall j : nat,
      TabsKids tv' !! j =
      (fun b => if (j <? length (FrameKids tv))%nat
                then set_Data (Some (Z.of_nat j)) b else b)
        <$> TabsKids tv !! j.
Proof.
  intros Hwf. eexists. split; [apply RenumberTabs_wf; exact Hwf |].
  split; [apply renumber_aligned |]. split; [reflexivity |].
  intros j. cbn [TabsKids set_TabsKids]. unfold renumber.
  rewrite lookup_map_range.
  destruct (TabsKids tv !! j) as [b |]; [| reflexivity].
  destruct (Nat.leb_spec 0 j); [| lia].
  destruct (Nat.ltb_spec j (0 + length (FrameKids tv)));
    destruct (Nat.ltb_spec j (length (FrameKids tv)));
    try reflexivity; lia.
Qed.

(** X2 ([UnselectOtherTabs]).  On a well-formed container the loop
    returns, clears the selected state of every tab button but the one at
    [idx] and changes nothing else; with [idx] outside the tabs it clears
    them all. *)
Theorem X2_UnselectOtherTabs_clears_others (tv : TabView) (idx : Z) :
  wf tv ->
  exists tv' : TabView,
    UnselectOtherTabs idx tv = Some (tt, tv') /\
    tv' = set_TabsKids (TabsKids tv') tv /\
    (forall j : nat,
        TabsKids tv' !! j =
        (fun b => if (j <? length (FrameKids tv))%nat
                     && negb (Z.of_nat j =? idx)%Z
                  then SetSelectedState false b else b)
          <$> TabsKids tv !! j) /\
    (forall (j : nat) (b : Button),
        (j < length (FrameKids tv))%nat -> Z.of_nat j <> idx ->
        TabsKids tv' !! j = Some b -> Selected b = false).
Proof.
  intros Hwf. eexists. split; [apply UnselectOtherTabs_wf; exact Hwf |].
  split; [reflexivity |].
  assert (Hlook : forall j : nat,
             unselect_others (length (FrameKids tv)) idx (TabsKids tv) !! j =
             (fun b => if (j <? length (FrameKids tv))%nat
                          && negb (Z.of_nat j =? idx)%Z
                       then SetSelectedState false b else b)
               <$> TabsKids tv !! j).
  { intros j. unfold unselect_others. rewrite lookup_map_range.
    destruct (TabsKids tv !! j) as [b |]; [| reflexivity].
    destruct (Nat.leb_spec 0 j); [| lia].
    destruct (Nat.ltb_spec j (0 + length (FrameKids tv)));
      destruct (Nat.ltb_spec j (length (FrameKids tv))); try lia;
      destruct (Z.of_nat j =? idx)%Z; reflexivity. }
  split; [exact Hlook |].
  intros j b Hj Hne. cbn [TabsKids set_TabsKids]. rewrite Hlook.
  destruct (TabsKids tv !! j) as [c |]; [| discriminate].
  destruct (Nat.ltb_spec j (length (FrameKids tv))); [| lia].
  destruct (Z.eqb_spec (Z.of_nat j) idx); [contradiction |].
  intros Hb. inversion Hb; subst. reflexivity.
Qed.

(** X3 ([DeleteTabIndex] contract).  On a well-formed container with [n]
    tabs and a valid index, [DeleteTabIndex] returns the removed widget when
    [destroy] is false and nil when it is true, with success; the stack and
    the tab names are the old ones without position [idx], in order; the
    tags are aligned; nothing is logged or emitted.  On an invalid index it
    returns (nil, false) and only logs the diagnostic. *)
Theorem X3_DeleteTabIndex_contract (tv : TabView) (idx : Z) (destroy : bool) :
  wf tv ->
  let n := len (FrameKids tv) in
  let i := Z.to_nat idx in
  ((0 <= idx < n)%Z ->
   exists (widg : Node2D) (tv' : TabView),
     FrameKids tv !! i = Some widg /\
     DeleteTabIndex idx destroy tv =
       Some ((if destroy then None else Some widg, true), tv') /\
     FrameKids tv' = take i (FrameKids tv) ++ drop (S i) (FrameKids tv) /\
     map BName (TabsKids tv') =
       map BName (take i (TabsKids tv) ++ drop (S i) (TabsKids tv)) /\
     len (FrameKids tv') = (n - 1)%Z /\
     tags_aligned tv' /\ wf tv' /\
     Log tv' = Log tv /\ Emitted tv' = Emitted tv) /\
  ((idx < 0 \/ n <= idx)%Z ->
   DeleteTabIndex idx destroy tv =
     Some ((None, false), add_Log (LogOutOfRange idx n) tv)).
Proof.
  intros Hwf n i. split.
  - intros Hr.
    destruct (DeleteTabIndex_wf tv idx destroy Hwf Hr) as (widg & Hw & HD).
    exists widg, (DeleteTabIndex_result idx tv).
    split; [exact Hw |]. split; [exact HD |].
    split; [apply FrameKids_DeleteTabIndex_result |].
    split; [apply BName_DeleteTabIndex_result |].
    split.
    { unfold len. rewrite FrameKids_DeleteTabIndex_result.
      rewrite length_delete_at by (unfold n, len in Hr; lia).
      unfold n, len in *. lia. }
    split; [apply DeleteTabIndex_result_aligned |].
    split; [apply wf_DeleteTabIndex_result; assumption |].
    split; [apply Log_DeleteTabIndex_result |].
    apply Emitted_DeleteTabIndex_result.
  - intros Hr. apply DeleteTabIndex_invalid; [apply (wf_inited _ Hwf) | exact Hr].
Qed.

Lemma delete_insert_middle {A : Type} (l : list A) (i : nat) (x : A) :
  (i <= length l)%nat ->
  take i (take i l ++ x :: drop i l) ++ drop (S i) (take i l ++ x :: drop i l)
  = l.
Proof.
  intros Hi.
  rewrite take_app_le by (rewrite length_take; lia).
  rewrite take_take. replace (i `min` i)%nat with i by lia.
  rewrite drop_app_ge by (rewrite length_take; lia).
  rewrite length_take. replace (S i - i `min` length l)%nat with 1%nat by lia.
  simpl. rewrite drop_0. apply take_drop.
Qed.

(** X4 (insert then delete).  On a well-formed container, [InsertTab] at a
    documented index followed by [DeleteTabIndex] at that index without
    destroy gives back the inserted widget and restores the content stack
    and the order of the tab names; nothing is logged or emitted. *)
Theorem X4_InsertTab_DeleteTabIndex_round_trip (tv : TabView) (w : Node2D) (label : string)
  (idx : Z) :
  wf tv -> (0 <= idx <= len (FrameKids tv))%Z ->
  exists (tv1 tv2 : TabView) (w' : Node2D),
    InsertTab w label idx tv = Some (tt, tv1) /\
    DeleteTabIndex idx false tv1 = Some ((Some w', true), tv2) /\
    NodeId w' = NodeId w /\
    FrameKids tv2 = FrameKids tv /\
    map BName (TabsKids tv2) = map BName (TabsKids tv) /\
    Log tv2 = Log tv /\ Emitted tv2 = Emitted tv.
Proof.
  intros Hwf Hr. pose proof (wf_le _ Hwf) as Hle.
  pose proof (InsertTab_wf tv w label idx Hwf Hr) as HI.
  pose proof (wf_InsertTab_result tv w label idx Hwf Hr) as Hwf1.
  assert (Hi : (Z.to_nat idx <= length (FrameKids tv))%nat)
    by (unfold len in Hr; lia).
  assert (Hr1 : (0 <= idx < len (FrameKids (InsertTab_result w label idx tv)))%Z).
  { unfold len, InsertTab_result. cbn [FrameKids]. rewrite length_middle.
    unfold len in Hr. lia. }
  destruct (DeleteTabIndex_wf _ idx false Hwf1 Hr1) as (w' & Hw' & HD).
  exists (InsertTab_result w label idx tv),
    (DeleteTabIndex_result idx (InsertTab_result w label idx tv)), w'.
  split; [exact HI |]. split; [exact HD |].
  split.
  { unfold InsertTab_result in Hw'. cbn [FrameKids] in Hw'.
    rewrite lookup_middle in Hw' by exact Hi.
    inversion Hw'; subst. destruct (_ =? _)%nat; reflexivity. }
  split.
  { rewrite FrameKids_DeleteTabIndex_result.
    unfold InsertTab_result. cbn [FrameKids].
    apply delete_insert_middle. exact Hi. }
  split.
  { rewrite BName_DeleteTabIndex_result.
    unfold InsertTab_result. cbn [TabsKids].
    rewrite delete_insert_middle by lia. reflexivity. }
  split.
  { rewrite Log_DeleteTabIndex_result. reflexivity. }
  rewrite Emitted_DeleteTabIndex_result. reflexivity.
Qed.

Lemma CurTab_in_range tv w :
  Inited tv = true -> (0 <= StackTop tv)%Z ->
  FrameKids tv !! Z.to_nat (StackTop tv) = Some w ->
  CurTab tv = Some ((Some w, StackTop tv, true), tv).
Proof.
  intros Hi H0 Hw. unfold CurTab.
  rewrite (bind_Some _ _ _ _ _ (NTabs_inited tv Hi)).
  pose proof (lookup_lt_Some _ _ _ Hw) as Hlt.
  destruct (Z.eqb_spec (len (FrameKids tv)) 0); [unfold len in *; lia |].
  rewrite (bind_Some _ _ _ _ _ (Frame_inited tv Hi)).
  unfold bind, gets, lift, ret, KnownChild.
  destruct (Z.ltb_spec (StackTop tv) 0); [lia |].
  rewrite Hw. reflexivity.
Qed.

(** X5 (select, then ask).  On a well-formed container, after
    [SelectTabIndex] at a valid index [CurTab] returns the widget
    [SelectTabIndex] returned, with that index; selecting the index again
    returns the same widget and changes nothing. *)
Theorem X5_SelectTabIndex_then_CurTab (tv : TabView) (idx : Z) :
  wf tv -> (0 <= idx < len (FrameKids tv))%Z ->
  exists (w : Node2D) (tv' : TabView),
    SelectTabIndex idx tv = Some ((Some w, true), tv') /\
    CurTab tv' = Some ((Some w, idx, true), tv') /\
    SelectTabIndex idx tv' = Some ((Some w, true), tv') /\
    FrameKids tv' = FrameKids tv.
Proof.
  intros Hwf Hr.
  destruct (SelectTabIndex_valid tv idx Hwf Hr) as (w & Hw & HS).
  exists w. eexists. split; [exact HS |].
  destruct (Z.eqb_spec (StackTop tv) idx) as [E | E].
  - split; [| split; [| reflexivity]].
    + rewrite <- E. apply CurTab_in_range;
        [apply (wf_inited _ Hwf) | lia | rewrite E; exact Hw].
    + rewrite HS. destruct (Z.eqb_spec (StackTop tv) idx); [reflexivity | lia].
  - set (tv' := set_StackTop idx _).
    assert (Hwf' : wf tv') by (apply wf_set_StackTop, wf_select_only; exact Hwf).
    split; [| split; [| reflexivity]].
    + apply (CurTab_in_range tv' w); [apply (wf_inited _ Hwf') | simpl; lia |].
      exact Hw.
    + destruct (SelectTabIndex_valid tv' idx Hwf' Hr) as (w2 & Hw2 & HS2).
      rewrite HS2. change (StackTop tv') with idx. rewrite Z.eqb_refl.
      change (FrameKids tv') with (FrameKids tv) in Hw2.
      rewrite Hw in Hw2. inversion Hw2; subst. reflexivity.
Qed.

Lemma valid_index_spec idx tv :
  valid_index idx tv = true <-> (0 <= idx < len (FrameKids tv))%Z.
Proof.
  unfold valid_index.
  destruct (Z.leb_spec 0 idx); destruct (Z.ltb_spec idx (len (FrameKids tv)));
    simpl; split; intros; try lia; try discriminate; reflexivity.
Qed.

Lemma valid_index_false idx tv :
  valid_index idx tv = false <-> (idx < 0 \/ len (FrameKids tv) <= idx)%Z.
Proof.
  unfold valid_index.
  destruct (Z.leb_spec 0 idx); destruct (Z.ltb_spec idx (len (FrameKids tv)));
    simpl; split; intros; try lia; try discriminate; reflexivity.
Qed.

Lemma SelectTabIndex_result tv idx :
  wf tv ->
  exists r, SelectTabIndex idx tv = Some (r, select_result idx tv) /\
            snd r = valid_index idx tv.
Proof.
  intros Hwf. unfold select_result.
  destruct (valid_index idx tv) eqn:E.
  - apply valid_index_spec in E.
    destruct (SelectTabIndex_valid tv idx Hwf E) as (w & _ & HS).
    eexists. split; [exact HS | reflexivity].
  - apply valid_index_false in E.
    rewrite (SelectTabIndex_invalid tv idx (wf_inited _ Hwf) E).
    eexists. split; reflexivity.
Qed.

Lemma DeleteTabIndex_dresult tv idx destroy :
  wf tv ->
  exists r, DeleteTabIndex idx destroy tv = Some (r, delete_result idx tv) /\
            snd r = valid_index idx tv.
Proof.
  intros Hwf. unfold delete_result.
  destruct (valid_index idx tv) eqn:E.
  - apply valid_index_spec in E.
    destruct (DeleteTabIndex_wf tv idx destroy Hwf E) as (w & _ & HD).
    eexists. split; [exact HD | reflexivity].
  - apply valid_index_false in E.
    rewrite (DeleteTabIndex_invalid tv idx destroy (wf_inited _ Hwf) E).
    eexists. split; reflexivity.
Qed.

Lemma IndexByName_nonneg kids label i r :
  IndexByName_from kids label i = Some r -> (i <= r)%Z.
Proof.
  intros H. apply IndexByName_from_Some in H.
  destruct H as (j & b & -> & _). lia.
Qed.

Lemma InsertNewTab_returns tv id typ label idx :
  wf tv -> (0 <= idx <= len (FrameKids tv))%Z ->
  InsertNewTab id typ label idx tv =
  Some (if (length (FrameKids tv) =? 0)%nat then NewNode2D id typ label
        else SetInvisibleTree (NewNode2D id typ label),
        InsertTab_result (NewNode2D id typ label) label idx tv).
Proof.
  intros Hwf Hr. rewrite InsertNewTab_unfold.
  rewrite (bind_Some _ _ _ _ _ (InsertTab_wf tv _ label idx Hwf Hr)).
  unfold bind, gets, lift, KnownChild.
  destruct (Z.ltb_spec idx 0); [lia |].
  unfold InsertTab_result. cbn [FrameKids].
  rewrite lookup_middle by (unfold len in Hr; lia). reflexivity.
Qed.

Lemma run_op_op_result tv op :
  wf tv -> run_op op tv = op_result op tv.
Proof.
  intros Hwf. pose proof (wf_inited _ Hwf) as Hi.
  pose proof (len_nonneg (FrameKids tv)) as Hn.
  destruct op as [widg label idx | widg label | id typ label idx
                 | id typ label | id typ label | idx | idx | label
                 | idx destroy | idx | flag |]; simpl; unfold exec.
  - destruct (Z.leb_spec 0 idx); destruct (Z.leb_spec idx (len (FrameKids tv)));
      simpl.
    + rewrite InsertTab_wf by (auto; lia). reflexivity.
    + destruct (InsertTab widg label idx tv) as [[u t] |] eqn:E; [| reflexivity].
      apply InsertTab_range in E; [lia | exact Hi].
    + destruct (InsertTab widg label idx tv) as [[u t] |] eqn:E; [| reflexivity].
      apply InsertTab_range in E; [lia | exact Hi].
    + destruct (InsertTab widg label idx tv) as [[u t] |] eqn:E; [| reflexivity].
      apply InsertTab_range in E; [lia | exact Hi].
  - rewrite AddTab_wf by exact Hwf. reflexivity.
  - destruct (Z.leb_spec 0 idx); destruct (Z.leb_spec idx (len (FrameKids tv)));
      simpl.
    + rewrite InsertNewTab_returns by (auto; lia). reflexivity.
    + destruct (InsertNewTab id typ label idx tv) as [[u t] |] eqn:E;
        [| reflexivity].
      apply InsertNewTab_range in E; [lia | exact Hi].
    + destruct (InsertNewTab id typ label idx tv) as [[u t] |] eqn:E;
        [| reflexivity].
      apply InsertNewTab_range in E; [lia | exact Hi].
    + destruct (InsertNewTab id typ label idx tv) as [[u t] |] eqn:E;
        [| reflexivity].
      apply InsertNewTab_range in E; [lia | exact Hi].
  - destruct (AddNewTab_wf tv id typ label Hwf) as [w Hw]. rewrite Hw.
    reflexivity.
  - destruct (AddNewTab_wf tv id typ label Hwf) as [w Hw].
    unfold AddNewTabAction. rewrite (bind_Some _ _ _ _ _ Hw). reflexivity.
  - destruct (SelectTabIndex_result tv idx Hwf) as (r & -> & _). reflexivity.
  - destruct (SelectTabIndex_result tv idx Hwf) as (r & HS & Hr).
    unfold SelectTabIndexAction. rewrite (bind_Some _ _ _ _ _ HS), Hr.
    destruct (valid_index idx tv); reflexivity.
  - destruct (IndexByName (TabsKids tv) label) as [j |] eqn:Ej.
    + pose proof (IndexByName_nonneg _ _ _ _ Ej) as Hj.
      destruct (Z.ltb_spec j (len (FrameKids tv))) as [Hlt | Hge].
      * destruct (KnownChild_in_range (FrameKids tv) j) as [w Hw]; [lia |].
        destruct (SelectTabIndex_result tv j Hwf) as (r & HS & _).
        unfold SelectTabByName.
        rewrite (bind_Some _ _ _ _ _ (TabByName_found tv label j w Hi Ej Hw)).
        cbv iota. unfold bind at 1. unfold bind at 1. rewrite HS.
        reflexivity.
      * assert (HT : TabByName label tv = None).
        { unfold TabByName.
          rewrite (bind_Some _ _ _ _ _ (Tabs_inited tv Hi)), Ej.
          rewrite (bind_Some _ _ _ _ _ (Frame_inited tv Hi)).
          unfold bind, lift, KnownChild.
          destruct (Z.ltb_spec j 0); [reflexivity |].
          rewrite (lookup_ge_None_2 (FrameKids tv))
            by (unfold len in Hge; lia).
          reflexivity. }
        unfold SelectTabByName, bind. rewrite HT. reflexivity.
    + unfold SelectTabByName.
      rewrite (bind_Some _ _ _ _ _ (TabByName_not_found tv label Hi Ej)).
      reflexivity.
  - destruct (DeleteTabIndex_dresult tv idx destroy Hwf) as (r & -> & _).
    reflexivity.
  - destruct (DeleteTabIndex_dresult tv idx true Hwf) as (r & HD & Hr).
    unfold DeleteTabIndexAction. rewrite (bind_Some _ _ _ _ _ HD), Hr.
    destruct (valid_index idx tv); reflexivity.
  - reflexivity.
  - rewrite ConfigNewTabButton_wf by exact Hwf. reflexivity.
Qed.









Lemma tags_aligned_append tv widg label :
  wf tv -> tags_aligned tv ->
  tags_aligned (InsertTab_result widg label (len (FrameKids tv)) tv).
Proof.
  intros Hwf Ha i b. pose proof (wf_le _ Hwf) as Hle.
  unfold InsertTab_result, len. cbn [TabsKids FrameKids].
  rewrite Nat2Z.id, length_middle. intros Hi Hb.
  destruct (decide (i = length (FrameKids tv))) as [-> | Hne].
  - rewrite lookup_middle in Hb by exact Hle.
    inversion Hb; subst. reflexivity.
  - rewrite lookup_middle_lt in Hb by lia.
    apply (Ha i b); [lia | exact Hb].
Qed.

Lemma tags_aligned_select_result tv idx :
  tags_aligned tv -> tags_aligned (select_result idx tv).
Proof.
  intros Ha. unfold select_result.
  destruct (valid_index idx tv); [| exact Ha].
  destruct (_ =? _)%Z; [exact Ha |].
  intros i b Hi Hb. cbn [TabsKids FrameKids set_TabsKids set_StackTop] in *.
  destruct (select_only_Data _ _ _ _ _ Hb) as (c & Hc & ->).
  apply (Ha i c Hi Hc).
Qed.

Lemma tags_aligned_delete_result tv idx :
  tags_aligned tv -> tags_aligned (delete_result idx tv).
Proof.
  intros Ha. unfold delete_result.
  destruct (valid_index idx tv); [apply DeleteTabIndex_result_aligned | exact Ha].
Qed.

Lemma tags_aligned_ConfigNewTabButton_result tv :
  wf tv -> tags_aligned tv -> tags_aligned (ConfigNewTabButton_result tv).
Proof.
  intros Hwf Ha. pose proof (wf_le _ Hwf) as Hle.
  unfold ConfigNewTabButton_result.
  destruct (NewTabButton tv); destruct (_ =? _)%nat; try exact Ha.
  - intros i b Hi Hb. cbn [TabsKids FrameKids set_TabsKids set_NewTabType] in *.
    rewrite lookup_app_l in Hb by lia. apply (Ha i b Hi Hb).
  - intros i b Hi Hb. cbn [TabsKids FrameKids set_TabsKids] in *.
    rewrite lookup_take_lt in Hb by lia. apply (Ha i b Hi Hb).
Qed.

Lemma tags_aligned_op_result tv op tv' :
  wf tv -> tags_aligned tv -> keeps_tags op tv ->
  op_result op tv = Some tv' -> tags_aligned tv'.
Proof.
  intros Hwf Ha.
  destruct op as [widg label idx | widg label | id typ label idx
                 | id typ label | id typ label | idx | idx | label
                 | idx destroy | idx | flag |]; simpl; intros Hk.
  - subst idx. destruct (_ && _); intros E; inversion E; subst.
    apply tags_aligned_append; assumption.
  - intros E; inversion E; subst. apply tags_aligned_append; assumption.
  - subst idx. destruct (_ && _); intros E; inversion E; subst.
    apply tags_aligned_append; assumption.
  - intros E; inversion E; subst. apply tags_aligned_append; assumption.
  - intros E; inversion E; subst.
    apply (tags_aligned_append tv (NewNode2D id typ label) label); assumption.
  - intros E; inversion E; subst. apply tags_aligned_select_result. exact Ha.
  - intros E; inversion E; subst.
    destruct (valid_index idx tv); apply (tags_aligned_select_result tv idx Ha).
  - destruct (IndexByName (TabsKids tv) label) as [j |].
    + destruct (j <? len (FrameKids tv))%Z; intros E; inversion E; subst.
      apply tags_aligned_select_result. exact Ha.
    + intros E; inversion E; subst. exact Ha.
  - intros E; inversion E; subst. apply tags_aligned_delete_result. exact Ha.
  - intros E; inversion E; subst.
    destruct (valid_index idx tv); apply (tags_aligned_delete_result tv idx Ha).
  - intros E; inversion E; subst. exact Ha.
  - intros E; inversion E; subst.
    apply tags_aligned_ConfigNewTabButton_result; assumption.
Qed.








Lemma effects_select_result tv idx :
  Emitted (select_result idx tv) = Emitted tv /\
  Log (select_result idx tv) =
    Log tv ++ (if valid_index idx tv then []
               else [LogOutOfRange idx (len (FrameKids tv))]) /\
  FrameKids (select_result idx tv) = FrameKids tv.
Proof.
  unfold select_result. destruct (valid_index idx tv).
  - destruct (_ =? _)%Z; cbn; rewrite app_nil_r; auto.
  - cbn. auto.
Qed.

Lemma effects_delete_result tv idx :
  Emitted (delete_result idx tv) = Emitted tv /\
  Log (delete_result idx tv) =
    Log tv ++ (if valid_index idx tv then []
               else [LogOutOfRange idx (len (FrameKids tv))]) /\
  len (FrameKids (delete_result idx tv)) =
    (len (FrameKids tv) + (if valid_index idx tv then (-1) else 0))%Z.
Proof.
  unfold delete_result. destruct (valid_index idx tv) eqn:E.
  - apply valid_index_spec in E.
    rewrite Emitted_DeleteTabIndex_result, Log_DeleteTabIndex_result,
      FrameKids_DeleteTabIndex_result, app_nil_r.
    split; [reflexivity |]. split; [reflexivity |].
    unfold len in *. rewrite length_delete_at by lia. lia.
  - cbn. split; [reflexivity |]. split; [reflexivity | lia].
Qed.

Lemma effects_config_aux tv :
  Emitted (ConfigNewTabButton_result tv) = Emitted tv /\
  Log (ConfigNewTabButton_result tv) = Log tv /\
  FrameKids (ConfigNewTabButton_result tv) = FrameKids tv.
Proof.
  unfold ConfigNewTabButton_result.
  destruct (NewTabButton tv); destruct (_ =? _)%nat; auto.
Qed.

Lemma effects_op_result tv op tv' :
  op_result op tv = Some tv' ->
  Emitted tv' = Emitted tv ++ op_signals op tv /\
  Log tv' = Log tv ++ op_log op tv /\
  len (FrameKids tv') = (len (FrameKids tv) + op_tabs op tv)%Z.
Proof.
  assert (Hins : forall widg label idx,
             Emitted (InsertTab_result widg label idx tv) = Emitted tv ++ [] /\
             Log (InsertTab_result widg label idx tv) = Log tv ++ [] /\
             len (FrameKids (InsertTab_result widg label idx tv)) =
               (len (FrameKids tv) + 1)%Z).
  { intros widg label idx. unfold InsertTab_result, len.
    cbn [Emitted Log FrameKids]. rewrite length_middle, !app_nil_r.
    repeat split. lia. }
  destruct (effects_config_aux tv) as [Hc1 [Hc2 Hc3]].
  destruct op as [widg label idx | widg label | id typ label idx
                 | id typ label | id typ label | idx | idx | label
                 | idx destroy | idx | flag |]; simpl.
  - destruct (_ && _); intros E; inversion E; subst. apply Hins.
  - intros E; inversion E; subst. apply Hins.
  - destruct (_ && _); intros E; inversion E; subst. apply Hins.
  - intros E; inversion E; subst. apply Hins.
  - intros E; inversion E; subst.
    destruct (Hins (NewNode2D id typ label) label (len (FrameKids tv)))
      as (H1 & H2 & H3).
    cbn [Emitted Log FrameKids add_Emitted].
    rewrite H1, H2, H3, !app_nil_r. auto.
  - intros E; inversion E; subst.
    destruct (effects_select_result tv idx) as (H1 & H2 & H3).
    rewrite H1, H2, H3, app_nil_r. split; [reflexivity |].
    split; [reflexivity | lia].
  - intros E; inversion E; subst.
    destruct (effects_select_result tv idx) as (H1 & H2 & H3).
    destruct (valid_index idx tv); cbn [Emitted Log FrameKids add_Emitted];
      rewrite H1, H2, H3, ?app_nil_r; (split; [reflexivity |]);
      (split; [reflexivity | lia]).
  - destruct (IndexByName (TabsKids tv) label) as [j |] eqn:Ej.
    + destruct (Z.ltb_spec j (len (FrameKids tv))) as [Hlt | Hge];
        intros E; inversion E; subst.
      destruct (effects_select_result tv j) as (H1 & H2 & H3).
      assert (Hv : valid_index j tv = true).
      { apply valid_index_spec.
        split; [apply (IndexByName_nonneg _ _ _ _ Ej) | exact Hlt]. }
      rewrite Hv in H2.
      rewrite H1, H2, H3, !app_nil_r.
      split; [reflexivity |]. split; [reflexivity | lia].
    + intros E; inversion E; subst. rewrite !app_nil_r.
      split; [reflexivity |]. split; [reflexivity | lia].
  - intros E; inversion E; subst.
    destruct (effects_delete_result tv idx) as (H1 & H2 & H3).
    rewrite H1, H2, H3, app_nil_r. auto.
  - intros E; inversion E; subst.
    destruct (effects_delete_result tv idx) as (H1 & H2 & H3).
    destruct (valid_index idx tv); cbn [Emitted Log FrameKids add_Emitted];
      rewrite H1, H2, H3, ?app_nil_r; auto.
  - intros E; inversion E; subst. cbn. rewrite !app_nil_r.
    split; [reflexivity |]. split; [reflexivity | lia].
  - intros E; inversion E; subst. rewrite Hc1, Hc2, Hc3, !app_nil_r.
    split; [reflexivity |]. split; [reflexivity | lia].
Qed.

Lemma append_middle {A : Type} (l : list A) (x : A) :
  take (length l) l ++ x :: drop (length l) l = l ++ [x].
Proof. rewrite take_ge, drop_ge by lia. reflexivity. Qed.

Lemma AddNewTabAction_result tv id typ label :
  wf tv ->
  let first := (length (FrameKids tv) =? 0)%nat in
  let w := if first then NewNode2D id typ label
           else SetInvisibleTree (NewNode2D id typ label) in
  let n := len (FrameKids tv) in
  AddNewTabAction id typ label tv =
  Some ((w, n),
        add_Emitted TabAdded n
          (InsertTab_result (NewNode2D id typ label) label n tv)).
Proof.
  intros Hwf first w n. pose proof (wf_inited _ Hwf) as Hi.
  unfold AddNewTabAction, AddNewTab.
  unfold bind at 1. unfold bind at 1.
  rewrite (Frame_inited tv Hi).
  unfold bind at 1.
  rewrite InsertNewTab_returns
    by (auto; pose proof (len_nonneg (FrameKids tv)); lia).
  reflexivity.
Qed.

(** X6 ([AddNewTabAction]).  On a well-formed container with [n] tabs it
    returns a new widget of the given type, named by the label, and the
    index [n]; the widget is appended to the stack (invisible unless it is
    the first tab), its button sits at [n] with tag [n], and exactly one
    [TabAdded] signal carrying [n] is emitted. *)
Theorem X6_AddNewTabAction_appends (tv : TabView) (id : nat) (typ : KiType)
  (label : string) :
  wf tv ->
  let n := len (FrameKids tv) in
  exists (w : Node2D) (tv' : TabView),
    AddNewTabAction id typ label tv = Some ((w, n), tv') /\
    NodeId w = id /\ NodeType w = typ /\ NodeName w = label /\
    Invisible w = negb (n =? 0)%Z /\
    FrameKids tv' = FrameKids tv ++ [w] /\
    KnownChild (TabsKids tv') n = Some (new_tab label n (n =? 0)%Z) /\
    StackTop tv' = (if (n =? 0)%Z then 0%Z else StackTop tv) /\
    Emitted tv' = Emitted tv ++ [(TabAdded, n)] /\
    Log tv' = Log tv.
Proof.
  intros Hwf n. pose proof (wf_le _ Hwf) as Hle.
  assert (Hfirst : (length (FrameKids tv) =? 0)%nat = (n =? 0)%Z).
  { unfold n, len.
    destruct (Nat.eqb_spec (length (FrameKids tv)) 0);
      destruct (Z.eqb_spec (Z.of_nat (length (FrameKids tv))) 0);
      try reflexivity; lia. }
  eexists. eexists.
  split; [apply AddNewTabAction_result; exact Hwf |].
  rewrite Hfirst.
  split; [destruct (n =? 0)%Z; reflexivity |].
  split; [destruct (n =? 0)%Z; reflexivity |].
  split; [destruct (n =? 0)%Z; reflexivity |].
  split; [destruct (n =? 0)%Z; reflexivity |].
  unfold InsertTab_result.
  cbn [FrameKids TabsKids StackTop Emitted Log add_Emitted].
  rewrite Hfirst. unfold n, len. rewrite Nat2Z.id.
  split; [apply append_middle |].
  split.
  { unfold KnownChild.
    destruct (Z.ltb_spec (Z.of_nat (length (FrameKids tv))) 0); [lia |].
    rewrite Nat2Z.id. apply lookup_middle. exact Hle. }
  repeat split.
Qed.

(** X7 (click on a tab button).  On a well-formed container, a click on
    the tab button at [pos] whose [Data] holds [d] does what
    [SelectTabIndex(d)] does and emits no signal.  When the tags are aligned
    [d] is [pos], and afterwards the visible index is [pos]. *)
Theorem X7_TabClicked_selects (tv : TabView) (pos : nat) (b : Button) (d : Z) :
  wf tv -> (pos < length (FrameKids tv))%nat ->
  TabsKids tv !! pos = Some b -> Data b = Some d ->
  exists r : option Node2D * bool,
    SelectTabIndex d tv = Some (r, select_result d tv) /\
    TabClicked pos tv = Some (tt, select_result d tv) /\
    Emitted (select_result d tv) = Emitted tv /\
    (tags_aligned tv ->
     d = Z.of_nat pos /\ StackTop (select_result d tv) = Z.of_nat pos).
Proof.
  intros Hwf Hpos Hb Hd.
  destruct (SelectTabIndex_result tv d Hwf) as (r & HS & _).
  exists r. split; [exact HS |].
  split.
  { unfold TabClicked, bind, gets, lift.
    rewrite Hb, (asTabButton_Some b (wf_tabs _ Hwf pos b Hpos Hb)), Hd, HS.
    reflexivity. }
  split; [apply effects_select_result |].
  intros Ha. specialize (Ha pos b Hpos Hb). rewrite Hd in Ha.
  inversion Ha; subst. split; [reflexivity |].
  unfold select_result.
  assert (Hv : valid_index (Z.of_nat pos) tv = true)
    by (apply valid_index_spec; unfold len; lia).
  rewrite Hv.
  destruct (Z.eqb_spec (StackTop tv) (Z.of_nat pos)) as [E | E];
    [exact E | reflexivity].
Qed.


(** X9 ([SelectTabByName]).  On a well-formed container: a name no child
    of the strip has gives (nil, -1, false) and changes nothing, the log
    included; a name whose first match is the tab at [j] gives the widget at
    [j], [j] and true, and leaves what [SelectTabIndex(j)] leaves, with the
    visible index at [j]. *)
Theorem X9_SelectTabByName_first_match (tv : TabView) (label : string) :
  wf tv ->
  ((forall (j : nat) (b : Button),
       TabsKids tv !! j = Some b -> BName b <> label) ->
   SelectTabByName label tv = Some ((None, (-1)%Z, false), tv)) /\
  (forall (j : nat) (b : Button),
      (j < length (FrameKids tv))%nat ->
      TabsKids tv !! j = Some b -> BName b = label ->
      (forall (j' : nat) (b' : Button),
          (j' < j)%nat -> TabsKids tv !! j' = Some b' -> BName b' <> label) ->
      exists w : Node2D,
        FrameKids tv !! j = Some w /\
        SelectTabIndex (Z.of_nat j) tv =
          Some ((Some w, true), select_result (Z.of_nat j) tv) /\
        SelectTabByName label tv =
          Some ((Some w, Z.of_nat j, true), select_result (Z.of_nat j) tv) /\
        StackTop (select_result (Z.of_nat j) tv) = Z.of_nat j /\
        Log (select_result (Z.of_nat j) tv) = Log tv).
Proof.
  intros Hwf. pose proof (wf_inited _ Hwf) as Hi. split.
  - intros Hnone. unfold SelectTabByName.
    rewrite (bind_Some _ _ _ _ _
               (TabByName_not_found tv label Hi
                  (proj2 (IndexByName_from_None _ _ 0%Z) Hnone))).
    reflexivity.
  - intros j b Hj Hb Hname Hfirst.
    assert (Hidx : IndexByName (TabsKids tv) label = Some (Z.of_nat j)).
    { unfold IndexByName. apply IndexByName_from_Some.
      exists j, b. split; [lia |]. split; [exact Hb |].
      split; [exact Hname | exact Hfirst]. }
    assert (Hr : (0 <= Z.of_nat j < len (FrameKids tv))%Z) by (unfold len; lia).
    destruct (SelectTabIndex_valid tv (Z.of_nat j) Hwf Hr) as (w & Hw & HS).
    rewrite Nat2Z.id in Hw.
    assert (Hv : valid_index (Z.of_nat j) tv = true)
      by (apply valid_index_spec; exact Hr).
    assert (HS' : SelectTabIndex (Z.of_nat j) tv =
                  Some ((Some w, true), select_result (Z.of_nat j) tv)).
    { rewrite HS. unfold select_result. rewrite Hv. reflexivity. }
    exists w. split; [exact Hw |]. split; [exact HS' |].
    split.
    { unfold SelectTabByName.
      rewrite (bind_Some _ _ _ _ _
                 (TabByName_found tv label (Z.of_nat j) w Hi Hidx
                    ltac:(rewrite KnownChild_nat; exact Hw))).
      cbv iota. unfold bind at 1. unfold bind at 1. rewrite HS'.
      reflexivity. }
    split.
    { unfold select_result. rewrite Hv.
      destruct (Z.eqb_spec (StackTop tv) (Z.of_nat j)); [assumption | reflexivity]. }
    destruct (effects_select_result tv (Z.of_nat j)) as (_ & HL & _).
    rewrite HL, Hv, app_nil_r. reflexivity.
Qed.

(** X10 (showing and hiding the new-tab button).  On a well-formed
    container without the new-tab button, [ConfigNewTabButton] with the flag
    set appends the button and returns true; with the flag cleared again it
    removes it and returns true, and the strip, the stack and the visible
    index are what they were. *)
Theorem X10_ConfigNewTabButton_toggle (tv : TabView) :
  wf tv -> length (TabsKids tv) = length (FrameKids tv) ->
  exists tv1 tv2 : TabView,
    ConfigNewTabButton (set_NewTabButton true tv) = Some (true, tv1) /\
    TabsKids tv1 = TabsKids tv ++ [new_tab_button] /\
    ConfigNewTabButton (set_NewTabButton false tv1) = Some (true, tv2) /\
    TabsKids tv2 = TabsKids tv /\ FrameKids tv2 = FrameKids tv /\
    StackTop tv2 = StackTop tv /\ NewTabButton tv2 = false /\
    Log tv2 = Log tv /\ Emitted tv2 = Emitted tv.
Proof.
  intros Hwf Hlen.
  pose proof (wf_set_NewTabButton tv true Hwf) as Hwf0.
  pose proof (ConfigNewTabButton_wf _ Hwf0) as H1.
  pose proof (wf_ConfigNewTabButton_result _ Hwf0) as Hwf1.
  unfold ConfigNewTabButton_changes, ConfigNewTabButton_result in H1, Hwf1.
  cbn [NewTabButton TabsKids FrameKids set_NewTabButton] in H1, Hwf1.
  destruct (Nat.eqb_spec (length (TabsKids tv)) (S (length (FrameKids tv))))
    as [E | E]; [lia |].
  cbn [negb] in H1.
  eexists. eexists. split; [exact H1 |].
  split; [reflexivity |].
  match type of Hwf1 with wf ?t => set (tv1 := t) in * end.
  pose proof (wf_set_NewTabButton tv1 false Hwf1) as Hwf2.
  pose proof (ConfigNewTabButton_wf _ Hwf2) as H2.
  unfold ConfigNewTabButton_changes, ConfigNewTabButton_result in H2.
  cbn [NewTabButton TabsKids FrameKids set_NewTabButton set_TabsKids
         set_NewTabType tv1] in H2.
  subst tv1.
  cbn [NewTabButton TabsKids FrameKids set_NewTabButton set_TabsKids
         set_NewTabType] in H2.
  rewrite length_app in H2. simpl length in H2.
  destruct (Nat.eqb_spec (length (TabsKids tv) + 1) (length (FrameKids tv)))
    as [E2 | E2]; [lia |].
  cbn [negb] in H2.
  split; [exact H2 |].
  cbn [TabsKids FrameKids StackTop NewTabButton Log Emitted set_TabsKids
         set_NewTabButton set_NewTabType].
  rewrite <- Hlen, take_app_length. repeat split.
Qed.

(** X11 ([InitTabView]).  It always returns, and a second call changes
    nothing.  A container whose frames exist is left as it is.  On a fresh
    one it builds a well-formed container with no tabs and [StackTop] 0,
    whose strip holds the new-tab button exactly when [NewTabButton] is set,
    in which case a nil [NewTabType] becomes [KiT_Frame]. *)
Theorem X11_InitTabView_first_use (tv : TabView) :
  exists tv1 : TabView,
    InitTabView tv = Some (tt, tv1) /\
    InitTabView tv1 = Some (tt, tv1) /\
    Log tv1 = Log tv /\ Emitted tv1 = Emitted tv /\
    NewTabButton tv1 = NewTabButton tv /\
    (if Inited tv then tv1 = tv
     else wf tv1 /\ FrameKids tv1 = [] /\ StackTop tv1 = 0%Z /\
          TabsKids tv1 = (if NewTabButton tv then [new_tab_button] else []) /\
          NewTabType tv1 =
            (if NewTabButton tv
             then Some (match NewTabType tv with
                        | Some t => t
                        | None => KiT_Frame
                        end)
             else NewTabType tv)).
Proof.
  exists (started tv).
  split; [apply InitTabView_started |].
  split; [apply InitTabView_inited, Inited_started |].
  pose proof (wf_started tv) as Hwf.
  unfold started in *. destruct (Inited tv) eqn:Ei.
  - repeat split.
  - specialize (Hwf ltac:(discriminate)).
    destruct (NewTabButton tv) eqn:Ef; cbn; rewrite ?Ef; repeat split;
      try exact Hwf; apply Hwf.
Qed.

(** X12 (tags stay aligned).  On a well-formed container whose index tags
    are aligned, every operation that returns leaves them aligned, provided
    an insert goes to the end of the tabs. *)
Theorem X12_tags_stay_aligned (tv : TabView) (op : Op) (tv' : TabView) :
  wf tv -> tags_aligned tv -> keeps_tags op tv ->
  run_op op tv = Some tv' -> tags_aligned tv'.
Proof.
  intros Hwf Ha Hk Hop. rewrite (run_op_op_result tv op Hwf) in Hop.
  eapply tags_aligned_op_result; eauto.
Qed.



(** X15 (what an operation emits, logs and counts).  On a well-formed
    container an operation that returns emits one signal exactly when it is
    [AddNewTabAction], or a select or delete action on a valid index; logs
    one diagnostic exactly when it is an index-based select or delete on an
    invalid index; and changes the number of tabs by +1 for an insert, -1
    for a delete at a valid index and 0 otherwise. *)
Theorem X15_operation_effects (tv : TabView) (op : Op) (tv' : TabView) :
  wf tv -> run_op op tv = Some tv' ->
  Emitted tv' = Emitted tv ++ op_signals op tv /\
  Log tv' = Log tv ++ op_log op tv /\
  len (FrameKids tv') = (len (FrameKids tv) + op_tabs op tv)%Z.
Proof.
  intros Hwf Hop. rewrite (run_op_op_result tv op Hwf) in Hop.
  apply effects_op_result. exact Hop.
Qed.


Lemma reachable_threeTabs : reachable threeTabs.
Proof.
  apply (reachable_from_initial false tabsABC). vm_compute. reflexivity.
Qed.

Lemma tags_aligned_threeTabs : tags_aligned threeTabs.
Proof.
  intros [| [| [| i]]] b Hi Hb; simpl in Hi; try lia;
    inversion Hb; subst; reflexivity.
Qed.


Lemma X1_RenumberTabs_aligns_tags_witness :
  wf threeTabs /\
  exists tv' : TabView,
    RenumberTabs threeTabs = Some (tt, tv') /\ tags_aligned tv'.
Proof.
  split; [exact wf_threeTabs |].
  destruct (X1_RenumberTabs_aligns_tags threeTabs wf_threeTabs) as (tv' & H1 & H2 & _).
  exists tv'. split; [exact H1 | exact H2].
Defined.

Lemma X2_UnselectOtherTabs_clears_others_witness :
  wf threeTabs /\
  exists tv' : TabView,
    UnselectOtherTabs 1%Z threeTabs = Some (tt, tv') /\
    tv' = set_TabsKids (TabsKids tv') threeTabs.
Proof.
  split; [exact wf_threeTabs |].
  destruct (X2_UnselectOtherTabs_clears_others threeTabs 1%Z wf_threeTabs)
    as (tv' & H1 & H2 & _).
  exists tv'. split; [exact H1 | exact H2].
Defined.

Lemma X3_DeleteTabIndex_contract_witness :
  wf threeTabs /\
  ((0 <= 1 < len (FrameKids threeTabs))%Z /\
   exists tv' : TabView,
     DeleteTabIndex 1%Z false threeTabs
       = Some ((Some (SetInvisibleTree wB), true), tv') /\
     FrameKids tv' = [wA; SetInvisibleTree wC] /\
     map BName (TabsKids tv') = ["A"; "C"]) /\
  ((7 < 0 \/ len (FrameKids threeTabs) <= 7)%Z /\
   DeleteTabIndex 7%Z true threeTabs =
     Some ((None, false), add_Log (LogOutOfRange 7%Z 3%Z) threeTabs)).
Proof.
  split; [exact wf_threeTabs |].
  destruct (X3_DeleteTabIndex_contract threeTabs 1%Z false wf_threeTabs)
    as [Hv _].
  destruct (X3_DeleteTabIndex_contract threeTabs 7%Z true wf_threeTabs)
    as [_ Hi].
  split.
  - split; [vm_compute; split; [discriminate | reflexivity] |].
    destruct Hv as (w & tv' & Hw & HD & HF & HN & _).
    + vm_compute; split; [discriminate | reflexivity].
    + exists tv'. inversion Hw; subst.
      split; [exact HD |]. split; [exact HF | exact HN].
  - split; [right; vm_compute; discriminate |].
    apply Hi. right; vm_compute; discriminate.
Defined.

Lemma X4_InsertTab_DeleteTabIndex_round_trip_witness :
  wf threeTabs /\ (0 <= 1 <= len (FrameKids threeTabs))%Z /\
  exists (tv1 tv2 : TabView) (w' : Node2D),
    InsertTab (mkNode2D 4 KiT_Frame "D" false) "D" 1%Z threeTabs
      = Some (tt, tv1) /\
    DeleteTabIndex 1%Z false tv1 = Some ((Some w', true), tv2) /\
    NodeId w' = 4%nat /\
    FrameKids tv2 = FrameKids threeTabs /\
    map BName (TabsKids tv2) = ["A"; "B"; "C"].
Proof.
  split; [exact wf_threeTabs |].
  split; [vm_compute; split; discriminate |].
  destruct (X4_InsertTab_DeleteTabIndex_round_trip threeTabs
              (mkNode2D 4 KiT_Frame "D" false) "D" 1%Z wf_threeTabs)
    as (tv1 & tv2 & w' & H1 & H2 & H3 & H4 & H5 & _).
  - vm_compute; split; discriminate.
  - exists tv1, tv2, w'. split; [exact H1 |]. split; [exact H2 |].
    split; [exact H3 |]. split; [exact H4 | exact H5].
Defined.

Lemma X5_SelectTabIndex_then_CurTab_witness :
  wf threeTabs /\ (0 <= 2 < len (FrameKids threeTabs))%Z /\
  exists (w : Node2D) (tv' : TabView),
    SelectTabIndex 2%Z threeTabs = Some ((Some w, true), tv') /\
    CurTab tv' = Some ((Some w, 2%Z, true), tv').
Proof.
  split; [exact wf_threeTabs |].
  split; [vm_compute; split; [discriminate | reflexivity] |].
  destruct (X5_SelectTabIndex_then_CurTab threeTabs 2%Z wf_threeTabs)
    as (w & tv' & H1 & H2 & _).
  - vm_compute; split; [discriminate | reflexivity].
  - exists w, tv'. split; [exact H1 | exact H2].
Defined.

Lemma X6_AddNewTabAction_appends_witness :
  wf threeTabs /\
  exists (w : Node2D) (tv' : TabView),
    AddNewTabAction 4 KiT_Frame "D" threeTabs = Some ((w, 3%Z), tv') /\
    NodeName w = "D" /\
    Emitted tv' = [(TabAdded, 3%Z)].
Proof.
  split; [exact wf_threeTabs |].
  destruct (X6_AddNewTabAction_appends threeTabs 4 KiT_Frame "D" wf_threeTabs)
    as (w & tv' & H1 & _ & _ & H2 & _ & _ & _ & _ & H3 & _).
  exists w, tv'. split; [exact H1 |]. split; [exact H2 | exact H3].
Defined.

Lemma X7_TabClicked_selects_witness :
  wf threeTabs /\ (2 < length (FrameKids threeTabs))%nat /\
  TabsKids threeTabs !! 2%nat = Some (new_tab "C" 2%Z false) /\
  Data (new_tab "C" 2%Z false) = Some 2%Z /\
  TabClicked 2 threeTabs = Some (tt, select_result 2%Z threeTabs) /\
  Emitted (select_result 2%Z threeTabs) = [].
Proof.
  split; [exact wf_threeTabs |]. split; [simpl; lia |].
  split; [reflexivity |]. split; [reflexivity |].
  destruct (X7_TabClicked_selects threeTabs 2 (new_tab "C" 2%Z false) 2%Z wf_threeTabs)
    as (r & _ & H2 & H3 & _).
  - simpl; lia.
  - reflexivity.
  - reflexivity.
  - split; [exact H2 | exact H3].
Defined.


Lemma X9_SelectTabByName_first_match_witness :
  wf threeTabs /\
  SelectTabByName "Z" threeTabs = Some ((None, (-1)%Z, false), threeTabs) /\
  exists w : Node2D,
    SelectTabByName "C" threeTabs =
      Some ((Some w, 2%Z, true), select_result 2%Z threeTabs) /\
    StackTop (select_result 2%Z threeTabs) = 2%Z.
Proof.
  split; [exact wf_threeTabs |].
  destruct (X9_SelectTabByName_first_match threeTabs "Z" wf_threeTabs) as [Hnone _].
  destruct (X9_SelectTabByName_first_match threeTabs "C" wf_threeTabs) as [_ Hsome].
  split.
  - apply Hnone.
    intros [| [| [| j]]] b Hb; simpl in Hb; inversion Hb; subst; discriminate.
  - destruct (Hsome 2%nat (new_tab "C" 2%Z false))
      as (w & _ & _ & H3 & H4 & _).
    + simpl; lia.
    + reflexivity.
    + reflexivity.
    + intros [| [| j']] b' Hj' Hb'; simpl in Hb'; try lia;
        inversion Hb'; subst; discriminate.
    + exists w. split; [exact H3 | exact H4].
Defined.

Lemma X10_ConfigNewTabButton_toggle_witness :
  wf threeTabs /\ length (TabsKids threeTabs) = length (FrameKids threeTabs) /\
  exists tv1 tv2 : TabView,
    ConfigNewTabButton (set_NewTabButton true threeTabs) = Some (true, tv1) /\
    ConfigNewTabButton (set_NewTabButton false tv1) = Some (true, tv2) /\
    TabsKids tv2 = TabsKids threeTabs.
Proof.
  split; [exact wf_threeTabs |]. split; [reflexivity |].
  destruct (X10_ConfigNewTabButton_toggle threeTabs wf_threeTabs eq_refl)
    as (tv1 & tv2 & H1 & _ & H2 & H3 & _).
  exists tv1, tv2. split; [exact H1 |]. split; [exact H2 | exact H3].
Defined.

Lemma X12_tags_stay_aligned_witness :
  wf threeTabs /\ tags_aligned threeTabs /\
  keeps_tags (OpDeleteTabIndex 0%Z true) threeTabs /\
  exists tv' : TabView,
    run_op (OpDeleteTabIndex 0%Z true) threeTabs = Some tv' /\
    tags_aligned tv'.
Proof.
  split; [exact wf_threeTabs |]. split; [exact tags_aligned_threeTabs |].
  split; [exact I |].
  eexists. split; [vm_compute; reflexivity |].
  apply (X12_tags_stay_aligned threeTabs (OpDeleteTabIndex 0%Z true) _ wf_threeTabs
           tags_aligned_threeTabs I).
  vm_compute. reflexivity.
Defined.



Lemma X15_operation_effects_witness :
  wf threeTabs /\
  exists tv' : TabView,
    run_op (OpDeleteTabIndexAction 1%Z) threeTabs = Some tv' /\
    Emitted tv' = [(TabDeleted, 1%Z)] /\ Log tv' = [] /\
    len (FrameKids tv') = 2%Z.
Proof.
  split; [exact wf_threeTabs |].
  eexists. split; [vm_compute; reflexivity |].
  apply (X15_operation_effects threeTabs (OpDeleteTabIndexAction 1%Z) _ wf_threeTabs).
  vm_compute. reflexivity.
Defined.

(** ** TextViewSignals: names and back *)

Lemma valid_cases (i : Z) : (0 <= i < 3)%Z -> i = 0%Z \/ i = 1%Z \/ i = 2%Z.
Proof. lia. Qed.

Lemma String_valid i : (0 <= i < 3)%Z ->
  TextViewSignals_String i = TextViewSignals_name_at i.
Proof.
  intros H. destruct (valid_cases i H) as [-> | [-> | ->]]; reflexivity.
Qed.

Lemma String_fallback i : (i < 0 \/ 3 <= i)%Z ->
  TextViewSignals_String i = Some ("TextViewSignals(" ++ FormatInt10 i ++ ")")%string.
Proof.
  intros H. unfold TextViewSignals_String.
  change (len _TextViewSignals_index - 1)%Z with 3%Z.
  destruct (Z.ltb_spec i 0); [reflexivity |].
  destruct (Z.geb_spec i 3); [reflexivity | lia].
Qed.

Lemma FromString_spec i0 s :
  TextViewSignals_FromString i0 s =
  Some (if String.eqb s "TextViewDone" then (0%Z, None)
        else if String.eqb s "TextViewSelected" then (1%Z, None)
        else if String.eqb s "TextViewSignalsN" then (2%Z, None)
        else (i0, Some (FromString_error s))).
Proof.
  unfold TextViewSignals_FromString.
  change (Z.to_nat (len _TextViewSignals_index - 1)) with 3%nat.
  cbn [FromString_loop].
  change (TextViewSignals_name_at 0) with (Some "TextViewDone").
  change (TextViewSignals_name_at (0 + 1)) with (Some "TextViewSelected").
  change (TextViewSignals_name_at (0 + 1 + 1)) with (Some "TextViewSignalsN").
  cbv iota.
  destruct (String.eqb s "TextViewDone"); [reflexivity |].
  destruct (String.eqb s "TextViewSelected"); [reflexivity |].
  destruct (String.eqb s "TextViewSignalsN"); reflexivity.
Qed.

Lemma fallback_not_name d :
  String.eqb ("TextViewSignals(" ++ d ++ ")")%string "TextViewDone" = false /\
  String.eqb ("TextViewSignals(" ++ d ++ ")")%string "TextViewSelected" = false /\
  String.eqb ("TextViewSignals(" ++ d ++ ")")%string "TextViewSignalsN" = false.
Proof. repeat split; reflexivity. Qed.

Lemma append_paren_inj s1 : forall s2, (s1 ++ ")" = s2 ++ ")")%string -> s1 = s2.
Proof.
  induction s1 as [| c s1 IH]; intros [| c2 s2]; simpl; intros H.
  - reflexivity.
  - inversion H as [[Hc Hs]]. destruct s2; discriminate Hs.
  - inversion H as [[Hc Hs]]. destruct s1; discriminate Hs.
  - inversion H; subst. f_equal. apply IH. assumption.
Qed.

Lemma to_int_ok z : Z.to_int z <> Decimal.Pos Decimal.Nil /\ Z.to_int z <> Decimal.Neg Decimal.Nil.
Proof.
  destruct z as [| p | p]; simpl; split; try discriminate;
    intros H; inversion H as [H1]; apply (DecimalPos.Unsigned.to_uint_nonnil p); exact H1.
Qed.

Lemma FormatInt10_inj a b : FormatInt10 a = FormatInt10 b -> a = b.
Proof.
  unfold FormatInt10. intros H.
  destruct (to_int_ok a) as [Ha1 Ha2]. destruct (to_int_ok b) as [Hb1 Hb2].
  pose proof (NilZero.isi _ Ha1 Ha2) as Ea.
  pose proof (NilZero.isi _ Hb1 Hb2) as Eb.
  rewrite H in Ea. rewrite Ea in Eb. inversion Eb as [E].
  rewrite <- (DecimalZ.of_to a), <- (DecimalZ.of_to b), E. reflexivity.
Qed.

(** X16 ([String] then [FromString]).  [String] returns for every value,
    and [FromString] of its result stores the value back and returns nil
    exactly when [0 <= i < 3]; for any other value it returns the error and
    leaves the receiver as it was. *)
Theorem X16_TextViewSignals_round_trip (i i0 : Z) :
  exists s : string,
    TextViewSignals_String i = Some s /\
    TextViewSignals_FromString i0 s =
    Some (if ((0 <=? i) && (i <? 3))%Z then (i, None)
          else (i0, Some (FromString_error s))).
Proof.
  destruct (Z.leb_spec 0 i) as [H0 | H0];
    [destruct (Z.ltb_spec i 3) as [H1 | H1] |]; cbn [andb].
  - destruct (valid_cases i (conj H0 H1)) as [-> | [-> | ->]];
      eexists; (split; [reflexivity |]); reflexivity.
  - eexists. split; [apply String_fallback; lia |].
    rewrite FromString_spec.
    destruct (fallback_not_name (FormatInt10 i)) as (-> & -> & ->).
    reflexivity.
  - eexists. split; [apply String_fallback; lia |].
    rewrite FromString_spec.
    destruct (fallback_not_name (FormatInt10 i)) as (-> & -> & ->).
    reflexivity.
Qed.

(** X17 ([FromString]).  It never panics.  Either the string is the name
    of a value [j] with [0 <= j < 3], and it stores [j] and returns nil; or
    the string is no such name, and it leaves the receiver as it was and
    returns the error. *)
Theorem X17_TextViewSignals_FromString (i0 : Z) (s : string) :
  (exists j : Z,
      (0 <= j < 3)%Z /\ TextViewSignals_String j = Some s /\
      TextViewSignals_FromString i0 s = Some (j, None)) \/
  ((forall j : Z, (0 <= j < 3)%Z -> TextViewSignals_String j <> Some s) /\
   TextViewSignals_FromString i0 s = Some (i0, Some (FromString_error s))).
Proof.
  rewrite FromString_spec.
  destruct (String.eqb_spec s "TextViewDone") as [-> | N0];
    [left; exists 0%Z; repeat split; lia |].
  destruct (String.eqb_spec s "TextViewSelected") as [-> | N1];
    [left; exists 1%Z; repeat split; lia |].
  destruct (String.eqb_spec s "TextViewSignalsN") as [-> | N2];
    [left; exists 2%Z; repeat split; lia |].
  right. split; [| reflexivity].
  intros j Hj E.
  destruct (valid_cases j Hj) as [-> | [-> | ->]];
    inversion E; subst; contradiction.
Qed.

(** X18 ([String] is injective).  Two values with the same [String] are
    equal, whether named or printed as a number. *)
Theorem X18_TextViewSignals_String_injective (i j : Z) :
  TextViewSignals_String i = TextViewSignals_String j -> i = j.
Proof.
  intros E.
  assert (Hname : forall k, (0 <= k < 3)%Z ->
            TextViewSignals_String k = Some "TextViewDone" \/
            TextViewSignals_String k = Some "TextViewSelected" \/
            TextViewSignals_String k = Some "TextViewSignalsN").
  { intros k Hk. destruct (valid_cases k Hk) as [-> | [-> | ->]]; auto. }
  assert (Hclash : forall k m, (0 <= k < 3)%Z -> (m < 0 \/ 3 <= m)%Z ->
            TextViewSignals_String k <> TextViewSignals_String m).
  { intros k m Hk Hm Ek. rewrite (String_fallback m Hm) in Ek.
    destruct (Hname k Hk) as [H | [H | H]]; rewrite H in Ek;
      inversion Ek. }
  destruct (Z_lt_dec i 0) as [Hi | Hi];
    [| destruct (Z_lt_dec i 3) as [Hi3 | Hi3]];
    (destruct (Z_lt_dec j 0) as [Hj | Hj];
     [| destruct (Z_lt_dec j 3) as [Hj3 | Hj3]]).
  all: try (exfalso; apply (Hclash i j); [lia | lia | exact E]).
  all: try (exfalso; apply (Hclash j i); [lia | lia | symmetry; exact E]).
  all: try (rewrite (String_fallback i), (String_fallback j) in E by lia;
            inversion E as [E'];
            apply FormatInt10_inj, append_paren_inj; exact E').
  destruct (valid_cases i ltac:(lia)) as [-> | [-> | ->]];
    destruct (valid_cases j ltac:(lia)) as [-> | [-> | ->]];
    try reflexivity; discriminate E.
Qed.

Lemma X18_TextViewSignals_String_injective_witness :
  TextViewSignals_String 5 = TextViewSignals_String 5 /\ 5%Z = 5%Z.
Proof.
  split; [reflexivity |].
  apply (X18_TextViewSignals_String_injective 5 5). reflexivity.
Defined.
